(** * gpytorch/models/pyro_deep_gp.py: a shallow embedding

    The module defines [QuadratureDist], [AbstractPyroHiddenGPLayer] and
    [AbstractPyroDeepGP].  The embedding keeps three layers apart:

    - the module as a compilation unit (its [def] signatures, checked by
      Python's compiler when the file is imported);
    - the method bodies, run in an error monad over Python objects
      (attribute stores), module globals and the Pyro runtime;
    - the tensor computation inside [model]: torch's shape algebra is written
      out, entries are IEEE-754 values ([spec_float]), and the numeric
      kernels of collaborators outside the file are left to oracles. *)

From Stdlib Require Import ZArith Lia Floats.SpecFloat.
From stdpp Require Import base list gmap strings.

Set Warnings "-register-all".

Local Open Scope string_scope.
Local Open Scope nat_scope.
Local Open Scope list_scope.

(* ===================================================================== *)
(** ** Python exceptions and the error monad *)
(* ===================================================================== *)

Inductive PyErr :=
| SyntaxError (msg : string)
| NameError (name : string)
| AttributeError (attr : string)
| IndexError
| TypeError
| ZeroDivisionError
| OverflowError
| RuntimeError (msg : string)
| NotImplementedError.

Inductive Result (A : Type) :=
| Ok (a : A)
| Raise (e : PyErr).
Arguments Ok {A} a.
Arguments Raise {A} e.

Definition rbind {A B} (r : Result A) (k : A -> Result B) : Result B :=
  match r with
  | Ok a => k a
  | Raise e => Raise e
  end.

#[global] Instance result_ret : MRet Result := fun _ a => Ok a.
#[global] Instance result_bind : MBind Result := fun _ _ k r => rbind r k.
#[global] Instance result_fmap : FMap Result := fun _ _ f r => rbind r (fun a => Ok (f a)).

(** The error of a Cholesky factorisation that fails. *)
Definition chol_error : PyErr :=
  RuntimeError "cholesky: matrix is not positive definite".

Definition is_ok {A} (r : Result A) : bool :=
  match r with Ok _ => true | Raise _ => false end.

(* ===================================================================== *)
(** ** Tensors: a shape and row-major data *)
(* ===================================================================== *)

Abbreviation F := spec_float.

Record Tensor := mkTensor { shape : list nat; data : list F }.

Definition numel (shp : list nat) : nat := fold_right Nat.mul 1 shp.

(** Row-major offset of a multi-index. *)
Fixpoint offset (shp idx : list nat) : nat :=
  match shp, idx with
  | _ :: shp', i :: idx' => i * numel shp' + offset shp' idx'
  | _, _ => 0
  end.

(** Multi-index of a row-major offset. *)
Fixpoint unravel (shp : list nat) (k : nat) : list nat :=
  match shp with
  | [] => []
  | _ :: shp' => k / numel shp' :: unravel shp' (k mod numel shp')
  end.

Fixpoint in_range (shp idx : list nat) : bool :=
  match shp, idx with
  | [], [] => true
  | d :: shp', i :: idx' => (i <? d) && in_range shp' idx'
  | _, _ => false
  end.

Definition get (t : Tensor) (idx : list nat) : F :=
  nth (offset (shape t) idx) (data t) S754_nan.

Definition tabulate (shp : list nat) (f : list nat -> F) : Tensor :=
  mkTensor shp (map (fun k => f (unravel shp k)) (seq 0 (numel shp))).

Definition rank (t : Tensor) : nat := length (shape t).

(** A dimension argument as torch takes it: negative values count from the
    end; out of range is an IndexError. *)
Definition norm_dim (r : nat) (d : Z) : Result nat :=
  if (0 <=? d)%Z && (d <? Z.of_nat r)%Z then Ok (Z.to_nat d)
  else if (d <? 0)%Z && (- Z.of_nat r <=? d)%Z then Ok (Z.to_nat (Z.of_nat r + d))
  else Raise IndexError.

(** [t.size(d)] *)
Definition size (t : Tensor) (d : Z) : Result nat :=
  i ← norm_dim (rank t) d; Ok (nth i (shape t) 0).

(** [t.dim()] *)
Definition dim (t : Tensor) : nat := rank t.

(** [t.contiguous()]: the same values in row-major layout, which is the
    layout every tensor has here. *)
Definition contiguous (t : Tensor) : Tensor := t.

Definition insert_at {A} (i : nat) (x : A) (l : list A) : list A :=
  take i l ++ x :: drop i l.

Definition remove_at {A} (i : nat) (l : list A) : list A :=
  take i l ++ drop (S i) l.

Definition set_at {A} (i : nat) (x : A) (l : list A) : list A :=
  take i l ++ x :: drop (S i) l.

Definition swap_at (i j : nat) (l : list nat) : list nat :=
  set_at j (nth i l 0) (set_at i (nth j l 0) l).

(** [t.unsqueeze(d)] *)
Definition unsqueeze (t : Tensor) (d : Z) : Result Tensor :=
  i ← norm_dim (S (rank t)) d;
  Ok (tabulate (insert_at i 1 (shape t)) (fun idx => get t (remove_at i idx))).

(** [t.squeeze(d)]: drops the axis when its size is 1, otherwise returns the
    tensor unchanged. *)
Definition squeeze (t : Tensor) (d : Z) : Result Tensor :=
  i ← norm_dim (rank t) d;
  if nth i (shape t) 0 =? 1
  then Ok (tabulate (remove_at i (shape t)) (fun idx => get t (insert_at i 0 idx)))
  else Ok t.

(** Index of an operand entry under broadcasting: the operand's axes are the
    trailing ones, and an axis of size 1 is read at 0. *)
Definition bidx (shp idx : list nat) : list nat :=
  zip_with (fun d i => if d =? 1 then 0 else i) shp
           (drop (length idx - length shp) idx).

Fixpoint expand_ok (src tgt : list nat) : bool :=
  match src, tgt with
  | [], [] => true
  | s :: src', g :: tgt' => ((s =? g) || (s =? 1)) && expand_ok src' tgt'
  | _, _ => false
  end.

(** [t.expand(sizes...)] *)
Definition expand (t : Tensor) (sizes : list nat) : Result Tensor :=
  if (rank t <=? length sizes)
     && expand_ok (shape t) (drop (length sizes - rank t) sizes)
  then Ok (tabulate sizes (fun idx => get t (bidx (shape t) idx)))
  else Raise (RuntimeError "expand: sizes do not match").

(** [t.view(sizes...)].  Only the element count is checked: at each use in this
    file the view splits one axis or merges adjacent axes that are laid out
    contiguously, which torch's stride test accepts. *)
Definition view (t : Tensor) (sizes : list nat) : Result Tensor :=
  if numel (shape t) =? numel sizes
  then Ok (mkTensor sizes (data t))
  else Raise (RuntimeError "view: shape is invalid for input size").

(** [t.transpose(d1, d2)] *)
Definition transpose (t : Tensor) (d1 d2 : Z) : Result Tensor :=
  i ← norm_dim (rank t) d1;
  j ← norm_dim (rank t) d2;
  Ok (tabulate (swap_at i j (shape t)) (fun idx => get t (swap_at i j idx))).

Definition is_perm (r : nat) (perm : list nat) : bool :=
  (length perm =? r) && forallb (fun k => existsb (Nat.eqb k) perm) (seq 0 r).

Fixpoint index_of (k : nat) (perm : list nat) : nat :=
  match perm with
  | [] => 0
  | x :: perm' => if x =? k then 0 else S (index_of k perm')
  end.

(** [t.permute(perm...)]: result axis [k] is source axis [perm[k]]. *)
Definition permute (t : Tensor) (perm : list nat) : Result Tensor :=
  if is_perm (rank t) perm
  then Ok (tabulate (map (fun j => nth j (shape t) 0) perm)
             (fun idx => get t (map (fun j => nth (index_of j perm) idx 0)
                                    (seq 0 (rank t)))))
  else Raise (RuntimeError "permute: invalid permutation").

(** [torch.cat([a, b], dim=d)] *)
Definition cat (a b : Tensor) (d : Z) : Result Tensor :=
  i ← norm_dim (rank a) d;
  if (rank a =? rank b)
     && forallb (fun k => (k =? i) || (nth k (shape a) 0 =? nth k (shape b) 0))
                (seq 0 (rank a))
  then
    let da := nth i (shape a) 0 in
    Ok (tabulate (set_at i (da + nth i (shape b) 0) (shape a))
          (fun idx =>
             let k := nth i idx 0 in
             if k <? da then get a idx else get b (set_at i (k - da) idx)))
  else Raise (RuntimeError "cat: sizes of tensors must match").

(** A slice of one axis: [:k] or [k:], with Python's clamping of the bound to
    the axis size. *)
Inductive Slice := UpTo (k : nat) | From (k : nat).

Definition slice_len (s : Slice) (n : nat) : nat :=
  match s with
  | UpTo k => Nat.min k n
  | From k => n - Nat.min k n
  end.

Definition slice_start (s : Slice) (n : nat) : nat :=
  match s with
  | UpTo _ => 0
  | From k => Nat.min k n
  end.

Definition slice_axis (t : Tensor) (d : Z) (s : Slice) : Result Tensor :=
  i ← norm_dim (rank t) d;
  let n := nth i (shape t) 0 in
  Ok (tabulate (set_at i (slice_len s n) (shape t))
        (fun idx => get t (set_at i (nth i idx 0 + slice_start s n) idx))).

Fixpoint bcast_rev (a b : list nat) : option (list nat) :=
  match a, b with
  | [], _ => Some b
  | _, [] => Some a
  | x :: a', y :: b' =>
      if x =? y then cons x <$> bcast_rev a' b'
      else if x =? 1 then cons y <$> bcast_rev a' b'
      else if y =? 1 then cons x <$> bcast_rev a' b'
      else None
  end.

(** torch's broadcasting of two shapes, aligned at the trailing axis. *)
Definition broadcast (a b : list nat) : Result (list nat) :=
  match bcast_rev (rev a) (rev b) with
  | Some s => Ok (rev s)
  | None => Raise (RuntimeError "shapes are not broadcastable")
  end.

Definition clamp_min_entry (x lo : F) : F := if SFltb x lo then lo else x.

(** [t.clamp_min(lo)], entry by entry. *)
Definition clamp_min (t : Tensor) (lo : F) : Tensor :=
  tabulate (shape t) (fun idx => clamp_min_entry (get t idx) lo).

Definition Fzero : F := S754_zero false.

(* ===================================================================== *)
(** ** Lazy tensors and the numeric kernels of collaborators

    [LazyTensor], [CholLazyTensor], [DiagLazyTensor] and the Gaussian
    [MultivariateNormal] belong to the library but live outside this file.
    Their shape behaviour is written out from the shapes the source's own
    comments and the specification give; the floating-point values they
    compute are left to the oracles of [Numerics]. *)
(* ===================================================================== *)

(** Modelled from the spec: the library's lazy tensors are outside this
    file.  A lazy tensor stands for a batch of matrices: a dense one, one
    given by a Cholesky factor ("K_mm and its Cholesky-like factorization"),
    or a diagonal one ("diagonal covariance"). *)
Inductive LazyTensor :=
| NonLazy (t : Tensor)
| CholLazyTensor (L : Tensor)
| DiagLazyTensor (d : Tensor).

(** Modelled from the spec: the library's [MultivariateNormal] is outside
    this file; "one mean vector and one covariance matrix per output
    channel". *)
Record MVN := mkMVN { loc : Tensor; lazy_covariance_matrix : LazyTensor }.

Record Numerics := {
  (** float format of the tensors' dtype *)
  prec : Z;
  emax : Z;
  (** the constant [add_jitter] adds to the diagonal *)
  jitter_val : F;
  (** inner product of a row and a column; the order of accumulation is the
      BLAS kernel's *)
  dot : list F -> list F -> F;
  (** Cholesky factorisation: whether it succeeds and the factor's entries *)
  chol_ok : Tensor -> bool;
  chol_entry : Tensor -> list nat -> F;
  (** entries of [K^{-1} rhs] and of [diag(rhs^T K^{-1} rhs)] *)
  inv_matmul_entry : LazyTensor -> Tensor -> list nat -> F;
  inv_quad_entry : LazyTensor -> Tensor -> list nat -> F
}.

Definition lt_shape (lt : LazyTensor) : list nat :=
  match lt with
  | NonLazy t => shape t
  | CholLazyTensor L => shape L
  | DiagLazyTensor d => shape d ++ [List.last (shape d) 0]
  end.

Definition batch_of (shp : list nat) : list nat := take (length shp - 2) shp.
Definition rows_of (shp : list nat) : nat := nth (length shp - 2) shp 0.
Definition cols_of (shp : list nat) : nat := nth (length shp - 1) shp 0.

Section Kernels.
Variable N : Numerics.

(** [a - b] with broadcasting, in the dtype's arithmetic. *)
Definition sub (a b : Tensor) : Result Tensor :=
  shp ← broadcast (shape a) (shape b);
  Ok (tabulate shp (fun idx =>
        SFsub (prec N) (emax N) (get a (bidx (shape a) idx))
                                (get b (bidx (shape b) idx)))).

(** Batched matrix product of operands of rank at least 2. *)
Definition matmul_core (a b : Tensor) : Result Tensor :=
  let ba := batch_of (shape a) in
  let bb := batch_of (shape b) in
  let k := cols_of (shape a) in
  if k =? rows_of (shape b) then
    bs ← broadcast ba bb;
    Ok (tabulate (bs ++ [rows_of (shape a); cols_of (shape b)])
          (fun idx =>
             let bi := take (length bs) idx in
             let i := nth (length bs) idx 0 in
             let j := nth (S (length bs)) idx 0 in
             dot N (map (fun l => get a (bidx ba bi ++ [i; l])) (seq 0 k))
                   (map (fun l => get b (bidx bb bi ++ [l; j])) (seq 0 k))))
  else Raise (RuntimeError "matmul: size mismatch").

(** [a.matmul(b)]: a 1-D operand is promoted to a matrix and the added axis
    removed afterwards; 0-D operands are rejected. *)
Definition matmul (a b : Tensor) : Result Tensor :=
  if (rank a =? 0) || (rank b =? 0)
  then Raise (RuntimeError "matmul: both arguments need to be at least 1D")
  else
    a' ← (if rank a =? 1 then unsqueeze a 0 else Ok a);
    b' ← (if rank b =? 1 then unsqueeze b (-1) else Ok b);
    c ← matmul_core a' b';
    c ← (if rank a =? 1 then squeeze c (-2) else Ok c);
    if rank b =? 1 then squeeze c (-1) else Ok c.

Definition is_square (shp : list nat) : bool :=
  (2 <=? length shp) && (rows_of shp =? cols_of shp).

(** Modelled from the spec: [lt.evaluate()], outside this file; the dense
    matrix a lazy tensor stands for. *)
Definition evaluate (lt : LazyTensor) : Result Tensor :=
  match lt with
  | NonLazy t => Ok t
  | CholLazyTensor L => Lt ← transpose L (-2) (-1); matmul L Lt
  | DiagLazyTensor d =>
      let r := rank d in
      Ok (tabulate (lt_shape lt) (fun idx =>
            if nth (r - 1) idx 0 =? nth r idx 0 then get d (take r idx) else Fzero))
  end.

(** Modelled from the spec: [lt.diag()], outside this file; "the diagonal of
    the data-data block", one diagonal for each matrix of the batch. *)
Definition lt_diag (lt : LazyTensor) : Result Tensor :=
  match lt with
  | NonLazy t =>
      if is_square (shape t)
      then Ok (tabulate (batch_of (shape t) ++ [rows_of (shape t)])
                 (fun idx => get t (idx ++ [List.last idx 0])))
      else Raise (RuntimeError "diag: matrix is not square")
  | CholLazyTensor L =>
      if is_square (shape L)
      then Ok (tabulate (batch_of (shape L) ++ [rows_of (shape L)])
                 (fun idx =>
                    let row := map (fun l => get L (idx ++ [l])) (seq 0 (cols_of (shape L))) in
                    dot N row row))
      else Raise (RuntimeError "diag: matrix is not square")
  | DiagLazyTensor d => Ok d
  end.

(** [t[..., s]] *)
Definition getitem1 (t : Tensor) (s : Slice) : Result Tensor :=
  slice_axis t (-1) s.

(** [t[..., s1, s2]] *)
Definition getitem2 (t : Tensor) (s1 s2 : Slice) : Result Tensor :=
  if rank t <? 2 then Raise IndexError
  else t1 ← slice_axis t (-2) s1; slice_axis t1 (-1) s2.

(** Modelled from the spec: [lt[..., s1, s2]] on a lazy tensor, outside this
    file; the "inducing-inducing", "inducing-data" and "data-data" blocks. *)
Definition lt_getitem2 (lt : LazyTensor) (s1 s2 : Slice) : Result LazyTensor :=
  t ← evaluate lt; b ← getitem2 t s1 s2; Ok (NonLazy b).

(** Modelled from the spec: [lt.add_jitter()], outside this file; a small
    value "added to covariance diagonals". *)
Definition add_jitter (lt : LazyTensor) : Result LazyTensor :=
  t ← evaluate lt;
  if is_square (shape t)
  then
    let r := rank t in
    Ok (NonLazy (tabulate (shape t) (fun idx =>
          if nth (r - 2) idx 0 =? nth (r - 1) idx 0
          then SFadd (prec N) (emax N) (get t idx) (jitter_val N)
          else get t idx)))
  else Raise (RuntimeError "add_jitter: matrix is not square").

(** Modelled from the spec: [lt.cholesky()], outside this file; it fails on
    a "non-positive-definite inducing covariance after jitter addition". *)
Definition cholesky (lt : LazyTensor) : Result Tensor :=
  t ← evaluate lt;
  if is_square (shape t)
  then if chol_ok N t
       then Ok (tabulate (shape t) (chol_entry N t))
       else Raise chol_error
  else Raise (RuntimeError "cholesky: matrix is not square").

(** Modelled from the spec: [lt.inv_matmul(rhs)], outside this file; the
    "fast inverse-multiply" [K^{-1} rhs] for [K] of shape [B1 x m x m] and
    [rhs] of shape [B2 x m x t]; the batch axes broadcast. *)
Definition inv_matmul (lt : LazyTensor) (rhs : Tensor) : Result Tensor :=
  if is_square (lt_shape lt) && (2 <=? rank rhs)
     && (rows_of (shape rhs) =? rows_of (lt_shape lt))
  then
    bs ← broadcast (batch_of (lt_shape lt)) (batch_of (shape rhs));
    Ok (tabulate (bs ++ [rows_of (shape rhs); cols_of (shape rhs)])
          (inv_matmul_entry N lt rhs))
  else Raise (RuntimeError "inv_matmul: size mismatch").

(** Modelled from the spec: [lt.inv_quad(rhs, reduce_inv_quad=False)],
    outside this file; the "inverse-quadratic-form operation"
    [diag(rhs^T K^{-1} rhs)], one entry for each column of [rhs]. *)
Definition inv_quad (lt : LazyTensor) (rhs : Tensor) : Result Tensor :=
  if is_square (lt_shape lt) && (2 <=? rank rhs)
     && (rows_of (shape rhs) =? rows_of (lt_shape lt))
  then
    bs ← broadcast (batch_of (lt_shape lt)) (batch_of (shape rhs));
    Ok (tabulate (bs ++ [cols_of (shape rhs)]) (inv_quad_entry N lt rhs))
  else Raise (RuntimeError "inv_quad: size mismatch").

(** Modelled from the spec: [dist.mean] and [dist.variance], outside this
    file; the variance is the covariance diagonal expanded to the shape of
    the mean. *)
Definition mean (d : MVN) : Tensor := loc d.

Definition variance (d : MVN) : Result Tensor :=
  dg ← lt_diag (lazy_covariance_matrix d);
  expand dg (shape (loc d)).

End Kernels.

(* ===================================================================== *)
(** ** Python values and objects *)
(* ===================================================================== *)

(** An object is its attribute store: what [getattr] finds on the instance
    and its classes.  [VForward] is a bound [forward] method (the GP prior of
    a concrete subclass); [VLikelihood] is a likelihood object, whose
    [expected_log_prob] is resolved through [Collaborators]. *)
Inductive Value :=
| VNone
| VInt (z : Z)
| VFloat (x : F)
| VStr (s : string)
| VTensor (t : Tensor)
| VDist (d : MVN)
| VPlate (name : string) (psize : nat) (pdim : option Z)
| VModule (name : string)
| VClass (name : string)
| VBuiltin (name : string)
| VForward (f : Tensor -> Result MVN)
| VLikelihood (id : nat)
| VQuadratureDist (likelihood function_dist : Value)
| VObj (attrs : gmap string Value)
| VList (items : list Value).

(** [obj.name] *)
Definition getattr (obj : Value) (name : string) : Result Value :=
  match obj with
  | VObj attrs =>
      match attrs !! name with
      | Some v => Ok v
      | None => Raise (AttributeError name)
      end
  | _ => Raise (AttributeError name)
  end.

(** [obj.name = v] *)
Definition setattr (attrs : gmap string Value) (name : string) (v : Value)
  : gmap string Value := <[name := v]> attrs.

(** A tensor method called on a value: anything but a tensor has no such
    attribute. *)
Definition tensor_method (v : Value) (meth : string) : Result Tensor :=
  match v with VTensor t => Ok t | _ => Raise (AttributeError meth) end.

Definition as_nat (v : Value) : Result nat :=
  match v with
  | VInt z => if (0 <=? z)%Z then Ok (Z.to_nat z) else Raise (RuntimeError "negative size")
  | _ => Raise TypeError
  end.

Definition as_list (v : Value) : Result (list Value) :=
  match v with VList l => Ok l | _ => Raise TypeError end.

(** [a + b] on strings *)
Definition str_add (a : Value) (b : string) : Result string :=
  match a with VStr s => Ok (s +:+ b) | _ => Raise TypeError end.

(** Python floats are binary64. *)
Definition float_of_Z (z : Z) : F := binary_normalize 53 1024 z 0 false.

(** [a / b] on ints, for [b > 0]: the quotient of the integers rounded once
    to binary64, to nearest and to even on a tie.  The dividend is scaled so
    that the integer quotient has at least 56 bits; a sticky bit records a
    remainder, and the one rounding of [binary_normalize] then sees on which
    side of every tie the exact quotient lies.  A quotient beyond the
    largest float becomes an infinity. *)
Definition int_true_divide (a b : Z) : F :=
  if (a =? 0)%Z then S754_zero false
  else
    let n := Z.abs a in
    let k := Z.max 0 (Z.log2 b + 56 - Z.log2 n) in
    let q := (n * 2 ^ k / b)%Z in
    let sticky := if (n * 2 ^ k mod b =? 0)%Z then 0%Z else 1%Z in
    let m := (2 * q + sticky)%Z in
    binary_normalize 53 1024 (if (a <? 0)%Z then (- m)%Z else m) (- k - 1) false.

(** [float(a / b)], true division by the int [b].  An int dividend gives the
    correctly rounded quotient of the two integers, and OverflowError when it
    is too large for a float; a float dividend is divided by [b] converted
    to a float, which raises OverflowError when [b] is too large.  Division
    by zero raises ZeroDivisionError. *)
Definition py_truediv (a : Value) (b : nat) : Result F :=
  match a with
  | VInt z =>
      if b =? 0 then Raise ZeroDivisionError
      else match int_true_divide z (Z.of_nat b) with
           | S754_infinity _ => Raise OverflowError
           | q => Ok q
           end
  | VFloat x =>
      match float_of_Z (Z.of_nat b) with
      | S754_infinity _ => Raise OverflowError
      | y => if b =? 0 then Raise ZeroDivisionError else Ok (SFdiv 53 1024 x y)
      end
  | _ => Raise TypeError
  end.

(** Collaborators that are reached through objects: the likelihood's
    [expected_log_prob(target, function_dist)]. *)
Record Collaborators := {
  expected_log_prob : nat -> Value -> Value -> Result Value
}.

(* ===================================================================== *)
(** ** The module's name spaces *)
(* ===================================================================== *)

(** Names bound at module level once the file has been executed: the three
    imports and the three classes, next to the module's own dunder names. *)
Definition module_globals : gmap string Value :=
  list_to_map
    [ ("__name__", VStr "gpytorch.models.pyro_deep_gp");
      ("__doc__", VNone);
      ("__package__", VStr "gpytorch.models");
      ("__loader__", VNone);
      ("__spec__", VNone);
      ("__file__", VStr "pyro_deep_gp.py");
      ("__cached__", VNone);
      ("__builtins__", VModule "builtins");
      ("torch", VModule "torch");
      ("pyro", VModule "pyro");
      ("AbstractVariationalGP", VClass "AbstractVariationalGP");
      ("QuadratureDist", VClass "QuadratureDist");
      ("AbstractPyroHiddenGPLayer", VClass "AbstractPyroHiddenGPLayer");
      ("AbstractPyroDeepGP", VClass "AbstractPyroDeepGP") ].

(** The names of Python 3's [builtins] module. *)
Definition python_builtins : list string :=
  [ "ArithmeticError"; "AssertionError"; "AttributeError"; "BaseException";
    "BlockingIOError"; "BrokenPipeError"; "BufferError"; "BytesWarning";
    "ChildProcessError"; "ConnectionAbortedError"; "ConnectionError";
    "ConnectionRefusedError"; "ConnectionResetError"; "DeprecationWarning";
    "EOFError"; "Ellipsis"; "EnvironmentError"; "Exception"; "False";
    "FileExistsError"; "FileNotFoundError"; "FloatingPointError";
    "FutureWarning"; "GeneratorExit"; "IOError"; "ImportError";
    "ImportWarning"; "IndentationError"; "IndexError"; "InterruptedError";
    "IsADirectoryError"; "KeyError"; "KeyboardInterrupt"; "LookupError";
    "MemoryError"; "ModuleNotFoundError"; "NameError"; "None";
    "NotADirectoryError"; "NotImplemented"; "NotImplementedError"; "OSError";
    "OverflowError"; "PendingDeprecationWarning"; "PermissionError";
    "ProcessLookupError"; "RecursionError"; "ReferenceError";
    "ResourceWarning"; "RuntimeError"; "RuntimeWarning";
    "StopAsyncIteration"; "StopIteration"; "SyntaxError"; "SyntaxWarning";
    "SystemError"; "SystemExit"; "TabError"; "TimeoutError"; "True";
    "TypeError"; "UnboundLocalError"; "UnicodeDecodeError";
    "UnicodeEncodeError"; "UnicodeError"; "UnicodeTranslateError";
    "UnicodeWarning"; "UserWarning"; "ValueError"; "Warning";
    "ZeroDivisionError"; "__build_class__"; "__debug__"; "__doc__";
    "__import__"; "__loader__"; "__name__"; "__package__"; "__spec__";
    "abs"; "all"; "any"; "ascii"; "bin"; "bool"; "breakpoint"; "bytearray";
    "bytes"; "callable"; "chr"; "classmethod"; "compile"; "complex";
    "copyright"; "credits"; "delattr"; "dict"; "dir"; "divmod"; "enumerate";
    "eval"; "exec"; "exit"; "filter"; "float"; "format"; "frozenset";
    "getattr"; "globals"; "hasattr"; "hash"; "help"; "hex"; "id"; "input";
    "int"; "isinstance"; "issubclass"; "iter"; "len"; "license"; "list";
    "locals"; "map"; "max"; "memoryview"; "min"; "next"; "object"; "oct";
    "open"; "ord"; "pow"; "print"; "property"; "quit"; "range"; "repr";
    "reversed"; "round"; "set"; "setattr"; "slice"; "sorted";
    "staticmethod"; "str"; "sum"; "super"; "tuple"; "type"; "vars"; "zip" ].

(** A name that the function body never assigns is looked up in the module's
    globals, then in the builtins; finding it in neither is a NameError. *)
Definition load_global (name : string) : Result Value :=
  match module_globals !! name with
  | Some v => Ok v
  | None =>
      if existsb (String.eqb name) python_builtins
      then Ok (VBuiltin name)
      else Raise (NameError name)
  end.

(* ===================================================================== *)
(** ** The Pyro runtime *)
(* ===================================================================== *)

Inductive Handler :=
| HPlate (name : string) (psize : nat) (pdim : option Z)
| HScale (scale : F).

Inductive Event :=
| EvEnter (h : Handler)
| EvExit (h : Handler)
| EvSample (name : string) (dist : Value) (obs : option Value)
           (active : list Handler).

(** The runtime a method runs in: the stack of active handlers (plates and
    scales, innermost first), the effects performed so far (newest first),
    and the random source.  [draws] counts the draws already made;
    [site_draw] and [rsample_draw] say what the next draw yields. *)
Record Runtime := mkRuntime {
  stack : list Handler;
  events : list Event;
  draws : nat;
  site_draw : nat -> string -> Value -> Tensor;
  rsample_draw : nat -> MVN -> list nat -> list nat -> F
}.

Definition Py (A : Type) : Type := Runtime -> Result A * Runtime.

#[global] Instance py_ret : MRet Py := fun _ a rt => (Ok a, rt).
#[global] Instance py_bind : MBind Py := fun _ _ k m rt =>
  match m rt with
  | (Ok a, rt') => k a rt'
  | (Raise e, rt') => (Raise e, rt')
  end.

Definition lift {A} (r : Result A) : Py A := fun rt => (r, rt).

Definition push (h : Handler) (rt : Runtime) : Runtime :=
  mkRuntime (h :: stack rt) (EvEnter h :: events rt) (draws rt)
            (site_draw rt) (rsample_draw rt).

Definition pop (h : Handler) (rt : Runtime) : Runtime :=
  mkRuntime (tail (stack rt)) (EvExit h :: events rt) (draws rt)
            (site_draw rt) (rsample_draw rt).

(** [with h: body]: the handler is active during the body and is left again
    when the body returns or raises. *)
Definition with_handler {A} (h : Handler) (body : Py A) : Py A := fun rt =>
  let '(r, rt') := body (push h rt) in (r, pop h rt').

(** A plate object used as a context manager. *)
Definition as_plate (v : Value) : Result Handler :=
  match v with
  | VPlate name n d => Ok (HPlate name n d)
  | _ => Raise (AttributeError "__enter__")
  end.

(** [pyro.plate(name, size, dim=...)] builds the plate object. *)
Definition pyro_plate (name : string) (n : nat) (d : option Z) : Value :=
  VPlate name n d.

(** [pyro.sample(name, dist, obs=...)]: registers the site with the handlers
    that are active; an observed site yields the observation, an unobserved
    one a draw from the random source. *)
Definition pyro_sample (name : string) (dist : Value) (obs : option Value)
  : Py Value := fun rt =>
  let ev := EvSample name dist obs (stack rt) in
  match obs with
  | Some v =>
      (Ok v, mkRuntime (stack rt) (ev :: events rt) (draws rt)
                       (site_draw rt) (rsample_draw rt))
  | None =>
      (Ok (VTensor (site_draw rt (draws rt) name dist)),
       mkRuntime (stack rt) (ev :: events rt) (S (draws rt))
                 (site_draw rt) (rsample_draw rt))
  end.

(** Modelled from the spec: [dist.rsample(sample_shape)], outside this
    file; "fresh replicates" of the predictive distribution, a tensor of
    shape [sample_shape + batch_shape + event_shape], that is [sample_shape]
    followed by the shape of the mean. *)
Definition rsample (d : MVN) (sample_shape : list nat) : Py Tensor := fun rt =>
  (Ok (tabulate (sample_shape ++ shape (loc d))
         (rsample_draw rt (draws rt) d sample_shape)),
   mkRuntime (stack rt) (events rt) (S (draws rt))
             (site_draw rt) (rsample_draw rt)).

(* ===================================================================== *)
(** ** The module as a compilation unit *)
(* ===================================================================== *)

Record Param := mkParam { p_name : string; p_default : bool }.

Record Def := mkDef { d_class : string; d_name : string; d_params : list Param }.

Definition req (name : string) : Param := mkParam name false.
Definition opt (name : string) : Param := mkParam name true.

(** Every [def] of the file with its parameter list, in source order. *)
Definition module_defs : list Def :=
  [ mkDef "QuadratureDist" "__init__"
      [req "self"; req "likelihood"; req "function_dist"];
    mkDef "QuadratureDist" "log_prob" [req "self"; req "target"];
    mkDef "QuadratureDist" "sample" [req "self"; opt "sample_shape"];
    mkDef "AbstractPyroHiddenGPLayer" "__init__"
      [req "self"; req "variational_strategy"; req "input_dims";
       req "output_dims"; opt "name_prefix"];
    mkDef "AbstractPyroHiddenGPLayer" "variational_distribution" [req "self"];
    mkDef "AbstractPyroHiddenGPLayer" "guide" [req "self"];
    mkDef "AbstractPyroHiddenGPLayer" "model"
      [req "self"; req "inputs"; opt "return_samples"];
    mkDef "AbstractPyroHiddenGPLayer" "__call__" [req "self"; req "inputs"];
    mkDef "AbstractPyroDeepGP" "__init__"
      [req "self"; req "variational_strategy"; req "input_dims";
       req "output_dims"; req "total_num_data"; opt "name_prefix";
       req "hidden_gp_layers"];
    mkDef "AbstractPyroDeepGP" "guide" [req "self"; req "inputs"; req "outputs"];
    mkDef "AbstractPyroDeepGP" "model" [req "self"; req "inputs"; req "outputs"] ].

(** Python's rule for a positional parameter list: once a parameter has a
    default, every later one must have one too. *)
Fixpoint params_ok (seen_default : bool) (ps : list Param) : bool :=
  match ps with
  | [] => true
  | p :: ps' =>
      if p_default p then params_ok true ps'
      else negb seen_default && params_ok false ps'
  end.

(** Compiling the file: the first offending [def] is a SyntaxError for the
    whole file. *)
Definition py_compile (defs : list Def) : Result (list Def) :=
  if forallb (fun d => params_ok false (d_params d)) defs
  then Ok defs
  else Raise (SyntaxError "non-default argument follows default argument").

(** [import gpytorch.models.pyro_deep_gp]: the file is compiled, then
    executed, which binds the module's globals. *)
Definition import_module : Result (gmap string Value) :=
  _ ← py_compile module_defs; Ok module_globals.

(** Resolving [cls.meth] through the imported module. *)
Definition resolve (cls meth : string) : Result Def :=
  defs ← py_compile module_defs;
  match find (fun d => String.eqb (d_class d) cls && String.eqb (d_name d) meth) defs with
  | Some d => Ok d
  | None => Raise (AttributeError meth)
  end.

(* ===================================================================== *)
(** ** class QuadratureDist *)
(* ===================================================================== *)

Section Program.
Variable N : Numerics.
Variable C : Collaborators.

(** [QuadratureDist.__init__] *)
Definition QuadratureDist_init (likelihood function_dist : Value) : Value :=
  VQuadratureDist likelihood function_dist.

(** [QuadratureDist.log_prob]: the call
    [self.likelihood.expected_log_prob(target, self.function_dist)]. *)
Definition QuadratureDist_log_prob (self target : Value) : Result Value :=
  match self with
  | VQuadratureDist likelihood function_dist =>
      match likelihood with
      | VLikelihood id => expected_log_prob C id target function_dist
      | _ => Raise (AttributeError "expected_log_prob")
      end
  | _ => Raise (AttributeError "likelihood")
  end.

(** [QuadratureDist.sample]: the body is [pass]. *)
Definition QuadratureDist_sample (self : Value) (sample_shape : list nat) : Value :=
  VNone.

(* ===================================================================== *)
(** ** class AbstractPyroHiddenGPLayer *)
(* ===================================================================== *)

(** Modelled from the spec: [AbstractVariationalGP.__init__] is outside this
    file.  The layer "consumes an inducing-point-based variational strategy"
    that it later reads back as [self.variational_strategy]; [base] is
    whatever else the parent class and the concrete subclass provide
    ([forward], a likelihood, ...). *)
Definition AbstractVariationalGP_init (base : gmap string Value)
    (variational_strategy : Value) : gmap string Value :=
  setattr base "variational_strategy" variational_strategy.

(** [AbstractPyroHiddenGPLayer.__init__] (lines 19-23). *)
Definition AbstractPyroHiddenGPLayer_init (base : gmap string Value)
    (variational_strategy : Value) (input_dims output_dims : nat)
    (name_prefix : string) : Value :=
  let self := AbstractVariationalGP_init base variational_strategy in
  let self := setattr self "input_dims" (VInt (Z.of_nat input_dims)) in
  let self := setattr self "output_dims" (VInt (Z.of_nat output_dims)) in
  let self := setattr self "output_dim_plate"
                (pyro_plate (name_prefix +:+ ".n_output_plate") output_dims None) in
  VObj self.

(** The property [variational_distribution] (lines 25-27). *)
Definition AbstractPyroHiddenGPLayer_variational_distribution (self : Value) : Result Value :=
  vs ← getattr self "variational_strategy";
  vd ← getattr vs "variational_distribution";
  getattr vd "variational_distribution".

(** [AbstractPyroHiddenGPLayer.guide] (lines 29-32).  [name_prefix] on line
    31 is a bare name that the body never assigns. *)
Definition AbstractPyroHiddenGPLayer_guide (self : Value) : Py Value :=
  plate ← lift (getattr self "output_dim_plate" ≫= as_plate);
  with_handler plate (
    prefix ← lift (load_global "name_prefix");
    name ← lift (str_add prefix ".inducing_values");
    vd ← lift (AbstractPyroHiddenGPLayer_variational_distribution self);
    pyro_sample name vd None).

(** What lines 37-58 of [model] leave in scope: the inputs brought to
    [O_i x n x O_{i-1}], or to [O_i x pn x O_{i-1}] when they carry a sample
    axis. *)
Record Normalized := mkNormalized {
  nz_inducing_points : Tensor;
  nz_num_induc : nat;
  nz_minibatch_size : nat;
  nz_inputs : Tensor;
  nz_num_samples : option nat
}.

(** What lines 37-85 of [model] leave in scope for the rest of the body. *)
Record Prior := mkPrior {
  num_induc : nat;
  minibatch_size : nat;
  num_samples : option nat;
  full_output : MVN;
  induc_induc_covar : LazyTensor;
  induc_data_covar : Tensor;
  data_data_covar : LazyTensor;
  prior_distribution : MVN
}.

Definition call_forward (fwd : Value) (x : Tensor) : Result MVN :=
  match fwd with
  | VForward f => f x
  | _ => Raise TypeError
  end.

(** [model], lines 37-58. *)
Definition model_inputs (self inputs : Value) : Result Normalized :=
  vs ← getattr self "variational_strategy";
  ip ← getattr vs "inducing_points";
  inducing_points ← tensor_method ip "size";
  num_induc ← size inducing_points (-2);
  inputs ← tensor_method inputs "size";
  minibatch_size ← size inputs (-2);
  let inputs := contiguous inputs in
  inputs ← (if dim inputs =? 2 then
              inputs ← unsqueeze inputs 0;
              od ← getattr self "output_dims" ≫= as_nat;
              n ← size inputs (-2);
              idm ← getattr self "input_dims" ≫= as_nat;
              expand inputs [od; n; idm]
            else if dim inputs =? 3 then
              inputs ← unsqueeze inputs 0;
              od ← getattr self "output_dims" ≫= as_nat;
              s1 ← size inputs 1;
              s2 ← size inputs (-2);
              idm ← getattr self "input_dims" ≫= as_nat;
              expand inputs [od; s1; s2; idm]
            else Ok inputs);
  if dim inputs =? 4 then
    num_samples ← size inputs (-3);
    od ← getattr self "output_dims" ≫= as_nat;
    a ← size inputs (-2);
    b ← size inputs (-3);
    idm ← getattr self "input_dims" ≫= as_nat;
    inputs ← view inputs [od; a * b; idm];
    Ok (mkNormalized inducing_points num_induc minibatch_size inputs
                     (Some num_samples))
  else
    Ok (mkNormalized inducing_points num_induc minibatch_size inputs None).

(** [model], lines 62-85: the inputs are joined with the inducing points and
    sent through the GP prior, and the joint mean and covariance are cut into
    their blocks. *)
Definition model_blocks (self : Value) (nz : Normalized) : Result Prior :=
  let num_induc := nz_num_induc nz in
  full_inputs ← cat (nz_inducing_points nz) (nz_inputs nz) (-2);
  fwd ← getattr self "forward";
  full_output ← call_forward fwd full_inputs;
  let full_mean := mean full_output in
  let full_covar := lazy_covariance_matrix full_output in
  induc_mean ← getitem1 full_mean (UpTo num_induc);
  test_mean ← getitem1 full_mean (From num_induc);
  kmm ← lt_getitem2 N full_covar (UpTo num_induc) (UpTo num_induc) ≫= add_jitter N;
  induc_induc_covar ← CholLazyTensor <$> cholesky N kmm;
  induc_data_covar ←
    lt_getitem2 N full_covar (UpTo num_induc) (From num_induc) ≫= evaluate N;
  data_data_covar ← lt_getitem2 N full_covar (From num_induc) (From num_induc);
  let prior_distribution := mkMVN induc_mean induc_induc_covar in
  Ok (mkPrior num_induc (nz_minibatch_size nz) (nz_num_samples nz) full_output
              induc_induc_covar induc_data_covar data_data_covar
              prior_distribution).

(** [model], lines 37-85. *)
Definition model_prior (self inputs : Value) : Result Prior :=
  nz ← model_inputs self inputs;
  model_blocks self nz.

(** What lines 90-133 compute: the predictive mean and the two terms of the
    predictive variance. *)
Record Moments := mkMoments {
  means : Tensor;
  data_data_diag : Tensor;
  diag_correction : Tensor
}.

(** [model], lines 90-133. *)
Definition model_moments (self : Value) (pr : Prior) (p_u_samples : Value)
  : Result Moments :=
  u ← tensor_method p_u_samples "unsqueeze";
  u1 ← unsqueeze u (-1);
  solved ← inv_matmul N (induc_induc_covar pr) u1;
  solve_result ← squeeze solved (-1);
  '(induc_data_covar, data_data_diag) ←
     match num_samples pr with
     | Some num_samples =>
         od ← getattr self "output_dims" ≫= as_nat;
         idc ← view (induc_data_covar pr)
                 [od; num_induc pr; num_samples; minibatch_size pr];
         idc ← permute idc [2; 0; 3; 1];
         dg ← lt_diag N (data_data_covar pr);
         od ← getattr self "output_dims" ≫= as_nat;
         s0 ← size solve_result 0;
         dg ← view dg [od; s0; minibatch_size pr];
         dg ← transpose dg (-3) (-2);
         Ok (idc, dg)
     | None =>
         dg ← lt_diag N (data_data_covar pr);
         Ok (induc_data_covar pr, dg)
     end;
  kxu ← transpose induc_data_covar (-2) (-1);
  sr1 ← unsqueeze solve_result (-1);
  mm ← matmul N kxu sr1;
  means ← squeeze mm (-1);
  diag_correction ← inv_quad N (induc_induc_covar pr) induc_data_covar;
  Ok (mkMoments means data_data_diag diag_correction).

(** The difference [data_data_diag - diag_correction] of line 137, before it
    is clamped. *)
Definition raw_variance (mo : Moments) : Result Tensor :=
  sub N (data_data_diag mo) (diag_correction mo).

(** [model], lines 136-141: the clamped difference becomes the diagonal
    covariance of the predictive distribution. *)
Definition model_p_f_dist (mo : Moments) : Result MVN :=
  raw ← raw_variance mo;
  let variances := DiagLazyTensor (clamp_min raw Fzero) in
  Ok (mkMVN (means mo) variances).

(** [model], lines 143-156. *)
Definition model_return (pr : Prior) (p_u_samples : Value) (p_f_dist : MVN)
    (return_samples : bool) : Py Value :=
  if return_samples then
    match num_samples pr with
    | Some _ =>
        samples ← rsample p_f_dist [];
        samples ← lift (transpose samples (-2) (-1));
        mret (VTensor samples)
    | None =>
        k ← lift (u ← tensor_method p_u_samples "size"; size u (-3));
        samples ← rsample p_f_dist [k];
        samples ← lift (transpose samples (-2) (-1));
        mret (VTensor samples)
    end
  else mret (VDist p_f_dist).

(** [AbstractPyroHiddenGPLayer.model] (lines 34-156). *)
Definition AbstractPyroHiddenGPLayer_model (self inputs : Value) (return_samples : bool)
  : Py Value :=
  pr ← lift (model_prior self inputs);
  plate ← lift (getattr self "output_dim_plate" ≫= as_plate);
  p_u_samples ← with_handler plate (
    prefix ← lift (getattr self "name_prefix");
    name ← lift (str_add prefix ".inducing_values");
    pyro_sample name (VDist (prior_distribution pr)) None);
  mo ← lift (model_moments self pr p_u_samples);
  p_f_dist ← lift (model_p_f_dist mo);
  model_return pr p_u_samples p_f_dist return_samples.

(** [AbstractPyroHiddenGPLayer.__call__] (lines 158-161): a docstring and
    nothing else. *)
Definition AbstractPyroHiddenGPLayer_call (self inputs : Value) : Value := VNone.

(* ===================================================================== *)
(** ** class AbstractPyroDeepGP *)
(* ===================================================================== *)

(** The body of [AbstractPyroDeepGP.__init__] (lines 173-181), with the
    arguments bound as the signature names them. *)
Definition AbstractPyroDeepGP_init (base : gmap string Value)
    (variational_strategy : Value) (input_dims output_dims : nat)
    (total_num_data : Value) (name_prefix : string)
    (hidden_gp_layers : Value) : Value :=
  match AbstractPyroHiddenGPLayer_init base variational_strategy input_dims output_dims
                         name_prefix with
  | VObj self =>
      let self := setattr self "hidden_gp_layers" hidden_gp_layers in
      let self := setattr self "total_num_data" total_num_data in
      VObj self
  | v => v
  end.

Fixpoint AbstractPyroDeepGP_guide_loop (layers : list Value) : Py unit :=
  match layers with
  | [] => mret tt
  | hidden_gp_layer :: rest =>
      _ ← AbstractPyroHiddenGPLayer_guide hidden_gp_layer;
      AbstractPyroDeepGP_guide_loop rest
  end.

(** [AbstractPyroDeepGP.guide] (lines 183-187). *)
Definition AbstractPyroDeepGP_guide (self inputs outputs : Value) : Py Value :=
  layers ← lift (getattr self "hidden_gp_layers" ≫= as_list);
  _ ← AbstractPyroDeepGP_guide_loop layers;
  _ ← AbstractPyroHiddenGPLayer_guide self;
  mret VNone.

(** The loop of lines 191-192: [inputs] is rebound to each layer's result. *)
Fixpoint AbstractPyroDeepGP_model_loop (layers : list Value) (inputs : Value) : Py Value :=
  match layers with
  | [] => mret inputs
  | hidden_gp_layer :: rest =>
      inputs ← AbstractPyroHiddenGPLayer_model hidden_gp_layer inputs true;
      AbstractPyroDeepGP_model_loop rest inputs
  end.

(** Lines 199-200, the body of the two [with] blocks.  [f_samples] and
    [output] are names the function never assigns. *)
Definition AbstractPyroDeepGP_model_score (self : Value) : Py Value :=
  likelihood ← lift (getattr self "likelihood");
  f_samples ← lift (load_global "f_samples");
  let out_dist := QuadratureDist_init likelihood f_samples in
  prefix ← lift (getattr self "name_prefix");
  site ← lift (str_add prefix ".output_value");
  output ← lift (load_global "output");
  pyro_sample site out_dist (Some output).

(** The error of the scoring statement: the arguments of line 199 are
    evaluated in order, [self.likelihood] before [f_samples]. *)
Definition scoring_error (self : Value) : PyErr :=
  match getattr self "likelihood" with
  | Ok _ => NameError "f_samples"
  | Raise e => e
  end.

(** [AbstractPyroDeepGP.model], lines 191-194: the hidden layers, then the
    terminal layer's own [model]. *)
Definition AbstractPyroDeepGP_model_feed (self inputs : Value) : Py (Value * Value) :=
  layers ← lift (getattr self "hidden_gp_layers" ≫= as_list);
  inputs ← AbstractPyroDeepGP_model_loop layers inputs;
  p_f_dist ← AbstractPyroHiddenGPLayer_model self inputs false;
  mret (inputs, p_f_dist).

(** [AbstractPyroDeepGP.model] (lines 189-200). *)
Definition AbstractPyroDeepGP_model (self inputs outputs : Value) : Py Value :=
  fed ← AbstractPyroDeepGP_model_feed self inputs;
  let inputs := fst fed in
  let p_f_dist := snd fed in
  minibatch_size ← lift (x ← tensor_method inputs "size"; size x (-2));
  prefix ← lift (getattr self "name_prefix");
  plate_name ← lift (str_add prefix ".data_plate");
  plate ← lift (as_plate (pyro_plate plate_name minibatch_size (Some (-1)%Z)));
  with_handler plate (
    total ← lift (getattr self "total_num_data");
    scale ← lift (py_truediv total minibatch_size);
    with_handler (HScale scale) (AbstractPyroDeepGP_model_score self)).

(** The feed-forward pass in the specification's words: the inputs go
    through each hidden layer's [model] in stacking order, every call with
    [return_samples=True] and consuming the previous call's result; the last
    result goes to the terminal layer's [model] with [return_samples=False]. *)
Definition spec_feed_forward (layers : list Value) (terminal inputs : Value)
  : Py (Value * Value) :=
  x ← foldl (fun acc layer => a ← acc; AbstractPyroHiddenGPLayer_model layer a true)
            (mret inputs) layers;
  d ← AbstractPyroHiddenGPLayer_model terminal x false;
  mret (x, d).

End Program.

(* ===================================================================== *)
(** ** What a usable layer provides *)
(* ===================================================================== *)

(** The shape contract of a GP prior [forward]: over inputs [o x k x d] it
    returns a joint Gaussian with a mean [o x k] and a covariance
    [o x k x k]. *)
Definition forward_contract (f : Tensor -> Result MVN) : Prop :=
  forall x o k d, shape x = [o; k; d] ->
    exists dist, f x = Ok dist /\
                 shape (loc dist) = [o; k] /\
                 lt_shape (lazy_covariance_matrix dist) = [o; k; k].

(** A layer with [O] output channels, [m] inducing points for each of them
    and [D] input dimensions, on which every attribute [model] reads is
    bound, [name_prefix] included. *)
Record layer_ok (self : Value) (O m D : nat) : Prop := mk_layer_ok {
  lo_strategy :
    exists vs ip, getattr self "variational_strategy" = Ok vs /\
                  getattr vs "inducing_points" = Ok (VTensor ip) /\
                  shape ip = [O; m; D];
  lo_output_dims : getattr self "output_dims" ≫= as_nat = Ok O;
  lo_input_dims : getattr self "input_dims" ≫= as_nat = Ok D;
  lo_forward :
    exists f, getattr self "forward" = Ok (VForward f) /\ forward_contract f;
  lo_plate : exists plate, getattr self "output_dim_plate" ≫= as_plate = Ok plate;
  lo_name_prefix : exists s, getattr self "name_prefix" = Ok (VStr s)
}.

(** What lines 37-85 leave behind on such a layer, for [q] data points: the
    factored [K_mm], the block [K_ux] of shape [O x m x q], the block
    [K_xx] of shape [O x q x q] and the prior over the inducing values. *)
Record prior_ok (pr : Prior) (O m q : nat) : Prop := mk_prior_ok {
  po_num_induc : num_induc pr = m;
  po_kmm : exists L, induc_induc_covar pr = CholLazyTensor L /\ shape L = [O; m; m];
  po_kmx : shape (induc_data_covar pr) = [O; m; q];
  po_kxx : exists t, data_data_covar pr = NonLazy t /\ shape t = [O; q; q];
  po_prior : shape (loc (prior_distribution pr)) = [O; m]
}.

(** An entry that is not negative: it does not compare below zero, and it
    compares at or above zero unless it is NaN. *)
Definition nonneg_entry (v : F) : Prop :=
  SFltb v Fzero = false /\ (v <> S754_nan -> SFleb Fzero v = true).

(** The sample site of this runtime yields tensors of shape [U]. *)
Definition site_shape (rt : Runtime) (U : list nat) : Prop :=
  forall name d, shape (site_draw rt (draws rt) name d) = U.

(* ===================================================================== *)
(** ** Concrete layers and runtimes

    A layer with two output channels, five inducing points and one input
    dimension, a GP prior that returns zero moments of the right shapes, and
    runtimes whose sample site yields a tensor of a chosen shape. *)
(* ===================================================================== *)

Definition zeros (shp : list nat) : Tensor := tabulate shp (fun _ => Fzero).

(** 1.0 in binary32 *)
Definition Fone : F := S754_finite false 8388608 (-23).

Definition example_numerics (quad : F) : Numerics := {|
  prec := 24;
  emax := 128;
  jitter_val := Fzero;
  dot := fun _ _ => Fzero;
  chol_ok := fun _ => true;
  chol_entry := fun _ _ => Fzero;
  inv_matmul_entry := fun _ _ _ => Fzero;
  inv_quad_entry := fun _ _ _ => quad
|}.

(** The same kernels with a Cholesky factorisation that rejects every
    matrix. *)
Definition example_numerics_chol_fails : Numerics := {|
  prec := 24;
  emax := 128;
  jitter_val := Fzero;
  dot := fun _ _ => Fzero;
  chol_ok := fun _ => false;
  chol_entry := fun _ _ => Fzero;
  inv_matmul_entry := fun _ _ _ => Fzero;
  inv_quad_entry := fun _ _ _ => Fzero
|}.

Definition example_collaborators : Collaborators :=
  {| expected_log_prob := fun _ _ _ => Ok (VTensor (zeros [])) |}.

(** A prior over inputs [B x n x d]: mean [B x n], covariance [B x n x n]. *)
Definition example_forward (x : Tensor) : Result MVN :=
  let b := batch_of (shape x) in
  let n := rows_of (shape x) in
  Ok (mkMVN (zeros (b ++ [n])) (NonLazy (zeros (b ++ [n; n])))).

Definition example_strategy (O m D : nat) : Value :=
  VObj (<["inducing_points" := VTensor (zeros [O; m; D])]> ∅).

Definition example_base : gmap string Value :=
  <["forward" := VForward example_forward]> (<["likelihood" := VLikelihood 0]> ∅).

(** The layer as [__init__] leaves it. *)
Definition example_layer (O m D : nat) : Value :=
  AbstractPyroHiddenGPLayer_init example_base (example_strategy O m D) D O "layer".

(** The same layer on which [name_prefix] has been assigned as well, as a
    concrete subclass may do. *)
Definition with_name_prefix (self : Value) (name_prefix : string) : Value :=
  match self with
  | VObj attrs => VObj (setattr attrs "name_prefix" (VStr name_prefix))
  | v => v
  end.

(** A deep GP as [__init__] leaves it: a terminal layer with one output
    channel over the given hidden layers. *)
Definition example_deep (m D : nat) (total : Z) (layers : list Value) : Value :=
  AbstractPyroDeepGP_init example_base (example_strategy 1 m D) D 1 (VInt total) "deep"
              (VList layers).

Definition example_runtime (site_shape : list nat) : Runtime :=
  mkRuntime [] [] 0 (fun _ _ _ => zeros site_shape) (fun _ _ _ _ => Fzero).

(** A runtime in the middle of other work: a scale handler is active, seven
    draws have been made, and the random source yields other values before
    and after the two draws that [model] is about to make. *)
Definition example_runtime_busy (site_shape : list nat) : Runtime :=
  mkRuntime [HScale Fone] [EvEnter (HScale Fone)] 7
            (fun c _ _ => if c =? 7 then zeros site_shape else zeros [])
            (fun c _ _ _ => if c =? 8 then Fzero else Fone).

(** The distribution a call returned (a placeholder when it returned none). *)
Definition dist_of (r : Result Value * Runtime) : MVN :=
  match fst r with
  | Ok (VDist d) => d
  | _ => mkMVN (zeros []) (NonLazy (zeros []))
  end.

(** The tensor a call returned (a placeholder when it returned none). *)
Definition tensor_of (r : Result Value * Runtime) : Tensor :=
  match fst r with
  | Ok (VTensor t) => t
  | _ => zeros []
  end.

(** 100.0 in binary64 *)
Definition hundred : F := float_of_Z 100.

(** The two-layer scenario of the specification: three input dimensions, a
    hidden layer with two channels, a terminal layer with one, a minibatch of
    ten out of a thousand data points, one particle.  Both layers have
    [name_prefix] assigned; the terminal layer has ten inducing points. *)
Definition example_two_layer : Value :=
  with_name_prefix
    (example_deep 10 2 1000 [with_name_prefix (example_layer 2 5 3) "h1"])
    "deep".

Definition example_runtime_two : Runtime :=
  mkRuntime [] [] 0
    (fun _ name _ => if String.eqb name "h1.inducing_values"
                     then zeros [1; 2; 5] else zeros [1; 1; 10])
    (fun _ _ _ _ => Fzero).

(** A deep GP without hidden layers on which [name_prefix] is assigned but
    no [likelihood] is: neither [__init__] of this file binds one. *)
Definition example_deep_no_likelihood : Value :=
  with_name_prefix
    (AbstractPyroDeepGP_init (<["forward" := VForward example_forward]> ∅)
       (example_strategy 1 10 3) 3 1 (VInt 1000) "deep" (VList []))
    "deep".

(** The raw variance of a call whose site value is [u]. *)
Definition raw_of (N : Numerics) (self inputs u : Value) : Result Tensor :=
  pr ← model_prior N self inputs;
  mo ← model_moments N self pr u;
  raw_variance N mo.

(* ===================================================================== *)
(** ** Traces and stacks of layers *)
(* ===================================================================== *)

(** The names of the sample sites of a trace, latest first. *)
Fixpoint sample_sites (evs : list Event) : list string :=
  match evs with
  | [] => []
  | EvSample name _ _ _ :: evs' => name :: sample_sites evs'
  | _ :: evs' => sample_sites evs'
  end.

(** A computation that leaves the runtime as a [with] block must: the
    handler stack is the one it found, whether it returns or raises, the
    random sources are untouched, the draw counter has not gone back, and
    the trace has only grown. *)
Definition framed {A} (m : Py A) : Prop :=
  forall rt,
    stack (snd (m rt)) = stack rt /\
    site_draw (snd (m rt)) = site_draw rt /\
    rsample_draw (snd (m rt)) = rsample_draw rt /\
    draws rt <= draws (snd (m rt)) /\
    exists new, events (snd (m rt)) = new ++ events rt.

(** Values without a [size] attribute: [None], numbers, strings, lists. *)
Definition plain_python_value (v : Value) : bool :=
  match v with
  | VNone | VInt _ | VFloat _ | VStr _ | VList _ => true
  | _ => false
  end.

(** A stack of hidden layers over [n] inducing points each, fed with inputs
    of [D] dimensions: the channels of each layer, listed in [Os], are the
    input dimensions of the next. *)
Fixpoint chain_ok (layers : list Value) (Os : list nat) (n D : nat) : Prop :=
  match layers, Os with
  | [], [] => True
  | layer :: layers', o :: Os' => layer_ok layer o n D /\ chain_ok layers' Os' n o
  | _, _ => False
  end.

(** A runtime whose sample site yields a tensor of the shape listed for the
    current draw count, and of the [final] shape at every other count. *)
Definition example_runtime_seq (sites : list (nat * list nat)) (final : list nat)
  : Runtime :=
  mkRuntime [] [] 0
    (fun c _ _ => zeros (foldr (fun '(k, shp) acc => if c =? k then shp else acc)
                               final sites))
    (fun _ _ _ _ => Fzero).

(* ===================================================================== *)
(** * Properties *)
(* ===================================================================== *)

(** ** The tensor layer *)

Lemma numel_pos_div (shp : list nat) (i : nat) :
  0 < numel shp -> (i * numel shp) / numel shp = i.
Proof. intros H. apply Nat.div_mul. lia. Qed.

Lemma in_range_cons d shp i idx :
  in_range (d :: shp) (i :: idx) = true <-> i < d /\ in_range shp idx = true.
Proof.
  cbn [in_range]. rewrite andb_true_iff, Nat.ltb_lt. tauto.
Qed.

Lemma offset_lt shp : forall idx,
  in_range shp idx = true -> offset shp idx < numel shp.
Proof.
  induction shp as [|d shp IH]; intros [|i idx] H; try discriminate.
  - cbn. lia.
  - apply in_range_cons in H as [Hi Hr]. specialize (IH _ Hr).
    cbn [offset numel fold_right]. fold (numel shp). nia.
Qed.

Lemma unravel_offset shp : forall idx,
  in_range shp idx = true -> unravel shp (offset shp idx) = idx.
Proof.
  induction shp as [|d shp IH]; intros [|i idx] H; try discriminate.
  - reflexivity.
  - apply in_range_cons in H as [Hi Hr].
    pose proof (offset_lt _ _ Hr) as Hlt.
    cbn [unravel offset]. f_equal.
    + rewrite Nat.div_add_l by lia. rewrite Nat.div_small by lia. lia.
    + rewrite Nat.add_comm, Nat.Div0.mod_add, Nat.mod_small by lia.
      apply IH, Hr.
Qed.

Lemma shape_tabulate shp f : shape (tabulate shp f) = shp.
Proof. reflexivity. Qed.

(** Reading back an entry of a tabulated tensor. *)
Lemma get_tabulate shp f idx :
  in_range shp idx = true -> get (tabulate shp f) idx = f idx.
Proof.
  intros H. unfold get, tabulate. cbn [shape data].
  pose proof (offset_lt _ _ H) as Hlt.
  rewrite (nth_indep _ S754_nan (f (unravel shp 0)))
    by (rewrite length_map, length_seq; exact Hlt).
  rewrite (map_nth (fun k => f (unravel shp k))).
  rewrite seq_nth by exact Hlt. cbn [Nat.add].
  now rewrite unravel_offset.
Qed.

(** ** The clamp *)

Lemma clamp_min_entry_neg x :
  SFltb x Fzero = true -> clamp_min_entry x Fzero = Fzero.
Proof. intros H. unfold clamp_min_entry. now rewrite H. Qed.

Lemma clamp_min_entry_not_neg x :
  SFltb (clamp_min_entry x Fzero) Fzero = false.
Proof.
  unfold clamp_min_entry. destruct (SFltb x Fzero) eqn:E; [reflexivity | exact E].
Qed.

Lemma clamp_min_entry_ge x :
  clamp_min_entry x Fzero <> S754_nan ->
  SFleb Fzero (clamp_min_entry x Fzero) = true.
Proof.
  unfold clamp_min_entry.
  destruct x as [s | s | | s m e]; cbn; try destruct s; cbn; congruence.
Qed.

Lemma clamp_min_get t idx :
  in_range (shape t) idx = true ->
  get (clamp_min t Fzero) idx = clamp_min_entry (get t idx) Fzero.
Proof. intros H. unfold clamp_min. now rewrite get_tabulate. Qed.

(** ** The error and runtime monads *)

Lemma py_bind_unfold {A B} (m : Py A) (k : A -> Py B) rt :
  (m ≫= k) rt =
  match m rt with
  | (Ok a, rt') => k a rt'
  | (Raise e, rt') => (Raise e, rt')
  end.
Proof. reflexivity. Qed.

Lemma py_bind_lift {A B} (r : Result A) (k : A -> Py B) rt :
  (lift r ≫= k) rt =
  match r with
  | Ok a => k a rt
  | Raise e => (Raise e, rt)
  end.
Proof. rewrite py_bind_unfold. unfold lift. now destruct r. Qed.

Lemma py_bind_ok_inv {A B} (m : Py A) (k : A -> Py B) rt b :
  fst ((m ≫= k) rt) = Ok b ->
  exists a rt', m rt = (Ok a, rt') /\ fst (k a rt') = Ok b.
Proof.
  rewrite py_bind_unfold. destruct (m rt) as [[a|e] rt']; cbn; intros H.
  - eauto.
  - discriminate.
Qed.

Lemma py_bind_raise {A B} (m : Py A) (k : A -> Py B) rt e rt' :
  m rt = (Raise e, rt') -> (m ≫= k) rt = (Raise e, rt').
Proof. intros H. rewrite py_bind_unfold. now rewrite H. Qed.

Lemma with_handler_fst {A} h (body : Py A) rt :
  fst (with_handler h body rt) = fst (body (push h rt)).
Proof. unfold with_handler. now destruct (body (push h rt)). Qed.

Lemma with_handler_events {A} h (body : Py A) rt :
  events (snd (with_handler h body rt)) =
  EvExit h :: events (snd (body (push h rt))).
Proof. unfold with_handler. now destruct (body (push h rt)). Qed.

(** ** The module as a compilation unit *)

(** C10: the parameter list of [AbstractPyroDeepGP.__init__] ends in the
    defaulted [name_prefix] followed by the non-default [hidden_gp_layers];
    Python's compiler rejects it, so importing the module raises a
    SyntaxError and no method of any class of the file can be resolved. *)
Theorem C10_module_does_not_load :
  (exists d pre,
      In d module_defs /\
      d_class d = "AbstractPyroDeepGP" /\ d_name d = "__init__" /\
      d_params d = (pre ++ [opt "name_prefix"; req "hidden_gp_layers"])%list /\
      params_ok false (d_params d) = false) /\
  import_module =
    Raise (SyntaxError "non-default argument follows default argument") /\
  (forall cls meth,
      resolve cls meth =
        Raise (SyntaxError "non-default argument follows default argument")).
Proof.
  split; [|split].
  - eexists (mkDef "AbstractPyroDeepGP" "__init__" _),
            [req "self"; req "variational_strategy"; req "input_dims";
             req "output_dims"; req "total_num_data"].
    repeat split; cbn; auto 20.
  - reflexivity.
  - intros cls meth. reflexivity.
Qed.

(** With the two last parameters in the other order the same file compiles:
    the check rejects this signature and nothing else. *)
Lemma params_ok_reordered :
  params_ok false
    [req "self"; req "variational_strategy"; req "input_dims";
     req "output_dims"; req "total_num_data"; req "hidden_gp_layers";
     opt "name_prefix"] = true.
Proof. reflexivity. Qed.

(** ** QuadratureDist *)

(** C6: [log_prob(target)] is exactly the likelihood's
    [expected_log_prob(target, function_dist)], and [sample] yields no sample
    (it returns [None]) whatever the sample shape. *)
Theorem C6_quadrature_dist (C : Collaborators) (id : nat)
    (function_dist target : Value) :
  QuadratureDist_log_prob C (QuadratureDist_init (VLikelihood id) function_dist)
                          target
  = expected_log_prob C id target function_dist
  /\ (forall self sample_shape, QuadratureDist_sample self sample_shape = VNone).
Proof. split; reflexivity. Qed.

(** ** Names that are never bound *)

Lemma load_global_name_prefix :
  load_global "name_prefix" = Raise (NameError "name_prefix").
Proof. vm_compute. reflexivity. Qed.

Lemma load_global_f_samples :
  load_global "f_samples" = Raise (NameError "f_samples").
Proof. vm_compute. reflexivity. Qed.

Lemma load_global_output :
  load_global "output" = Raise (NameError "output").
Proof. vm_compute. reflexivity. Qed.

(** The scoring step of [AbstractPyroDeepGP.model] raises in every runtime. *)
Lemma AbstractPyroDeepGP_model_score_raises self rt :
  exists e, AbstractPyroDeepGP_model_score self rt = (Raise e, rt).
Proof.
  unfold AbstractPyroDeepGP_model_score. rewrite py_bind_lift.
  destruct (getattr self "likelihood") as [lik|e]; [|eauto].
  rewrite py_bind_lift, load_global_f_samples. eauto.
Qed.

(** [AbstractPyroDeepGP.model] returns in no runtime, on no object and for
    no input. *)
Lemma AbstractPyroDeepGP_model_never_returns N self inputs outputs rt v :
  fst (AbstractPyroDeepGP_model N self inputs outputs rt) <> Ok v.
Proof.
  unfold AbstractPyroDeepGP_model. intros H.
  repeat (apply py_bind_ok_inv in H as (? & ? & _ & H)).
  rewrite with_handler_fst in H.
  repeat (apply py_bind_ok_inv in H as (? & ? & _ & H)).
  rewrite with_handler_fst in H.
  match type of H with
  | fst (AbstractPyroDeepGP_model_score ?s ?r) = _ =>
      destruct (AbstractPyroDeepGP_model_score_raises s r) as [e He]; rewrite He in H
  end.
  discriminate.
Qed.

(** The scoring statement raises in every runtime and on every object; the
    runtime is left as it was. *)
Lemma AbstractPyroDeepGP_model_score_error self rt :
  AbstractPyroDeepGP_model_score self rt = (Raise (scoring_error self), rt).
Proof.
  unfold AbstractPyroDeepGP_model_score, scoring_error. rewrite py_bind_lift.
  destruct (getattr self "likelihood") as [lik|e]; [|reflexivity].
  now rewrite py_bind_lift, load_global_f_samples.
Qed.

(** C7 (as amended): the observation distribution of
    [AbstractPyroDeepGP.model] is built from [f_samples] and the site is
    observed at [output]; neither name is bound in the function, the module
    or the builtins.  So the scoring step fails in every execution that
    reaches it, on every object and in every runtime: with NameError for
    [f_samples] when [self.likelihood] resolves, and with the error of
    [self.likelihood], which line 199 evaluates first, when it does not.
    The two [with] blocks around it are entered and left again, no sample
    site is registered, and the method as a whole never returns a value. *)
Theorem C7_scoring_step_raises (N : Numerics) (self : Value) (rt : Runtime) :
  load_global "f_samples" = Raise (NameError "f_samples") /\
  load_global "output" = Raise (NameError "output") /\
  AbstractPyroDeepGP_model_score self rt = (Raise (scoring_error self), rt) /\
  (forall lik, getattr self "likelihood" = Ok lik ->
      scoring_error self = NameError "f_samples") /\
  (getattr self "likelihood" = Raise (AttributeError "likelihood") ->
      scoring_error self = AttributeError "likelihood") /\
  (forall h1 h2,
      let r := with_handler h1 (with_handler h2 (AbstractPyroDeepGP_model_score self)) rt in
      fst r = Raise (scoring_error self) /\
      events (snd r)
      = EvExit h1 :: EvExit h2 :: EvEnter h2 :: EvEnter h1 :: events rt) /\
  (forall inputs outputs v,
      fst (AbstractPyroDeepGP_model N self inputs outputs rt) <> Ok v).
Proof.
  split; [apply load_global_f_samples|].
  split; [apply load_global_output|].
  split; [apply AbstractPyroDeepGP_model_score_error|].
  split; [intros lik H; unfold scoring_error; now rewrite H|].
  split; [intros H; unfold scoring_error; now rewrite H|].
  split.
  - intros h1 h2 r. subst r. unfold with_handler.
    rewrite AbstractPyroDeepGP_model_score_error. cbn. split; reflexivity.
  - intros inputs outputs v. apply AbstractPyroDeepGP_model_never_returns.
Qed.

(** ** [name_prefix] *)

Lemma getattr_init_name_prefix base vs idm od pre :
  base !! "name_prefix" = None ->
  getattr (AbstractPyroHiddenGPLayer_init base vs idm od pre) "name_prefix"
  = Raise (AttributeError "name_prefix").
Proof.
  intros H. unfold AbstractPyroHiddenGPLayer_init, AbstractVariationalGP_init, setattr, getattr.
  rewrite !lookup_insert_ne by discriminate. now rewrite H.
Qed.

Lemma getattr_init_plate base vs idm od pre :
  getattr (AbstractPyroHiddenGPLayer_init base vs idm od pre) "output_dim_plate"
  = Ok (pyro_plate (pre +:+ ".n_output_plate") od None).
Proof.
  unfold AbstractPyroHiddenGPLayer_init, setattr, getattr. now rewrite lookup_insert_eq.
Qed.

Lemma getattr_DeepGP_init_name_prefix base vs idm od total pre layers :
  base !! "name_prefix" = None ->
  getattr (AbstractPyroDeepGP_init base vs idm od total pre layers) "name_prefix"
  = Raise (AttributeError "name_prefix").
Proof.
  intros H.
  unfold AbstractPyroDeepGP_init, AbstractPyroHiddenGPLayer_init,
    AbstractVariationalGP_init, setattr, getattr.
  rewrite !lookup_insert_ne by discriminate. now rewrite H.
Qed.

(** On an object without [name_prefix], [model] gets as far as the sample
    site of line 87 at most. *)
Lemma AbstractPyroHiddenGPLayer_model_unbound_prefix N self inputs rs rt e0 :
  getattr self "name_prefix" = Raise e0 ->
  (forall v, fst (AbstractPyroHiddenGPLayer_model N self inputs rs rt) <> Ok v) /\
  (forall pr plate,
      model_prior N self inputs = Ok pr ->
      getattr self "output_dim_plate" ≫= as_plate = Ok plate ->
      fst (AbstractPyroHiddenGPLayer_model N self inputs rs rt) = Raise e0).
Proof.
  intros Hn.
  assert (Hbody : forall pr plate rt',
    fst (with_handler plate
           (prefix ← lift (getattr self "name_prefix");
            name ← lift (str_add prefix ".inducing_values");
            pyro_sample name (VDist (prior_distribution pr)) None) rt')
    = Raise e0).
  { intros pr plate rt'. rewrite with_handler_fst, py_bind_lift, Hn. reflexivity. }
  split.
  - intros v H. unfold AbstractPyroHiddenGPLayer_model in H.
    apply py_bind_ok_inv in H as (pr & rt1 & _ & H).
    apply py_bind_ok_inv in H as (plate & rt2 & _ & H).
    apply py_bind_ok_inv in H as (u & rt3 & Hu & _).
    specialize (Hbody pr plate rt2). rewrite Hu in Hbody. discriminate.
  - intros pr plate Hpr Hpl. unfold AbstractPyroHiddenGPLayer_model.
    rewrite py_bind_lift, Hpr, py_bind_lift, Hpl, py_bind_unfold.
    specialize (Hbody pr plate rt).
    destruct (with_handler plate _ rt) as [[u|e] rt']; cbn in Hbody |- *;
      congruence.
Qed.

(** [guide] needs nothing but the plate to reach the unbound name. *)
Lemma AbstractPyroHiddenGPLayer_guide_raises self plate rt :
  getattr self "output_dim_plate" ≫= as_plate = Ok plate ->
  fst (AbstractPyroHiddenGPLayer_guide self rt) = Raise (NameError "name_prefix").
Proof.
  intros H. unfold AbstractPyroHiddenGPLayer_guide.
  rewrite py_bind_lift, H, with_handler_fst, py_bind_lift, load_global_name_prefix.
  reflexivity.
Qed.

(** On an object without [name_prefix] a call of [model] ends in the error of
    lines 37-85, if there is one, and in the failed attribute lookup of
    line 87 otherwise. *)
Lemma AbstractPyroHiddenGPLayer_model_unbound_prefix_error N self inputs rs rt e0 plate :
  getattr self "name_prefix" = Raise e0 ->
  getattr self "output_dim_plate" ≫= as_plate = Ok plate ->
  fst (AbstractPyroHiddenGPLayer_model N self inputs rs rt)
  = match model_prior N self inputs with
    | Ok _ => Raise e0
    | Raise e => Raise e
    end.
Proof.
  intros Hn Hpl.
  destruct (model_prior N self inputs) as [pr|e] eqn:Hpr.
  - exact (proj2 (AbstractPyroHiddenGPLayer_model_unbound_prefix
                    N self inputs rs rt e0 Hn) pr plate Hpr Hpl).
  - unfold AbstractPyroHiddenGPLayer_model. now rewrite py_bind_lift, Hpr.
Qed.

(** C9 (as amended): [__init__] leaves [name_prefix] unassigned: unless the
    parent class or a subclass provides it, reading [self.name_prefix] raises
    AttributeError.  On such an object no call of [model] returns: a call
    whose inputs get through lines 37-85 raises that AttributeError at
    line 87, and a call that fails in lines 37-85 raises the error met
    there.  [AbstractPyroDeepGP.model], once its hidden layers have returned,
    ends in the same way inside the terminal layer's [model], before it
    reads [name_prefix] for the data plate.  [guide], which reads the bare
    name [name_prefix], raises NameError in every call, and so does
    [AbstractPyroDeepGP.guide] without hidden layers. *)
Theorem C9_name_prefix_unbound (N : Numerics) (base : gmap string Value)
    (vs : Value) (idm od : nat) (pre : string) (inputs : Value) (rs : bool)
    (rt : Runtime) :
  base !! "name_prefix" = None ->
  let self := AbstractPyroHiddenGPLayer_init base vs idm od pre in
  getattr self "name_prefix" = Raise (AttributeError "name_prefix") /\
  (forall v, fst (AbstractPyroHiddenGPLayer_model N self inputs rs rt) <> Ok v) /\
  fst (AbstractPyroHiddenGPLayer_model N self inputs rs rt)
  = match model_prior N self inputs with
    | Ok _ => Raise (AttributeError "name_prefix")
    | Raise e => Raise e
    end /\
  fst (AbstractPyroHiddenGPLayer_guide self rt) = Raise (NameError "name_prefix") /\
  (forall total layers outputs,
      let deep := AbstractPyroDeepGP_init base vs idm od total pre (VList layers) in
      getattr deep "name_prefix" = Raise (AttributeError "name_prefix") /\
      (forall v, fst (AbstractPyroDeepGP_model N deep inputs outputs rt) <> Ok v) /\
      (forall x rt1,
          AbstractPyroDeepGP_model_loop N layers inputs rt = (Ok x, rt1) ->
          fst (AbstractPyroDeepGP_model N deep inputs outputs rt)
          = match model_prior N deep x with
            | Ok _ => Raise (AttributeError "name_prefix")
            | Raise e => Raise e
            end) /\
      fst (AbstractPyroHiddenGPLayer_guide deep rt) = Raise (NameError "name_prefix") /\
      (layers = [] ->
       fst (AbstractPyroDeepGP_guide deep inputs outputs rt)
       = Raise (NameError "name_prefix"))).
Proof.
  intros Hbase self.
  pose proof (getattr_init_name_prefix base vs idm od pre Hbase) as Hn.
  pose proof (getattr_init_plate base vs idm od pre) as Hp.
  assert (Hpl : getattr self "output_dim_plate" ≫= as_plate
                = Ok (HPlate (pre +:+ ".n_output_plate") od None))
    by (subst self; rewrite Hp; reflexivity).
  destruct (AbstractPyroHiddenGPLayer_model_unbound_prefix N self inputs rs rt _ Hn) as [H1 _].
  split; [exact Hn|]. split; [exact H1|]. split; [|split].
  - exact (AbstractPyroHiddenGPLayer_model_unbound_prefix_error
             N self inputs rs rt _ _ Hn Hpl).
  - exact (AbstractPyroHiddenGPLayer_guide_raises self _ rt Hpl).
  - intros total layers outputs deep.
    assert (Hdn : getattr deep "name_prefix" = Raise (AttributeError "name_prefix"))
      by (apply getattr_DeepGP_init_name_prefix, Hbase).
    assert (Hdp : getattr deep "output_dim_plate" ≫= as_plate
                  = Ok (HPlate (pre +:+ ".n_output_plate") od None)).
    { subst deep.
      unfold AbstractPyroDeepGP_init, AbstractPyroHiddenGPLayer_init, setattr, getattr.
      rewrite !lookup_insert_ne by discriminate.
      rewrite lookup_insert_eq. reflexivity. }
    assert (Hdl : getattr deep "hidden_gp_layers" ≫= as_list = Ok layers).
    { subst deep.
      unfold AbstractPyroDeepGP_init, AbstractPyroHiddenGPLayer_init, setattr, getattr.
      rewrite lookup_insert_ne by discriminate.
      rewrite lookup_insert_eq. reflexivity. }
    split; [exact Hdn|]. split; [|split; [|split]].
    + apply AbstractPyroDeepGP_model_never_returns.
    + intros x rt1 Hloop.
      unfold AbstractPyroDeepGP_model, AbstractPyroDeepGP_model_feed.
      rewrite py_bind_unfold, py_bind_lift, Hdl, py_bind_unfold, Hloop.
      rewrite py_bind_unfold.
      pose proof (AbstractPyroHiddenGPLayer_model_unbound_prefix_error
                    N deep x false rt1 _ _ Hdn Hdp) as Hm.
      destruct (AbstractPyroHiddenGPLayer_model N deep x false rt1) as [[v|e] rt2];
        cbn [fst] in Hm |- *.
      * destruct (model_prior N deep x); discriminate Hm.
      * exact Hm.
    + exact (AbstractPyroHiddenGPLayer_guide_raises deep _ rt Hdp).
    + intros ->. unfold AbstractPyroDeepGP_guide.
      rewrite py_bind_lift, Hdl, py_bind_unfold.
      cbn [AbstractPyroDeepGP_guide_loop mret py_ret]. rewrite py_bind_unfold.
      pose proof (AbstractPyroHiddenGPLayer_guide_raises deep _ rt Hdp) as Hg.
      destruct (AbstractPyroHiddenGPLayer_guide deep rt) as [[v|e] rt2];
        cbn [fst] in Hg |- *; [discriminate Hg | exact Hg].
Qed.

Lemma C9_name_prefix_unbound_witness :
  let N := example_numerics Fzero in
  let x := VTensor (zeros [4; 1]) in
  let rt := example_runtime [2; 5] in
  example_base !! "name_prefix" = None /\
  fst (AbstractPyroHiddenGPLayer_model N (example_layer 2 5 1) x true rt)
  = Raise (AttributeError "name_prefix") /\
  fst (AbstractPyroHiddenGPLayer_guide (example_layer 2 5 1) rt)
  = Raise (NameError "name_prefix").
Proof.
  intros N x rt.
  assert (Hb : example_base !! "name_prefix" = None) by (vm_compute; reflexivity).
  destruct (C9_name_prefix_unbound N example_base (example_strategy 2 5 1) 1 2
              "layer" x true rt Hb) as (_ & _ & Hm & Hg & _).
  split; [exact Hb|]. split; [|exact Hg].
  unfold example_layer. rewrite Hm.
  destruct (model_prior N _ x) as [pr|e] eqn:E; [reflexivity|].
  exfalso. vm_compute in E. discriminate.
Defined.

(** C9 fails as it is stated.  On a layer as [__init__] leaves it, a call of
    [model] with a 1-D input fails at [inputs.size(-2)] with IndexError, and
    one with a trailing size that does not fit fails at [expand] with
    RuntimeError: neither is an attribute-lookup error. *)
Lemma C9_counterexample :
  let N := example_numerics Fzero in
  let self := example_layer 2 5 3 in
  let rt := example_runtime [2; 5] in
  let r1 := fst (AbstractPyroHiddenGPLayer_model N self (VTensor (zeros [4])) true rt) in
  let r2 := fst (AbstractPyroHiddenGPLayer_model N self (VTensor (zeros [4; 2])) true rt) in
  getattr self "name_prefix" = Raise (AttributeError "name_prefix") /\
  r1 = Raise IndexError /\
  r2 = Raise (RuntimeError "expand: sizes do not match") /\
  forall a, r1 <> Raise (AttributeError a) /\ r2 <> Raise (AttributeError a).
Proof.
  intros N self rt r1 r2.
  assert (H1 : r1 = Raise IndexError) by (vm_compute; reflexivity).
  assert (H2 : r2 = Raise (RuntimeError "expand: sizes do not match"))
    by (vm_compute; reflexivity).
  split; [vm_compute; reflexivity|]. split; [exact H1|]. split; [exact H2|].
  intros a. rewrite H1, H2. split; discriminate.
Qed.

Lemma C7_scoring_step_raises_witness :
  getattr (example_layer 1 5 3) "likelihood" = Ok (VLikelihood 0) /\
  scoring_error (example_layer 1 5 3) = NameError "f_samples".
Proof.
  assert (H : getattr (example_layer 1 5 3) "likelihood" = Ok (VLikelihood 0))
    by (vm_compute; reflexivity).
  split; [exact H|].
  exact (proj1 (proj2 (proj2 (proj2
    (C7_scoring_step_raises (example_numerics Fzero) (example_layer 1 5 3)
       (example_runtime [1; 5])))))
    (VLikelihood 0) H).
Defined.

(** C7 fails as it is stated.  On a deep GP on which no [likelihood] is
    bound (nothing in this file binds one) the execution reaches the scoring
    statement, inside the data plate and the scale handler, and fails there
    with the attribute-lookup error for [likelihood], not with an
    undefined-name error. *)
Lemma C7_counterexample :
  let N := example_numerics Fzero in
  let plate := HPlate "deep.data_plate" 10 (Some (-1)%Z) in
  let r := AbstractPyroDeepGP_model N example_deep_no_likelihood
             (VTensor (zeros [10; 3])) (VTensor (zeros [10]))
             (example_runtime [1; 10]) in
  fst r = Raise (AttributeError "likelihood") /\
  firstn 4 (events (snd r))
  = [EvExit plate; EvExit (HScale hundred); EvEnter (HScale hundred);
     EvEnter plate] /\
  forall name, fst r <> Raise (NameError name).
Proof.
  intros N plate r.
  assert (H : fst r = Raise (AttributeError "likelihood"))
    by (vm_compute; reflexivity).
  split; [exact H|]. split; [vm_compute; reflexivity|].
  intros name. rewrite H. discriminate.
Qed.

(** ** Feeding the layers forward *)

Lemma py_bind_mret {A} (m : Py A) rt : (m ≫= mret) rt = m rt.
Proof. rewrite py_bind_unfold. now destruct (m rt) as [[a|e] rt']. Qed.

Lemma py_bind_assoc {A B D} (m : Py A) (f : A -> Py B) (g : B -> Py D) rt :
  ((m ≫= f) ≫= g) rt = (m ≫= (fun a => f a ≫= g)) rt.
Proof.
  rewrite !py_bind_unfold. now destruct (m rt) as [[a|e] rt'].
Qed.

(** The loop of lines 191-192 is a left fold over the stack of layers. *)
Lemma AbstractPyroDeepGP_model_loop_foldl N layers : forall (acc : Py Value) rt,
  (acc ≫= AbstractPyroDeepGP_model_loop N layers) rt
  = foldl (fun acc layer => a ← acc; AbstractPyroHiddenGPLayer_model N layer a true)
          acc layers rt.
Proof.
  induction layers as [|l ls IH]; intros acc rt.
  - cbn [foldl AbstractPyroDeepGP_model_loop]. apply py_bind_mret.
  - cbn [foldl AbstractPyroDeepGP_model_loop]. rewrite <- IH. now rewrite py_bind_assoc.
Qed.

(** What [model] returns is a tensor with [return_samples=True] and a
    distribution with [return_samples=False]. *)
Lemma AbstractPyroHiddenGPLayer_model_kind N self inputs rs rt v :
  fst (AbstractPyroHiddenGPLayer_model N self inputs rs rt) = Ok v ->
  if rs then exists t, v = VTensor t else exists d, v = VDist d.
Proof.
  unfold AbstractPyroHiddenGPLayer_model. intros H.
  repeat (apply py_bind_ok_inv in H as (? & ? & _ & H)).
  unfold model_return in H. destruct rs.
  - destruct (num_samples _).
    + repeat (apply py_bind_ok_inv in H as (? & ? & _ & H)).
      cbn in H. injection H as <-. eauto.
    + repeat (apply py_bind_ok_inv in H as (? & ? & _ & H)).
      cbn in H. injection H as <-. eauto.
  - cbn in H. injection H as <-. eauto.
Qed.

(** C5: lines 191-194 of [AbstractPyroDeepGP.model] are the feed-forward pass
    of the specification: the hidden layers' [model] in stacking order, each
    with [return_samples=True] on the previous result, then the terminal
    layer's [model] with [return_samples=False] on the last one.  Each hidden
    call hands on a sample tensor, the terminal call a distribution. *)
Theorem C5_feed_forward (N : Numerics) (self inputs : Value)
    (layers : list Value) (rt : Runtime) :
  getattr self "hidden_gp_layers" = Ok (VList layers) ->
  AbstractPyroDeepGP_model_feed N self inputs rt = spec_feed_forward N layers self inputs rt
  /\ (forall layer x rt' v,
        fst (AbstractPyroHiddenGPLayer_model N layer x true rt') = Ok v ->
        exists t, v = VTensor t)
  /\ (forall x d,
        fst (AbstractPyroDeepGP_model_feed N self inputs rt) = Ok (x, d) ->
        exists p_f_dist, d = VDist p_f_dist).
Proof.
  intros Hl.
  assert (Heq : AbstractPyroDeepGP_model_feed N self inputs rt
                = spec_feed_forward N layers self inputs rt).
  { unfold AbstractPyroDeepGP_model_feed, spec_feed_forward.
    rewrite py_bind_lift, Hl. cbn [mbind result_bind rbind as_list].
    rewrite !py_bind_unfold.
    rewrite <- (AbstractPyroDeepGP_model_loop_foldl N layers (mret inputs) rt).
    rewrite py_bind_unfold. reflexivity. }
  split; [exact Heq|]. split.
  - intros layer x rt' v H. exact (AbstractPyroHiddenGPLayer_model_kind _ _ _ true _ _ H).
  - intros x d H. unfold AbstractPyroDeepGP_model_feed in H.
    apply py_bind_ok_inv in H as (? & ? & _ & H).
    apply py_bind_ok_inv in H as (? & ? & _ & H).
    apply py_bind_ok_inv in H as (v & rt' & Hv & H).
    cbn in H. injection H as _ <-.
    eapply (AbstractPyroHiddenGPLayer_model_kind N self _ false _ v). now rewrite Hv.
Qed.

Lemma C5_feed_forward_witness :
  let layers := [with_name_prefix (example_layer 2 5 3) "h1"] in
  let deep := example_deep 5 2 1000 layers in
  let x := VTensor (zeros [5; 3]) in
  getattr deep "hidden_gp_layers" = Ok (VList layers) /\
  AbstractPyroDeepGP_model_feed (example_numerics Fzero) deep x (example_runtime [1; 2; 5])
  = spec_feed_forward (example_numerics Fzero) layers deep x
                      (example_runtime [1; 2; 5]).
Proof.
  intros layers deep x.
  split; [vm_compute; reflexivity|].
  exact (proj1 (C5_feed_forward (example_numerics Fzero) deep x layers
                  (example_runtime [1; 2; 5]) eq_refl)).
Defined.

(** ** Determinism once the draws are fixed *)

Lemma tabulate_ext shp f g :
  (forall idx, f idx = g idx) -> tabulate shp f = tabulate shp g.
Proof.
  intros H. unfold tabulate. f_equal. apply map_ext. intros k. apply H.
Qed.

(** The value [model] returns depends on the runtime only through the draw at
    the inducing-values site and the draw of the predictive [rsample]. *)
Lemma AbstractPyroHiddenGPLayer_model_draws N self inputs rs rt1 rt2 :
  (forall name d,
      site_draw rt1 (draws rt1) name d = site_draw rt2 (draws rt2) name d) ->
  (forall d s idx,
      rsample_draw rt1 (S (draws rt1)) d s idx
      = rsample_draw rt2 (S (draws rt2)) d s idx) ->
  fst (AbstractPyroHiddenGPLayer_model N self inputs rs rt1)
  = fst (AbstractPyroHiddenGPLayer_model N self inputs rs rt2).
Proof.
  intros Hsite Hrs. unfold AbstractPyroHiddenGPLayer_model.
  rewrite !py_bind_lift.
  destruct (model_prior N self inputs) as [pr|e]; [|reflexivity].
  rewrite !py_bind_lift.
  destruct (getattr self "output_dim_plate" ≫= as_plate) as [plate|e];
    [|reflexivity].
  rewrite !py_bind_unfold. unfold with_handler.
  rewrite !py_bind_lift.
  destruct (getattr self "name_prefix") as [prefix|e]; [|reflexivity].
  rewrite !py_bind_lift.
  destruct (str_add prefix ".inducing_values") as [name|e]; [|reflexivity].
  unfold pyro_sample. cbn [push pop stack events draws site_draw rsample_draw].
  rewrite Hsite.
  rewrite !py_bind_lift.
  destruct (model_moments N self pr _) as [mo|e]; [|reflexivity].
  rewrite !py_bind_lift.
  destruct (model_p_f_dist N mo) as [p_f_dist|e]; [|reflexivity].
  unfold model_return. destruct rs; [|reflexivity].
  destruct (num_samples pr).
  - rewrite !py_bind_unfold. unfold rsample.
    cbn [stack events draws site_draw rsample_draw].
    rewrite (tabulate_ext _ _ _ (Hrs p_f_dist [])).
    rewrite !py_bind_lift.
    destruct (transpose _ _ _); reflexivity.
  - rewrite !py_bind_lift.
    destruct (u ← tensor_method _ "size"; size u (-3)) as [k|e]; [|reflexivity].
    rewrite !py_bind_unfold. unfold rsample.
    cbn [stack events draws site_draw rsample_draw].
    rewrite (tabulate_ext _ _ _ (Hrs p_f_dist [k])).
    rewrite !py_bind_lift.
    destruct (transpose _ _ _); reflexivity.
Qed.

(** C8: two calls of [model] with [return_samples=True] on the same layer and
    the same inputs, in runtimes that may differ in everything but the value
    drawn at the inducing-values site and the values of the predictive
    [rsample], return the same sample tensor (or raise the same error). *)
Theorem C8_deterministic_given_draws (N : Numerics) (self inputs : Value)
    (rt1 rt2 : Runtime) :
  (forall name d,
      site_draw rt1 (draws rt1) name d = site_draw rt2 (draws rt2) name d) ->
  (forall d s idx,
      rsample_draw rt1 (S (draws rt1)) d s idx
      = rsample_draw rt2 (S (draws rt2)) d s idx) ->
  fst (AbstractPyroHiddenGPLayer_model N self inputs true rt1)
  = fst (AbstractPyroHiddenGPLayer_model N self inputs true rt2).
Proof. apply AbstractPyroHiddenGPLayer_model_draws. Qed.

Lemma C8_deterministic_given_draws_witness :
  let N := example_numerics Fzero in
  let self := with_name_prefix (example_layer 2 5 1) "h1" in
  let x := VTensor (zeros [4; 1]) in
  let rt1 := example_runtime [1; 2; 5] in
  let rt2 := example_runtime_busy [1; 2; 5] in
  (forall name d,
      site_draw rt1 (draws rt1) name d = site_draw rt2 (draws rt2) name d) /\
  (forall d s idx,
      rsample_draw rt1 (S (draws rt1)) d s idx
      = rsample_draw rt2 (S (draws rt2)) d s idx) /\
  is_ok (fst (AbstractPyroHiddenGPLayer_model N self x true rt1)) = true /\
  fst (AbstractPyroHiddenGPLayer_model N self x true rt1)
  = fst (AbstractPyroHiddenGPLayer_model N self x true rt2).
Proof.
  intros N self x rt1 rt2.
  assert (H1 : forall name d,
             site_draw rt1 (draws rt1) name d = site_draw rt2 (draws rt2) name d)
    by (intros; reflexivity).
  assert (H2 : forall d s idx,
             rsample_draw rt1 (S (draws rt1)) d s idx
             = rsample_draw rt2 (S (draws rt2)) d s idx)
    by (intros; reflexivity).
  split; [exact H1|]. split; [exact H2|].
  split; [vm_compute; reflexivity|].
  exact (C8_deterministic_given_draws N self x rt1 rt2 H1 H2).
Defined.

(** ** The clamped variance *)

Lemma model_p_f_dist_inv N mo d :
  model_p_f_dist N mo = Ok d ->
  exists raw,
    raw_variance N mo = Ok raw /\
    d = mkMVN (means mo) (DiagLazyTensor (clamp_min raw Fzero)).
Proof.
  unfold model_p_f_dist. cbn [mbind result_bind rbind].
  destruct (raw_variance N mo) as [raw|e]; [|discriminate].
  intros [= <-]. eauto.
Qed.

(** The distribution that [model] returns is the one [model_p_f_dist] builds
    from the moments of this call. *)
Lemma AbstractPyroHiddenGPLayer_model_dist_inv N self inputs rt d :
  fst (AbstractPyroHiddenGPLayer_model N self inputs false rt) = Ok (VDist d) ->
  exists pr u mo,
    model_prior N self inputs = Ok pr /\
    model_moments N self pr u = Ok mo /\
    model_p_f_dist N mo = Ok d.
Proof.
  unfold AbstractPyroHiddenGPLayer_model. intros H.
  apply py_bind_ok_inv in H as (pr & rt1 & Hpr & H).
  apply py_bind_ok_inv in H as (plate & rt2 & _ & H).
  apply py_bind_ok_inv in H as (u & rt3 & _ & H).
  apply py_bind_ok_inv in H as (mo & rt4 & Hmo & H).
  apply py_bind_ok_inv in H as (d' & rt5 & Hd & H).
  cbn in H. injection H as ->.
  unfold lift in Hpr, Hmo, Hd.
  injection Hpr as Hpr _. injection Hmo as Hmo _. injection Hd as Hd _.
  eauto 10.
Qed.

(** C3: the covariance of the predictive distribution that [model] builds is
    the diagonal lazy tensor over the clamped difference
    [data_data_diag - diag_correction]: the clamp comes first, the diagonal
    covariance is formed from its result.  Wherever the raw difference is
    negative the stored variance is exactly zero, and no stored variance is
    negative.  The distribution is built the same way on the path that goes
    on to sample from it. *)
Theorem C3_variance_clamped (N : Numerics) (self inputs : Value)
    (rt : Runtime) (d : MVN) :
  fst (AbstractPyroHiddenGPLayer_model N self inputs false rt) = Ok (VDist d) ->
  (exists pr u mo raw,
    model_prior N self inputs = Ok pr /\
    model_moments N self pr u = Ok mo /\
    raw_variance N mo = Ok raw /\
    lazy_covariance_matrix d = DiagLazyTensor (clamp_min raw Fzero) /\
    exists var,
      lt_diag N (lazy_covariance_matrix d) = Ok var /\
      shape var = shape raw /\
      forall idx, in_range (shape raw) idx = true ->
        (SFltb (get raw idx) Fzero = true -> get var idx = Fzero) /\
        SFltb (get var idx) Fzero = false) /\
  (forall mo' d',
      model_p_f_dist N mo' = Ok d' ->
      exists raw',
        raw_variance N mo' = Ok raw' /\
        lazy_covariance_matrix d' = DiagLazyTensor (clamp_min raw' Fzero)).
Proof.
  intros H. split.
  - apply AbstractPyroHiddenGPLayer_model_dist_inv in H as (pr & u & mo & Hpr & Hmo & Hd).
    apply model_p_f_dist_inv in Hd as (raw & Hraw & ->).
    exists pr, u, mo, raw. repeat (split; [assumption || reflexivity|]).
    exists (clamp_min raw Fzero). repeat (split; [reflexivity|]).
    intros idx Hidx. rewrite clamp_min_get by exact Hidx. split.
    + apply clamp_min_entry_neg.
    + apply clamp_min_entry_not_neg.
  - intros mo' d' Hd.
    apply model_p_f_dist_inv in Hd as (raw' & Hraw & ->). eauto.
Qed.

Lemma C3_variance_clamped_witness :
  let N := example_numerics Fone in
  let self := with_name_prefix (example_layer 2 5 1) "h1" in
  let x := VTensor (zeros [4; 1]) in
  let rt := example_runtime [2; 5] in
  let d := dist_of (AbstractPyroHiddenGPLayer_model N self x false rt) in
  fst (AbstractPyroHiddenGPLayer_model N self x false rt) = Ok (VDist d) /\
  exists pr u mo raw,
    model_prior N self x = Ok pr /\
    model_moments N self pr u = Ok mo /\
    raw_variance N mo = Ok raw /\
    lazy_covariance_matrix d = DiagLazyTensor (clamp_min raw Fzero) /\
    exists var,
      lt_diag N (lazy_covariance_matrix d) = Ok var /\
      shape var = shape raw /\
      forall idx, in_range (shape raw) idx = true ->
        (SFltb (get raw idx) Fzero = true -> get var idx = Fzero) /\
        SFltb (get var idx) Fzero = false.
Proof.
  intros N self x rt d.
  assert (H : fst (AbstractPyroHiddenGPLayer_model N self x false rt) = Ok (VDist d))
    by (vm_compute; reflexivity).
  split; [exact H|].
  exact (proj1 (C3_variance_clamped N self x rt d H)).
Defined.

(** In that call every raw variance is [0 - 1], and every stored one is 0. *)
Example variance_clamped_at_example :
  let N := example_numerics Fone in
  let self := with_name_prefix (example_layer 2 5 1) "h1" in
  let x := VTensor (zeros [4; 1]) in
  let d := dist_of (AbstractPyroHiddenGPLayer_model N self x false (example_runtime [2; 5])) in
  (raw ← raw_of N self x (VTensor (zeros [2; 5]));
   Ok (shape raw, get raw [1; 3], SFltb (get raw [1; 3]) Fzero))
  = Ok ([2; 4], S754_finite true 8388608 (-23), true) /\
  (var ← variance N d; Ok (shape var, get var [1; 3]))
  = Ok ([2; 4], Fzero).
Proof. vm_compute. split; reflexivity. Qed.

(** ** Shapes of the tensor operations *)

Lemma size_shape t d s i :
  shape t = s -> norm_dim (length s) d = Ok i -> size t d = Ok (nth i s 0).
Proof. intros <- H. unfold size, rank. now rewrite H. Qed.

Lemma unsqueeze_shape t d s i :
  shape t = s -> norm_dim (S (length s)) d = Ok i ->
  exists t', unsqueeze t d = Ok t' /\ shape t' = insert_at i 1 s.
Proof. intros <- H. unfold unsqueeze, rank. rewrite H. eauto. Qed.

Lemma squeeze_shape t d s i :
  shape t = s -> norm_dim (length s) d = Ok i -> nth i s 0 = 1 ->
  exists t', squeeze t d = Ok t' /\ shape t' = remove_at i s.
Proof.
  intros <- H H1. unfold squeeze, rank. rewrite H. cbn [mbind result_bind rbind].
  rewrite H1. eauto.
Qed.

Lemma expand_shape t s sizes :
  shape t = s ->
  (length s <=? length sizes) && expand_ok s (drop (length sizes - length s) sizes)
  = true ->
  exists t', expand t sizes = Ok t' /\ shape t' = sizes.
Proof. intros <- H. unfold expand, rank. rewrite H. eauto. Qed.

Lemma view_shape t s sizes :
  shape t = s -> numel s = numel sizes ->
  exists t', view t sizes = Ok t' /\ shape t' = sizes.
Proof.
  intros <- H. unfold view. rewrite H, Nat.eqb_refl. eauto.
Qed.

Lemma transpose_shape t d1 d2 s i j :
  shape t = s -> norm_dim (length s) d1 = Ok i -> norm_dim (length s) d2 = Ok j ->
  exists t', transpose t d1 d2 = Ok t' /\ shape t' = swap_at i j s.
Proof.
  intros <- H1 H2. unfold transpose, rank. rewrite H1, H2. eauto.
Qed.

Lemma permute_shape t s perm :
  shape t = s -> is_perm (length s) perm = true ->
  exists t', permute t perm = Ok t' /\ shape t' = map (fun j => nth j s 0) perm.
Proof. intros <- H. unfold permute, rank. rewrite H. eauto. Qed.

Lemma cat_shape a b d sa sb i :
  shape a = sa -> shape b = sb -> norm_dim (length sa) d = Ok i ->
  (length sa =? length sb)
  && forallb (fun k => (k =? i) || (nth k sa 0 =? nth k sb 0)) (seq 0 (length sa))
  = true ->
  exists t', cat a b d = Ok t' /\
             shape t' = set_at i (nth i sa 0 + nth i sb 0) sa.
Proof.
  intros <- <- Hi H. unfold cat, rank. rewrite Hi.
  cbn [mbind result_bind rbind]. rewrite H. eauto.
Qed.

Lemma slice_axis_shape t d sl s i :
  shape t = s -> norm_dim (length s) d = Ok i ->
  exists t', slice_axis t d sl = Ok t' /\
             shape t' = set_at i (slice_len sl (nth i s 0)) s.
Proof. intros <- H. unfold slice_axis, rank. rewrite H. eauto. Qed.

Lemma slice_len_upto a b : slice_len (UpTo a) (a + b) = a.
Proof. cbn. lia. Qed.

Lemma slice_len_from a b : slice_len (From a) (a + b) = b.
Proof. cbn. lia. Qed.

Lemma broadcast_same s : broadcast s s = Ok s.
Proof.
  unfold broadcast.
  assert (H : forall l, bcast_rev l l = Some l).
  { induction l as [|x l IH]; [reflexivity|].
    cbn. rewrite Nat.eqb_refl, IH. reflexivity. }
  rewrite H, rev_involutive. reflexivity.
Qed.

Lemma broadcast_lead (o : nat) (pre : list nat) :
  broadcast [o] (pre ++ [o]) = Ok (pre ++ [o]).
Proof.
  unfold broadcast. rewrite rev_app_distr. cbn [rev app bcast_rev].
  rewrite Nat.eqb_refl. cbn [fmap option_fmap option_map rev].
  now rewrite rev_involutive.
Qed.

Lemma sub_shape N a b sa sb s :
  shape a = sa -> shape b = sb -> broadcast sa sb = Ok s ->
  exists t', sub N a b = Ok t' /\ shape t' = s.
Proof. intros <- <- H. unfold sub. rewrite H. eauto. Qed.

Lemma matmul_shape N a b sa sb bs :
  shape a = sa -> shape b = sb ->
  2 <= length sa -> 2 <= length sb ->
  cols_of sa = rows_of sb ->
  broadcast (batch_of sa) (batch_of sb) = Ok bs ->
  exists t', matmul N a b = Ok t' /\ shape t' = bs ++ [rows_of sa; cols_of sb].
Proof.
  intros <- <- Ha Hb Hk Hbs. unfold matmul, rank.
  destruct (length (shape a)) as [|[|ra]] eqn:Ea; try lia.
  destruct (length (shape b)) as [|[|rb]] eqn:Eb; try lia.
  cbn [Nat.eqb orb mbind result_bind rbind].
  unfold matmul_core. rewrite Hk, Nat.eqb_refl, Hbs. eauto.
Qed.

Lemma lt_diag_nonlazy_shape N t s :
  shape t = s -> is_square s = true ->
  exists t', lt_diag N (NonLazy t) = Ok t' /\ shape t' = batch_of s ++ [rows_of s].
Proof. intros <- H. cbn [lt_diag]. rewrite H. eauto. Qed.

Lemma inv_matmul_shape N lt rhs sr bs :
  shape rhs = sr -> is_square (lt_shape lt) = true -> 2 <= length sr ->
  rows_of sr = rows_of (lt_shape lt) ->
  broadcast (batch_of (lt_shape lt)) (batch_of sr) = Ok bs ->
  exists t', inv_matmul N lt rhs = Ok t' /\
             shape t' = bs ++ [rows_of sr; cols_of sr].
Proof.
  intros <- Hsq Hr Hk Hbs. unfold inv_matmul, rank.
  rewrite Hsq, Hk, Nat.eqb_refl, Hbs.
  apply Nat.leb_le in Hr. rewrite Hr. eauto.
Qed.

Lemma inv_quad_shape N lt rhs sr bs :
  shape rhs = sr -> is_square (lt_shape lt) = true -> 2 <= length sr ->
  rows_of sr = rows_of (lt_shape lt) ->
  broadcast (batch_of (lt_shape lt)) (batch_of sr) = Ok bs ->
  exists t', inv_quad N lt rhs = Ok t' /\ shape t' = bs ++ [cols_of sr].
Proof.
  intros <- Hsq Hr Hk Hbs. unfold inv_quad, rank.
  rewrite Hsq, Hk, Nat.eqb_refl, Hbs.
  apply Nat.leb_le in Hr. rewrite Hr. eauto.
Qed.

Lemma is_square_3 o k : is_square [o; k; k] = true.
Proof. unfold is_square. cbn. apply Nat.eqb_refl. Qed.

(** A lazy tensor of shape [o x k x k] evaluates to a dense tensor of that
    shape, whichever kind it is. *)
Lemma evaluate_shape_3 N lt o k :
  lt_shape lt = [o; k; k] ->
  exists t, evaluate N lt = Ok t /\ shape t = [o; k; k].
Proof.
  destruct lt as [t | L | d]; cbn [lt_shape evaluate]; intros H.
  - eauto.
  - destruct (transpose_shape L (-2) (-1) _ 1 2 H eq_refl eq_refl) as (Lt & E & S).
    rewrite E. cbn [mbind result_bind rbind]. cbn in S.
    destruct (matmul_shape N L Lt _ _ [o] H S) as (t & Et & St);
      cbn; try lia; try reflexivity.
    + apply broadcast_same.
    + rewrite Et. eauto.
  - eexists. split; [reflexivity|]. cbn [shape tabulate lt_shape]. exact H.
Qed.

(** ** Shapes along [model] *)

(** The proofs below walk through [model] one tensor operation at a time:
    [op L] uses the shape lemma [L] of the operation at the head of the
    goal, names its result and records the result's shape; [sz H] reads a
    size off a known shape; [side] discharges the conditions under which the
    operation succeeds. *)
Ltac bind_simpl := cbn [mbind result_bind rbind fmap result_fmap].

Ltac rw_shapes :=
  cbn [lt_shape];
  repeat match goal with
         | H : shape ?t = _ |- context [shape ?t] => rewrite H
         end.

Ltac side :=
  rw_shapes;
  lazymatch goal with
  | |- norm_dim _ _ = Ok _ => lazy; reflexivity
  | |- shape _ = _ => eassumption
  | |- _ <= _ => cbn; lia
  | |- @eq nat _ _ => cbn; first [reflexivity | lia]
  | |- broadcast _ _ = _ =>
      cbn [batch_of length Nat.sub take];
      first [apply broadcast_same | apply (broadcast_lead _ [_])]
  | |- _ => cbn; rewrite ?Nat.eqb_refl; cbn; rewrite ?orb_true_r; reflexivity
  end.

Tactic Notation "op" open_constr(L) :=
  let t := fresh "t" in
  let E := fresh "E" in
  let S := fresh "Sh" in
  edestruct L as (t & E & S);
  [ side .. | rewrite E; clear E; bind_simpl; cbn in S ].

Ltac sz H :=
  erewrite (size_shape _ _ _ _ H) by (lazy; reflexivity); bind_simpl; cbn [nth].

(** Lines 37-58 on a plain minibatch. *)
Lemma model_inputs_2d self x O m n D :
  layer_ok self O m D -> shape x = [n; D] ->
  exists ip t,
    model_inputs self (VTensor x) = Ok (mkNormalized ip m n t None) /\
    shape ip = [O; m; D] /\ shape t = [O; n; D].
Proof.
  intros [(vs & ip & Hvs & Hip & Sip) Hod Hid _ _ _] Hx.
  unfold model_inputs. rewrite Hvs. bind_simpl. rewrite Hip. bind_simpl.
  cbn [tensor_method]. bind_simpl.
  sz Sip. sz Hx.
  unfold dim, contiguous, rank. rewrite Hx. cbn [length Nat.eqb].
  op (unsqueeze_shape x 0).
  rewrite Hod. bind_simpl. sz Sh. rewrite Hid. bind_simpl.
  op (expand_shape t _ [O; n; D]).
  rewrite Sh0. cbn [length Nat.eqb].
  eauto.
Qed.

Arguments slice_len : simpl never.

(** Lines 37-58 on a minibatch replicated over [p] samples. *)
Lemma model_inputs_3d self x O m p n D :
  layer_ok self O m D -> shape x = [p; n; D] ->
  exists ip t,
    model_inputs self (VTensor x) = Ok (mkNormalized ip m n t (Some p)) /\
    shape ip = [O; m; D] /\ shape t = [O; n * p; D].
Proof.
  intros [(vs & ip & Hvs & Hip & Sip) Hod Hid _ _ _] Hx.
  unfold model_inputs. rewrite Hvs. bind_simpl. rewrite Hip. bind_simpl.
  cbn [tensor_method]. bind_simpl.
  sz Sip. sz Hx.
  unfold dim, contiguous, rank. rewrite Hx. cbn [length Nat.eqb].
  op (unsqueeze_shape x 0).
  rewrite Hod. bind_simpl. sz Sh. sz Sh. rewrite Hid. bind_simpl.
  op (expand_shape t _ [O; p; n; D]).
  rewrite Sh0. cbn [length Nat.eqb].
  sz Sh0. sz Sh0.
  op (view_shape t0 _ [O; n * p; D]).
  eauto.
Qed.

Lemma lt_getitem2_shape N lt o a b s1 s2 :
  lt_shape lt = [o; a + b; a + b] ->
  exists t, lt_getitem2 N lt s1 s2 = Ok (NonLazy t) /\
            shape t = [o; slice_len s1 (a + b); slice_len s2 (a + b)].
Proof.
  intros H. unfold lt_getitem2.
  destruct (evaluate_shape_3 N lt _ _ H) as (t & E & S). rewrite E. bind_simpl.
  unfold getitem2, rank. rewrite S. cbn [length Nat.ltb Nat.leb].
  op (slice_axis_shape t (-2) s1).
  op (slice_axis_shape t0 (-1) s2).
  eauto.
Qed.

(** Lines 62-85: the only way to fail on a usable layer is the Cholesky
    factorisation. *)
Lemma model_blocks_shape N self nz O m q D :
  layer_ok self O m D ->
  shape (nz_inducing_points nz) = [O; m; D] ->
  shape (nz_inputs nz) = [O; q; D] ->
  nz_num_induc nz = m ->
  model_blocks N self nz = Raise chol_error \/
  exists pr, model_blocks N self nz = Ok pr /\
             prior_ok pr O m q /\
             minibatch_size pr = nz_minibatch_size nz /\
             num_samples pr = nz_num_samples nz.
Proof.
  intros [_ _ _ (f & Hf & Hc) _ _] Sip Sx Hm.
  set (P := fun r : Result Prior =>
    r = Raise chol_error \/
    exists pr, r = Ok pr /\ prior_ok pr O m q /\
               minibatch_size pr = nz_minibatch_size nz /\
               num_samples pr = nz_num_samples nz).
  change (P (model_blocks N self nz)).
  unfold model_blocks. rewrite Hm.
  op (cat_shape (nz_inducing_points nz) (nz_inputs nz) (-2) _ _ 1).
  rewrite Hf. bind_simpl. cbn [call_forward].
  destruct (Hc t O (m + q) D Sh) as (fo & Efo & Sloc & Scov).
  rewrite Efo. bind_simpl. unfold getitem1, mean.
  op (slice_axis_shape (loc fo) (-1) (UpTo m)).
  op (slice_axis_shape (loc fo) (-1) (From m)).
  destruct (lt_getitem2_shape N _ O m q (UpTo m) (UpTo m) Scov) as (kmm & E & Skmm).
  rewrite E. clear E. bind_simpl.
  unfold add_jitter. cbn [evaluate]. bind_simpl.
  rewrite slice_len_upto in Skmm. rewrite Skmm, is_square_3. bind_simpl.
  unfold cholesky. cbn [evaluate shape tabulate]. bind_simpl.
  rewrite ?shape_tabulate, is_square_3.
  destruct (chol_ok N _) eqn:Hchol; bind_simpl; [|left; reflexivity].
  destruct (lt_getitem2_shape N _ O m q (UpTo m) (From m) Scov) as (kmx & E & Skmx).
  rewrite E. clear E. bind_simpl. cbn [evaluate]. bind_simpl.
  destruct (lt_getitem2_shape N _ O m q (From m) (From m) Scov) as (kxx & E & Skxx).
  rewrite E. clear E. bind_simpl.
  rewrite ?slice_len_upto, ?slice_len_from in *.
  right. eexists. split; [reflexivity|]. split; [|split; reflexivity].
  constructor; cbn; eauto.
Qed.

(** Lines 90-133 in the first-layer branch. *)
Lemma model_moments_first N self pr u O m n pre :
  prior_ok pr O m n -> num_samples pr = None ->
  shape u = pre ++ [O; m] -> (pre = [] \/ exists p, pre = [p]) ->
  exists mo, model_moments N self pr (VTensor u) = Ok mo /\
             shape (means mo) = pre ++ [O; n] /\
             shape (data_data_diag mo) = [O; n] /\
             shape (diag_correction mo) = [O; n].
Proof.
  intros [_ (L & HL & SL) Skmx (kxx & Hkxx & Skxx) _] Hns Su Hpre.
  unfold model_moments. cbn [tensor_method]. bind_simpl.
  rewrite HL, Hkxx, Hns.
  destruct Hpre as [-> | [p ->]]; cbn [app] in Su.
  - op (unsqueeze_shape u (-1)).
    op (inv_matmul_shape N (CholLazyTensor L) t).
    op (squeeze_shape t0 (-1)).
    op (lt_diag_nonlazy_shape N kxx).
    op (transpose_shape (induc_data_covar pr) (-2) (-1)).
    op (unsqueeze_shape t1 (-1)).
    op (matmul_shape N t3 t4).
    op (squeeze_shape t5 (-1)).
    op (inv_quad_shape N (CholLazyTensor L) (induc_data_covar pr)).
    eexists. split; [reflexivity|]. cbn. auto.
  - op (unsqueeze_shape u (-1)).
    op (inv_matmul_shape N (CholLazyTensor L) t).
    op (squeeze_shape t0 (-1)).
    op (lt_diag_nonlazy_shape N kxx).
    op (transpose_shape (induc_data_covar pr) (-2) (-1)).
    op (unsqueeze_shape t1 (-1)).
    op (matmul_shape N t3 t4).
    op (squeeze_shape t5 (-1)).
    op (inv_quad_shape N (CholLazyTensor L) (induc_data_covar pr)).
    eexists. split; [reflexivity|]. cbn. auto.
Qed.

(** Lines 90-133 in the later-layer branch, when the minibatch has as many
    points as there are inducing points. *)
Lemma model_moments_later N self pr u O n p D :
  layer_ok self O n D ->
  prior_ok pr O n (n * p) -> num_samples pr = Some p -> minibatch_size pr = n ->
  shape u = [p; O; n] ->
  exists mo, model_moments N self pr (VTensor u) = Ok mo /\
             shape (means mo) = [p; O; n] /\
             shape (data_data_diag mo) = [p; O; n] /\
             shape (diag_correction mo) = [p; O; n].
Proof.
  intros [_ Hod _ _ _ _] [Hm (L & HL & SL) Skmx (kxx & Hkxx & Skxx) _] Hns Hmb Su.
  unfold model_moments. cbn [tensor_method]. bind_simpl.
  rewrite HL, Hkxx, Hns, Hm, Hmb.
  op (unsqueeze_shape u (-1)).
  op (inv_matmul_shape N (CholLazyTensor L) t).
  op (squeeze_shape t0 (-1)).
  rewrite Hod. bind_simpl.
  op (view_shape (induc_data_covar pr) _ [O; n; p; n]).
  op (permute_shape t2 _ [2; 0; 3; 1]).
  op (lt_diag_nonlazy_shape N kxx).
  sz Sh1.
  op (view_shape t4 _ [O; p; n]).
  op (transpose_shape t5 (-3) (-2)).
  op (transpose_shape t3 (-2) (-1)).
  op (unsqueeze_shape t1 (-1)).
  op (matmul_shape N t7 t8).
  op (squeeze_shape t9 (-1)).
  op (inv_quad_shape N (CholLazyTensor L) t3).
  eexists. split; [reflexivity|]. cbn. auto.
Qed.

Lemma expand_ok_refl l : expand_ok l l = true.
Proof.
  induction l as [|x l IH]; [reflexivity|].
  cbn. now rewrite Nat.eqb_refl, IH.
Qed.

Lemma model_p_f_dist_shape N mo s sd :
  shape (data_data_diag mo) = sd -> shape (diag_correction mo) = sd ->
  shape (means mo) = s ->
  (s = sd \/ exists p, s = p :: sd) ->
  exists d var,
    model_p_f_dist N mo = Ok d /\
    shape (mean d) = s /\
    variance N d = Ok var /\ shape var = s.
Proof.
  intros Sd Sc Sm Hs. unfold model_p_f_dist, raw_variance.
  op (sub_shape N (data_data_diag mo) (diag_correction mo) _ _ sd).
  edestruct (expand_shape (clamp_min t Fzero) sd s) as (v & E & Sv).
  - unfold clamp_min. now rewrite shape_tabulate.
  - destruct Hs as [-> | [p ->]].
    + rewrite Nat.sub_diag. cbn [drop].
      now rewrite Nat.leb_refl, expand_ok_refl.
    + cbn [length]. replace (S (length sd) - length sd) with 1 by lia.
      cbn [drop]. rewrite expand_ok_refl.
      replace (length sd <=? S (length sd)) with true
        by (symmetry; apply Nat.leb_le; lia).
      reflexivity.
  - exists (mkMVN (means mo) (DiagLazyTensor (clamp_min t Fzero))), v.
    split; [reflexivity|]. split; [exact Sm|].
    unfold variance. cbn [lazy_covariance_matrix lt_diag loc]. bind_simpl.
    rewrite Sm. auto.
Qed.

Lemma AbstractPyroHiddenGPLayer_model_stages N self x rs rt pr O m D U :
  layer_ok self O m D -> site_shape rt U ->
  model_prior N self x = Ok pr ->
  exists u rt',
    shape u = U /\
    fst (AbstractPyroHiddenGPLayer_model N self x rs rt)
    = match model_moments N self pr (VTensor u) with
      | Ok mo =>
          match model_p_f_dist N mo with
          | Ok d => fst (model_return pr (VTensor u) d rs rt')
          | Raise e => Raise e
          end
      | Raise e => Raise e
      end.
Proof.
  intros [_ _ _ _ (plate & Hplate) (s & Hs)] HU Hpr.
  unfold AbstractPyroHiddenGPLayer_model.
  rewrite py_bind_lift, Hpr, py_bind_lift, Hplate, py_bind_unfold.
  unfold with_handler. rewrite py_bind_lift, Hs. cbn [str_add].
  rewrite py_bind_lift. unfold pyro_sample.
  cbn [push pop stack events draws site_draw rsample_draw].
  exists (site_draw rt (draws rt) (s +:+ ".inducing_values")
                    (VDist (prior_distribution pr))).
  eexists. split; [apply HU|].
  rewrite py_bind_lift.
  destruct (model_moments N self pr _) as [mo|e]; [|reflexivity].
  rewrite py_bind_lift.
  destruct (model_p_f_dist N mo) as [d|e]; reflexivity.
Qed.

Lemma model_return_first_samples pr u d rt p O m n :
  num_samples pr = None -> shape u = [p; O; m] -> shape (loc d) = [p; O; n] ->
  exists t, fst (model_return pr (VTensor u) d true rt) = Ok (VTensor t) /\
            shape t = [p; p; n; O].
Proof.
  intros Hns Su Sd. unfold model_return. rewrite Hns.
  rewrite py_bind_lift. cbn [tensor_method]. bind_simpl.
  sz Su.
  rewrite py_bind_unfold. unfold rsample.
  rewrite py_bind_lift.
  edestruct (transpose_shape (tabulate ([p] ++ shape (loc d))
               (rsample_draw rt (draws rt) d [p])) (-2) (-1))
    as (t & E & Sh).
  - rewrite shape_tabulate, Sd. reflexivity.
  - lazy; reflexivity.
  - lazy; reflexivity.
  - rewrite E. cbn in Sh. eauto.
Qed.

Lemma model_return_first_index_error pr u d rt O m :
  num_samples pr = None -> shape u = [O; m] ->
  fst (model_return pr (VTensor u) d true rt) = Raise IndexError.
Proof.
  intros Hns Su. unfold model_return. rewrite Hns.
  rewrite py_bind_lift. cbn [tensor_method]. bind_simpl.
  unfold size, rank. rewrite Su. reflexivity.
Qed.

Lemma model_return_later_samples pr u d rt p q O n :
  num_samples pr = Some q -> shape (loc d) = [p; O; n] ->
  exists t, fst (model_return pr u d true rt) = Ok (VTensor t) /\
            shape t = [p; n; O].
Proof.
  intros Hns Sd. unfold model_return. rewrite Hns.
  rewrite py_bind_unfold. unfold rsample.
  rewrite py_bind_lift.
  edestruct (transpose_shape (tabulate ([] ++ shape (loc d))
               (rsample_draw rt (draws rt) d [])) (-2) (-1))
    as (t & E & Sh).
  - rewrite shape_tabulate, Sd. reflexivity.
  - lazy; reflexivity.
  - lazy; reflexivity.
  - rewrite E. cbn in Sh. eauto.
Qed.

Lemma nonneg_entry_nan : nonneg_entry S754_nan.
Proof. split; [reflexivity | congruence]. Qed.

Lemma nonneg_entry_clamp x : nonneg_entry (clamp_min_entry x Fzero).
Proof. split; [apply clamp_min_entry_not_neg | apply clamp_min_entry_ge]. Qed.

Lemma get_tabulate_cases shp f idx :
  get (tabulate shp f) idx = S754_nan \/
  exists idx', get (tabulate shp f) idx = f idx'.
Proof.
  unfold get, tabulate. cbn [shape data].
  set (k := offset shp idx).
  destruct (Nat.lt_ge_cases k (numel shp)) as [Hlt | Hge].
  - right. exists (unravel shp k).
    rewrite (nth_indep _ S754_nan (f (unravel shp 0)))
      by (rewrite length_map, length_seq; exact Hlt).
    rewrite (map_nth (fun j => f (unravel shp j))).
    now rewrite seq_nth by exact Hlt.
  - left. apply nth_overflow. now rewrite length_map, length_seq.
Qed.

Lemma clamp_min_nonneg t idx : nonneg_entry (get (clamp_min t Fzero) idx).
Proof.
  unfold clamp_min.
  destruct (get_tabulate_cases (shape t)
              (fun i => clamp_min_entry (get t i) Fzero) idx) as [-> | [i ->]].
  - apply nonneg_entry_nan.
  - apply nonneg_entry_clamp.
Qed.

Lemma expand_inv t sizes v :
  expand t sizes = Ok v ->
  v = tabulate sizes (fun idx => get t (bidx (shape t) idx)).
Proof.
  unfold expand. destruct (_ && _); [|discriminate]. now intros [= <-].
Qed.

Lemma variance_nonneg N d c var :
  lazy_covariance_matrix d = DiagLazyTensor (clamp_min c Fzero) ->
  variance N d = Ok var ->
  forall idx, nonneg_entry (get var idx).
Proof.
  intros Hc Hv idx. unfold variance in Hv. rewrite Hc in Hv.
  cbn [lt_diag] in Hv. cbn [mbind result_bind rbind] in Hv.
  apply expand_inv in Hv. subst var.
  destruct (get_tabulate_cases (shape (loc d))
              (fun i => get (clamp_min c Fzero)
                            (bidx (shape (clamp_min c Fzero)) i)) idx)
    as [-> | [i ->]].
  - apply nonneg_entry_nan.
  - apply clamp_min_nonneg.
Qed.

Lemma model_prior_shape N self x O m q D mb ns ip t :
  layer_ok self O m D ->
  model_inputs self x = Ok (mkNormalized ip m mb t ns) ->
  shape ip = [O; m; D] -> shape t = [O; q; D] ->
  model_prior N self x = Raise chol_error \/
  exists pr, model_prior N self x = Ok pr /\
             prior_ok pr O m q /\ minibatch_size pr = mb /\ num_samples pr = ns.
Proof.
  intros Hl Hin Sip St. unfold model_prior. rewrite Hin. bind_simpl.
  apply (model_blocks_shape N self (mkNormalized ip m mb t ns) O m q D Hl);
    assumption || reflexivity.
Qed.

Lemma in_range_length shp : forall idx,
  in_range shp idx = true -> length idx = length shp.
Proof.
  induction shp as [|d shp IH]; intros [|i idx] H; try discriminate.
  - reflexivity.
  - apply in_range_cons in H as [_ H]. cbn [length]. f_equal. apply IH, H.
Qed.

Lemma in_range_app_drop pre : forall sd idx,
  in_range (pre ++ sd) idx = true -> in_range sd (drop (length pre) idx) = true.
Proof.
  induction pre as [|p pre IH]; intros sd idx H.
  - exact H.
  - destruct idx as [|i idx]; [discriminate|].
    cbn [app] in H. apply in_range_cons in H as [_ H].
    cbn [length drop]. apply IH, H.
Qed.

(** An index within the operand's own shape is read as it is. *)
Lemma bidx_in_range sd : forall idx,
  in_range sd idx = true ->
  zip_with (fun d i => if d =? 1 then 0 else i) sd idx = idx.
Proof.
  induction sd as [|d sd IH]; intros [|i idx] H; try discriminate.
  - reflexivity.
  - apply in_range_cons in H as [Hi H]. cbn [zip_with]. rewrite (IH _ H).
    destruct (Nat.eqb_spec d 1); [f_equal; lia | reflexivity].
Qed.

(** Under leading axes [pre], broadcasting reads the operand at the
    trailing part of the index. *)
Lemma bidx_app pre sd idx :
  in_range (pre ++ sd) idx = true ->
  bidx sd idx = drop (length pre) idx /\
  in_range sd (drop (length pre) idx) = true.
Proof.
  intros H. pose proof (in_range_app_drop pre sd idx H) as Hd.
  split; [|exact Hd]. unfold bidx.
  apply in_range_length in H. rewrite length_app in H.
  replace (length idx - length sd) with (length pre) by lia.
  apply bidx_in_range, Hd.
Qed.

(** The variance of a distribution whose covariance is a clamped diagonal:
    where the raw difference is a number, the entry is at or above zero. *)
Lemma variance_entries N d raw var sd pre :
  lazy_covariance_matrix d = DiagLazyTensor (clamp_min raw Fzero) ->
  shape raw = sd -> shape (loc d) = pre ++ sd ->
  variance N d = Ok var ->
  (forall idx, in_range sd idx = true -> get raw idx <> S754_nan) ->
  forall idx, in_range (pre ++ sd) idx = true ->
    SFleb Fzero (get var idx) = true.
Proof.
  intros Hc Sraw Sloc Hv Hnan idx Hidx. unfold variance in Hv. rewrite Hc in Hv.
  cbn [lt_diag] in Hv. cbn [mbind result_bind rbind] in Hv.
  apply expand_inv in Hv. subst var. rewrite Sloc.
  rewrite get_tabulate by exact Hidx.
  assert (Sc : shape (clamp_min raw Fzero) = sd)
    by (unfold clamp_min; now rewrite shape_tabulate).
  rewrite Sc.
  destruct (bidx_app pre sd idx Hidx) as [-> Hin].
  rewrite clamp_min_get by (rewrite Sraw; exact Hin).
  apply clamp_min_entry_ge. specialize (Hnan _ Hin).
  unfold clamp_min_entry. destruct (SFltb _ _); [discriminate | exact Hnan].
Qed.

(** The value at the sample site is the runtime's draw for that site. *)
Lemma AbstractPyroHiddenGPLayer_model_at_site N self x rs rt pr O m D :
  layer_ok self O m D -> model_prior N self x = Ok pr ->
  exists name rt',
    let u := site_draw rt (draws rt) name (VDist (prior_distribution pr)) in
    fst (AbstractPyroHiddenGPLayer_model N self x rs rt)
    = match model_moments N self pr (VTensor u) with
      | Ok mo =>
          match model_p_f_dist N mo with
          | Ok d => fst (model_return pr (VTensor u) d rs rt')
          | Raise e => Raise e
          end
      | Raise e => Raise e
      end.
Proof.
  intros [_ _ _ _ (plate & Hplate) (s & Hs)] Hpr.
  unfold AbstractPyroHiddenGPLayer_model.
  rewrite py_bind_lift, Hpr, py_bind_lift, Hplate, py_bind_unfold.
  unfold with_handler. rewrite py_bind_lift, Hs. cbn [str_add].
  rewrite py_bind_lift. unfold pyro_sample.
  cbn [push pop stack events draws site_draw rsample_draw].
  exists (s +:+ ".inducing_values"). eexists. cbv zeta.
  rewrite py_bind_lift.
  destruct (model_moments N self pr _) as [mo|e]; [|reflexivity].
  rewrite py_bind_lift.
  destruct (model_p_f_dist N mo) as [d|e]; reflexivity.
Qed.

(** C1 (as amended): for a valid 2-D input [n x O_{i-1}] (a usable layer, a
    Cholesky factorisation that succeeds, a raw variance without NaN),
    [model] with [return_samples=False] returns a predictive distribution
    whose mean and variance, once the channel axis is moved to the trailing
    position, both have shape [n x O_i] when the inducing-values sample is
    [O_i x m], and [p x n x O_i] when it carries [p] replicates
    ([p x O_i x m]); every variance entry is at or above zero. *)
Theorem C1_predictive_shapes (N : Numerics) (self : Value) (x : Tensor)
    (rt : Runtime) (O m n D : nat) (pre : list nat) :
  layer_ok self O m D -> shape x = [n; D] ->
  (pre = [] \/ exists p, pre = [p]) -> site_shape rt (pre ++ [O; m]) ->
  model_prior N self (VTensor x) <> Raise chol_error ->
  (forall name d raw,
      raw_of N self (VTensor x) (VTensor (site_draw rt (draws rt) name d)) = Ok raw ->
      forall idx, in_range (shape raw) idx = true -> get raw idx <> S754_nan) ->
  exists d var mt vt,
    fst (AbstractPyroHiddenGPLayer_model N self (VTensor x) false rt) = Ok (VDist d) /\
    variance N d = Ok var /\
    shape (mean d) = pre ++ [O; n] /\ shape var = pre ++ [O; n] /\
    transpose (mean d) (-2) (-1) = Ok mt /\ transpose var (-2) (-1) = Ok vt /\
    shape mt = pre ++ [n; O] /\ shape vt = pre ++ [n; O] /\
    forall idx, in_range (shape var) idx = true ->
      SFleb Fzero (get var idx) = true.
Proof.
  intros Hl Hx Hpre Hsite Hchol Hnan.
  destruct (model_inputs_2d self x O m n D Hl Hx) as (ip & t & Hin & Sip & St).
  destruct (model_prior_shape N self _ O m n D _ _ _ _ Hl Hin Sip St)
    as [Herr | (pr & Hpr & Hok & Hmb & Hns)]; [contradiction|].
  destruct (AbstractPyroHiddenGPLayer_model_at_site N self _ false rt pr O m D
              Hl Hpr) as (name & rt' & Hcall).
  cbv zeta in Hcall.
  set (u := site_draw rt (draws rt) name (VDist (prior_distribution pr))) in *.
  assert (Su : shape u = pre ++ [O; m]) by apply Hsite.
  destruct (model_moments_first N self pr u O m n pre Hok Hns Su Hpre)
    as (mo & Hmo & Sm & Sd & Sc).
  destruct (model_p_f_dist_shape N mo (pre ++ [O; n]) [O; n] Sd Sc Sm)
    as (d & var & Hd & Smean & Hvar & Svar).
  { destruct Hpre as [-> | [p ->]]; [left | right; exists p]; reflexivity. }
  rewrite Hmo, Hd in Hcall. cbn in Hcall.
  destruct (model_p_f_dist_inv N mo d Hd) as (raw & Hraw & Hdeq).
  assert (Sraw : shape raw = [O; n]).
  { unfold raw_variance in Hraw.
    destruct (sub_shape N (data_data_diag mo) (diag_correction mo) _ _ [O; n]
                Sd Sc (broadcast_same _)) as (r' & Er & Sr).
    rewrite Er in Hraw. now injection Hraw as <-. }
  assert (Hrawof : raw_of N self (VTensor x) (VTensor u) = Ok raw).
  { unfold raw_of. rewrite Hpr. cbn [mbind result_bind rbind].
    rewrite Hmo. exact Hraw. }
  assert (Hent : forall idx, in_range (pre ++ [O; n]) idx = true ->
                             SFleb Fzero (get var idx) = true).
  { apply (variance_entries N d raw var [O; n] pre); try assumption.
    - now subst d.
    - intros idx Hidx. apply (Hnan name _ raw Hrawof).
      now rewrite Sraw. }
  exists d, var.
  destruct Hpre as [-> | [p ->]]; cbn [app] in *.
  - destruct (transpose_shape (mean d) (-2) (-1) _ 0 1 Smean eq_refl eq_refl)
      as (mt & Emt & Smt).
    destruct (transpose_shape var (-2) (-1) _ 0 1 Svar eq_refl eq_refl)
      as (vt & Evt & Svt).
    exists mt, vt. rewrite Svar. repeat split; assumption.
  - destruct (transpose_shape (mean d) (-2) (-1) _ 1 2 Smean eq_refl eq_refl)
      as (mt & Emt & Smt).
    destruct (transpose_shape var (-2) (-1) _ 1 2 Svar eq_refl eq_refl)
      as (vt & Evt & Svt).
    exists mt, vt. rewrite Svar. repeat split; assumption.
Qed.

(** The same with a site value that carries a particle axis: the mean and
    the variance are [p x O_i x n]. *)
Lemma predictive_shapes_particles (N : Numerics) (self : Value) (x : Tensor)
    (rt : Runtime) (O m n D p : nat) :
  layer_ok self O m D -> shape x = [n; D] -> site_shape rt [p; O; m] ->
  let r := fst (AbstractPyroHiddenGPLayer_model N self (VTensor x) false rt) in
  r = Raise chol_error \/
  exists d var,
    r = Ok (VDist d) /\ variance N d = Ok var /\
    shape (mean d) = [p; O; n] /\ shape var = [p; O; n] /\
    forall idx, nonneg_entry (get var idx).
Proof.
  intros Hl Hx Hsite r. subst r.
  destruct (model_inputs_2d self x O m n D Hl Hx) as (ip & t & Hin & Sip & St).
  destruct (model_prior_shape N self _ O m n D _ _ _ _ Hl Hin Sip St)
    as [Herr | (pr & Hpr & Hok & Hmb & Hns)].
  - left. unfold AbstractPyroHiddenGPLayer_model. now rewrite py_bind_lift, Herr.
  - right.
    destruct (AbstractPyroHiddenGPLayer_model_stages N self _ false rt pr O m D _ Hl Hsite Hpr)
      as (u & rt' & Su & ->).
    destruct (model_moments_first N self pr u O m n [p] Hok Hns Su
                (or_intror (ex_intro _ p eq_refl)))
      as (mo & -> & Sm & Sd & Sc).
    destruct (model_p_f_dist_shape N mo _ _ Sd Sc Sm
                (or_intror (ex_intro _ p eq_refl)))
      as (d & var & Hd & Smean & Hvar & Svar).
    rewrite Hd. exists d, var.
    destruct (model_p_f_dist_inv N mo d Hd) as (raw & _ & Hdeq).
    repeat split; try assumption.
    + apply (variance_nonneg N d raw var); [now subst d | exact Hvar].
    + apply (variance_nonneg N d raw var); [now subst d | exact Hvar].
Qed.

(** With [return_samples=True] and a site value of shape [p x O_i x m]: a
    2-D input [n x O_{i-1}] gives [p x p x n x O_i], [p] fresh replicates of
    a distribution whose batch already carries the [p] of the site value; a
    3-D input [p x n x O_{i-1}] with as many points as inducing points gives
    [p x n x O_i] from a single draw. *)
Lemma sample_shapes_particles (N : Numerics) (self : Value) (rt : Runtime)
    (O m D p : nat) :
  layer_ok self O m D -> site_shape rt [p; O; m] ->
  (forall x n, shape x = [n; D] ->
     let r := fst (AbstractPyroHiddenGPLayer_model N self (VTensor x) true rt) in
     r = Raise chol_error \/
     exists t, r = Ok (VTensor t) /\ shape t = [p; p; n; O]) /\
  (forall x, shape x = [p; m; D] ->
     let r := fst (AbstractPyroHiddenGPLayer_model N self (VTensor x) true rt) in
     r = Raise chol_error \/
     exists t, r = Ok (VTensor t) /\ shape t = [p; m; O]).
Proof.
  intros Hl Hsite. split.
  - intros x n Hx r. subst r.
    destruct (model_inputs_2d self x O m n D Hl Hx) as (ip & t & Hin & Sip & St).
    destruct (model_prior_shape N self _ O m n D _ _ _ _ Hl Hin Sip St)
      as [Herr | (pr & Hpr & Hok & Hmb & Hns)].
    + left. unfold AbstractPyroHiddenGPLayer_model. now rewrite py_bind_lift, Herr.
    + right.
      destruct (AbstractPyroHiddenGPLayer_model_stages N self _ true rt pr O m D _ Hl Hsite Hpr)
        as (u & rt' & Su & ->).
      destruct (model_moments_first N self pr u O m n [p] Hok Hns Su
                  (or_intror (ex_intro _ p eq_refl)))
        as (mo & -> & Sm & Sd & Sc).
      destruct (model_p_f_dist_shape N mo _ _ Sd Sc Sm
                  (or_intror (ex_intro _ p eq_refl)))
        as (d & var & -> & Smean & _ & _).
      apply (model_return_first_samples pr u d rt' p O m n Hns Su Smean).
  - intros x Hx r. subst r.
    destruct (model_inputs_3d self x O m p m D Hl Hx) as (ip & t & Hin & Sip & St).
    destruct (model_prior_shape N self _ O m (m * p) D _ _ _ _ Hl Hin Sip St)
      as [Herr | (pr & Hpr & Hok & Hmb & Hns)].
    + left. unfold AbstractPyroHiddenGPLayer_model. now rewrite py_bind_lift, Herr.
    + right.
      destruct (AbstractPyroHiddenGPLayer_model_stages N self _ true rt pr O m D _ Hl Hsite Hpr)
        as (u & rt' & Su & ->).
      destruct (model_moments_later N self pr u O m p D Hl Hok Hns Hmb Su)
        as (mo & -> & Sm & Sd & Sc).
      destruct (model_p_f_dist_shape N mo _ _ Sd Sc Sm (or_introl eq_refl))
        as (d & var & -> & Smean & _ & _).
      apply (model_return_later_samples pr (VTensor u) d rt' p p O m Hns Smean).
Qed.

(** With a site value [O_i x m] that has no particle axis, line 150 finds no
    third axis from the end to read the replicate count from. *)
Lemma site_without_sample_axis (N : Numerics) (self : Value) (x : Tensor)
    (rt : Runtime) (O m n D : nat) :
  layer_ok self O m D -> shape x = [n; D] -> site_shape rt [O; m] ->
  let r := fst (AbstractPyroHiddenGPLayer_model N self (VTensor x) true rt) in
  r = Raise chol_error \/ r = Raise IndexError.
Proof.
  intros Hl Hx Hsite r. subst r.
  destruct (model_inputs_2d self x O m n D Hl Hx) as (ip & t & Hin & Sip & St).
  destruct (model_prior_shape N self _ O m n D _ _ _ _ Hl Hin Sip St)
    as [Herr | (pr & Hpr & Hok & Hmb & Hns)].
  - left. unfold AbstractPyroHiddenGPLayer_model. now rewrite py_bind_lift, Herr.
  - right.
    destruct (AbstractPyroHiddenGPLayer_model_stages N self _ true rt pr O m D _ Hl Hsite Hpr)
      as (u & rt' & Su & ->).
    destruct (model_moments_first N self pr u O m n [] Hok Hns Su (or_introl eq_refl))
      as (mo & -> & Sm & Sd & Sc).
    destruct (model_p_f_dist_shape N mo _ _ Sd Sc Sm (or_introl eq_refl))
      as (d & var & -> & _).
    apply (model_return_first_index_error pr u d rt' O m Hns Su).
Qed.

Lemma as_nat_of_nat k : as_nat (VInt (Z.of_nat k)) = Ok k.
Proof.
  unfold as_nat.
  replace (0 <=? Z.of_nat k)%Z with true by (symmetry; apply Z.leb_le; lia).
  now rewrite Nat2Z.id.
Qed.

Lemma example_forward_contract : forward_contract example_forward.
Proof.
  intros x o k d Hx. unfold example_forward. rewrite Hx.
  eexists. split; [reflexivity|]. split; reflexivity.
Qed.

Lemma example_layer_ok O m D s :
  layer_ok (with_name_prefix (example_layer O m D) s) O m D.
Proof.
  unfold example_layer, AbstractPyroHiddenGPLayer_init, AbstractVariationalGP_init,
    with_name_prefix, setattr, example_base, example_strategy.
  constructor; unfold getattr.
  - exists (VObj (<["inducing_points" := VTensor (zeros [O; m; D])]> ∅)),
           (zeros [O; m; D]).
    rewrite !lookup_insert_ne by discriminate. rewrite !lookup_insert_eq.
    repeat split; reflexivity.
  - rewrite !lookup_insert_ne by discriminate. rewrite lookup_insert_eq.
    apply as_nat_of_nat.
  - rewrite !lookup_insert_ne by discriminate. rewrite lookup_insert_eq.
    apply as_nat_of_nat.
  - exists example_forward.
    rewrite !lookup_insert_ne by discriminate. rewrite lookup_insert_eq.
    split; [reflexivity | apply example_forward_contract].
  - exists (HPlate ("layer" +:+ ".n_output_plate") O None).
    rewrite !lookup_insert_ne by discriminate. rewrite lookup_insert_eq.
    reflexivity.
  - exists s. rewrite lookup_insert_eq. reflexivity.
Qed.

Lemma C1_predictive_shapes_witness :
  let N := example_numerics Fzero in
  let self := with_name_prefix (example_layer 2 5 1) "h1" in
  let x := zeros [4; 1] in
  let rt := example_runtime [2; 5] in
  layer_ok self 2 5 1 /\ shape x = [4; 1] /\ site_shape rt [2; 5] /\
  model_prior N self (VTensor x) <> Raise chol_error /\
  exists d var mt vt,
    fst (AbstractPyroHiddenGPLayer_model N self (VTensor x) false rt) = Ok (VDist d) /\
    variance N d = Ok var /\
    shape (mean d) = [2; 4] /\ shape var = [2; 4] /\
    transpose (mean d) (-2) (-1) = Ok mt /\ transpose var (-2) (-1) = Ok vt /\
    shape mt = [4; 2] /\ shape vt = [4; 2] /\
    forall idx, in_range (shape var) idx = true ->
      SFleb Fzero (get var idx) = true.
Proof.
  intros N self x rt.
  assert (Hl : layer_ok self 2 5 1) by apply example_layer_ok.
  assert (Hx : shape x = [4; 1]) by reflexivity.
  assert (Hs : site_shape rt ([] ++ [2; 5])) by (intros name d; reflexivity).
  assert (Hc : model_prior N self (VTensor x) <> Raise chol_error).
  { intros H. vm_compute in H. discriminate H. }
  split; [exact Hl|]. split; [exact Hx|]. split; [exact Hs|]. split; [exact Hc|].
  apply (C1_predictive_shapes N self x rt 2 5 4 1 [] Hl Hx (or_introl eq_refl) Hs Hc).
  intros name d raw Hraw idx Hidx.
  vm_compute in Hraw. injection Hraw as <-.
  cbn [shape] in Hidx.
  destruct idx as [|i idx]; [discriminate Hidx|].
  destruct i as [|[|i]]; cbn in Hidx; try discriminate Hidx;
    (destruct idx as [|j idx]; [discriminate Hidx|]);
    destruct j as [|[|[|[|j]]]]; cbn in Hidx; try discriminate Hidx;
    (destruct idx; [|discriminate Hidx]);
    vm_compute; discriminate.
Defined.

(** C1 fails as it is stated, on 2-D inputs of four points for a layer with
    two channels.  With an inducing-values sample of three replicates
    ([3 x 2 x 5], the shape the comment on line 88 gives it) the mean and the
    variance are [3 x 2 x 4], and [3 x 4 x 2] once the channel axis is moved
    to the trailing position: not [4 x 2].  When the Cholesky factorisation
    fails the call returns nothing, and when the inverse quadratic form is
    NaN so is the variance, which is then not at or above zero. *)
Lemma C1_counterexample :
  let self := with_name_prefix (example_layer 2 5 1) "h1" in
  let x := VTensor (zeros [4; 1]) in
  let N := example_numerics Fzero in
  let r := fst (AbstractPyroHiddenGPLayer_model N self x false
                  (example_runtime [3; 2; 5])) in
  (exists d var mt vt,
      r = Ok (VDist d) /\ variance N d = Ok var /\
      transpose (mean d) (-2) (-1) = Ok mt /\ transpose var (-2) (-1) = Ok vt /\
      shape (mean d) = [3; 2; 4] /\ shape var = [3; 2; 4] /\
      shape mt = [3; 4; 2] /\ shape vt = [3; 4; 2]) /\
  ~ (exists d mt,
      r = Ok (VDist d) /\ transpose (mean d) (-2) (-1) = Ok mt /\
      shape mt = [4; 2]) /\
  fst (AbstractPyroHiddenGPLayer_model example_numerics_chol_fails self x false
         (example_runtime [2; 5]))
  = Raise chol_error /\
  (let N' := example_numerics S754_nan in
   var ← variance N' (dist_of (AbstractPyroHiddenGPLayer_model N' self x false
                                 (example_runtime [2; 5])));
   Ok (shape var, get var [0; 0], SFleb Fzero (get var [0; 0])))
  = Ok ([2; 4], S754_nan, false).
Proof.
  intros self x N r.
  pose (d0 := dist_of (AbstractPyroHiddenGPLayer_model N self x false
                         (example_runtime [3; 2; 5]))).
  assert (Hr : r = Ok (VDist d0)) by (vm_compute; reflexivity).
  assert (Hm : shape (mean d0) = [3; 2; 4]) by (vm_compute; reflexivity).
  assert (Hs : (var ← variance N d0;
                mt ← transpose (mean d0) (-2) (-1);
                vt ← transpose var (-2) (-1);
                Ok (shape var, shape mt, shape vt))
               = Ok ([3; 2; 4], [3; 4; 2], [3; 4; 2]))
    by (vm_compute; reflexivity).
  clearbody d0 r.
  split; [|split; [|split]].
  - exists d0. destruct (variance N d0) as [var|e] eqn:Ev; [|discriminate Hs].
    cbn [mbind result_bind rbind] in Hs.
    destruct (transpose (mean d0) (-2) (-1)) as [mt|e] eqn:Em;
      [|discriminate Hs].
    cbn [mbind result_bind rbind] in Hs.
    destruct (transpose var (-2) (-1)) as [vt|e] eqn:Et; [|discriminate Hs].
    cbn [mbind result_bind rbind] in Hs. injection Hs as Sv Smt Svt.
    exists var, mt, vt. repeat split; assumption || reflexivity.
  - intros (d & mt & Hd & Hmt & Smt).
    rewrite Hr in Hd. injection Hd as <-.
    destruct (transpose_shape (mean d0) (-2) (-1) _ 1 2 Hm eq_refl eq_refl)
      as (mt' & Emt & Smt').
    rewrite Emt in Hmt. injection Hmt as <-. rewrite Smt' in Smt. discriminate.
  - vm_compute. reflexivity.
  - vm_compute. reflexivity.
Qed.

(** C2, evaluated on the end-to-end scenario of the specification: one
    input dimension, two channels, five inducing points, four points,
    [return_samples=True].  With an inducing-values sample [2 x 5] the call
    raises IndexError at line 150.  With one replicate, [1 x 2 x 5], it
    returns [1 x 1 x 4 x 2], and with three [3 x 3 x 4 x 2]: the replicate
    axis twice, where the comments on lines 60 and 151 and the specification
    have it once or not at all.  On a 3-D input the call returns
    [3 x 5 x 2] when the three samples have as many points as there are
    inducing points, and raises a size mismatch for four points. *)
Theorem C2_sample_shapes_diverge :
  let N := example_numerics Fzero in
  let self := with_name_prefix (example_layer 2 5 1) "h1" in
  let call inputs site :=
    match fst (AbstractPyroHiddenGPLayer_model N self (VTensor (zeros inputs)) true
                 (example_runtime site)) with
    | Ok (VTensor t) => Ok (shape t)
    | Ok _ => Raise TypeError
    | Raise e => Raise e
    end in
  call [4; 1] [2; 5] = Raise IndexError /\
  call [4; 1] [1; 2; 5] = Ok [1; 1; 4; 2] /\
  call [4; 1] [3; 2; 5] = Ok [3; 3; 4; 2] /\
  call [3; 5; 1] [3; 2; 5] = Ok [3; 5; 2] /\
  call [3; 4; 1] [3; 2; 5] = Raise (RuntimeError "matmul: size mismatch").
Proof. vm_compute. repeat split; reflexivity. Qed.

(** ** The observation site *)

(** True division of ints rounds the quotient of the integers once.  Above
    [2^53] this differs from dividing the two operands after each has been
    rounded to a float; a quotient too large for a float is an
    OverflowError. *)
Example int_true_divide_examples :
  int_true_divide 1000 10 = float_of_Z 100 /\
  int_true_divide 9007199254740993 3 = float_of_Z 3002399751580331 /\
  SFdiv 53 1024 (float_of_Z 9007199254740993) (float_of_Z 3)
  <> int_true_divide 9007199254740993 3 /\
  int_true_divide (-7) 2 = SFopp (SFdiv 53 1024 (float_of_Z 7) (float_of_Z 2)) /\
  py_truediv (VInt (2 ^ 1024)) 1 = Raise OverflowError /\
  py_truediv (VInt 1) 0 = Raise ZeroDivisionError.
Proof. vm_compute. repeat split; try reflexivity. discriminate. Qed.

(** C4, evaluated on the two-layer scenario of the specification.  The
    method gets through both layers, enters the data plate of size ten at
    [dim=-1] and, inside it, the scale handler with factor
    [1000 / 10 = 100.0]; then the scoring statement raises NameError for
    [f_samples].  Both handlers are left again, no site named
    [deep.output_value] has been registered, and the observed outputs have
    not been scored.  On the deep GP as [__init__] leaves it the call fails
    earlier, at [self.name_prefix]. *)
Theorem C4_scale_entered_scoring_raises :
  let N := example_numerics Fzero in
  let inputs := VTensor (zeros [10; 3]) in
  let outputs := VTensor (zeros [10]) in
  let r := AbstractPyroDeepGP_model N example_two_layer inputs outputs example_runtime_two in
  py_truediv (VInt 1000) 10 = Ok hundred /\
  fst r = Raise (NameError "f_samples") /\
  firstn 4 (events (snd r))
  = [EvExit (HPlate "deep.data_plate" 10 (Some (-1)%Z));
     EvExit (HScale hundred);
     EvEnter (HScale hundred);
     EvEnter (HPlate "deep.data_plate" 10 (Some (-1)%Z))] /\
  forallb (fun ev => match ev with
                     | EvSample name _ _ _ =>
                         negb (String.eqb name "deep.output_value")
                     | _ => true
                     end) (events (snd r)) = true /\
  fst (AbstractPyroDeepGP_model N (example_deep 10 3 1000 []) inputs outputs
                    example_runtime_two)
  = Raise (AttributeError "name_prefix").
Proof. vm_compute. repeat split; reflexivity. Qed.

(* ===================================================================== *)
(** * Further properties of the code *)
(* ===================================================================== *)

(** ** Handlers and traces *)

Lemma framed_lift {A} (r : Result A) : framed (lift r).
Proof.
  intros rt. cbn. repeat split; try reflexivity; try lia. now exists [].
Qed.

Lemma framed_mret {A} (a : A) : framed (mret a : Py A).
Proof.
  intros rt. cbn. repeat split; try reflexivity; try lia. now exists [].
Qed.

(** Sequencing, [with] blocks, sample sites and draws keep the frame. *)
Lemma framed_bind {A B} (m : Py A) (k : A -> Py B) :
  framed m -> (forall a, framed (k a)) -> framed (m ≫= k).
Proof.
  intros Hm Hk rt. rewrite py_bind_unfold.
  destruct (Hm rt) as (H1 & H2 & H3 & H4 & new & H5).
  destruct (m rt) as [[a|e] rt1]; cbn [snd] in *.
  - destruct (Hk a rt1) as (K1 & K2 & K3 & K4 & new' & K5).
    repeat split; try congruence; try lia.
    exists (new' ++ new). rewrite K5, H5. now rewrite app_assoc.
  - repeat split; try assumption. now exists new.
Qed.

Lemma framed_with_handler {A} h (body : Py A) :
  framed body -> framed (with_handler h body).
Proof.
  intros Hb rt. unfold with_handler.
  destruct (Hb (push h rt)) as (H1 & H2 & H3 & H4 & new & H5).
  destruct (body (push h rt)) as [r rt1]; cbn [snd] in *.
  cbn [pop push stack site_draw rsample_draw draws events] in *.
  rewrite H1. repeat split; try assumption.
  exists (EvExit h :: new ++ [EvEnter h]). rewrite H5.
  cbn. now rewrite <- app_assoc.
Qed.

Lemma framed_pyro_sample name d obs : framed (pyro_sample name d obs).
Proof.
  intros rt. unfold pyro_sample. destruct obs; cbn;
    (repeat split; try reflexivity; try lia; eexists [_]; reflexivity).
Qed.

Lemma framed_rsample d s : framed (rsample d s).
Proof.
  intros rt. unfold rsample. cbn. repeat split; try reflexivity; try lia.
  now exists [].
Qed.

Ltac framed_tac :=
  repeat first
    [ apply framed_lift | apply framed_mret | apply framed_pyro_sample
    | apply framed_rsample
    | apply framed_with_handler
    | apply framed_bind; [| intros ?] ].

Lemma framed_model N self inputs rs :
  framed (AbstractPyroHiddenGPLayer_model N self inputs rs).
Proof.
  unfold AbstractPyroHiddenGPLayer_model, model_return. framed_tac.
  destruct rs; [destruct (num_samples _)|]; framed_tac.
Qed.

Lemma framed_guide self : framed (AbstractPyroHiddenGPLayer_guide self).
Proof. unfold AbstractPyroHiddenGPLayer_guide. framed_tac. Qed.

Lemma framed_model_loop N layers : forall inputs,
  framed (AbstractPyroDeepGP_model_loop N layers inputs).
Proof.
  induction layers as [|l ls IH]; intros inputs; cbn [AbstractPyroDeepGP_model_loop].
  - apply framed_mret.
  - apply framed_bind; [apply framed_model | intros a; apply IH].
Qed.

Lemma framed_guide_loop layers : framed (AbstractPyroDeepGP_guide_loop layers).
Proof.
  induction layers as [|l ls IH]; cbn [AbstractPyroDeepGP_guide_loop].
  - apply framed_mret.
  - apply framed_bind; [apply framed_guide | intros a; apply IH].
Qed.

Lemma framed_deep_model N self inputs outputs :
  framed (AbstractPyroDeepGP_model N self inputs outputs).
Proof.
  unfold AbstractPyroDeepGP_model, AbstractPyroDeepGP_model_feed,
    AbstractPyroDeepGP_model_score.
  repeat first
    [ apply framed_model_loop | apply framed_model | framed_tac ].
Qed.

Lemma framed_deep_guide self inputs outputs :
  framed (AbstractPyroDeepGP_guide self inputs outputs).
Proof.
  unfold AbstractPyroDeepGP_guide.
  repeat first
    [ apply framed_guide_loop | apply framed_guide | framed_tac ].
Qed.

(** X1: [model] and [guide], of a layer and of the deep GP, leave the handler
    stack as they found it, on every input and whether they return or raise.
    They never touch the random sources, never take the draw counter back,
    and only add to the trace. *)
Theorem X1_handlers_balanced (N : Numerics) (self inputs outputs : Value)
    (rs : bool) :
  framed (AbstractPyroHiddenGPLayer_model N self inputs rs) /\
  framed (AbstractPyroHiddenGPLayer_guide self) /\
  framed (AbstractPyroDeepGP_model N self inputs outputs) /\
  framed (AbstractPyroDeepGP_guide self inputs outputs).
Proof.
  split; [apply framed_model|]. split; [apply framed_guide|].
  split; [apply framed_deep_model | apply framed_deep_guide].
Qed.

(** What a call of [model] that returns has left in the runtime. *)
Lemma model_trace (N : Numerics) (self inputs v : Value) (rs : bool)
    (rt rt' : Runtime) :
  AbstractPyroHiddenGPLayer_model N self inputs rs rt = (Ok v, rt') ->
  exists pr plate prefix,
    model_prior N self inputs = Ok pr /\
    getattr self "output_dim_plate" ≫= as_plate = Ok plate /\
    getattr self "name_prefix" = Ok (VStr prefix) /\
    stack rt' = stack rt /\
    events rt'
    = [EvExit plate;
       EvSample (prefix +:+ ".inducing_values")
                (VDist (prior_distribution pr)) None (plate :: stack rt);
       EvEnter plate] ++ events rt /\
    sample_sites (events rt')
    = (prefix +:+ ".inducing_values") :: sample_sites (events rt) /\
    draws rt' = draws rt + (if rs then 2 else 1).
Proof.
  unfold AbstractPyroHiddenGPLayer_model. intros H.
  rewrite py_bind_lift in H.
  destruct (model_prior N self inputs) as [pr|e]; [|discriminate].
  rewrite py_bind_lift in H.
  destruct (getattr self "output_dim_plate" ≫= as_plate) as [plate|e];
    [|discriminate].
  rewrite py_bind_unfold in H. unfold with_handler in H.
  rewrite py_bind_lift in H.
  destruct (getattr self "name_prefix") as [pv|e]; [|discriminate].
  rewrite py_bind_lift in H.
  destruct pv; cbn [str_add] in H; try discriminate.
  unfold pyro_sample in H.
  cbn [push pop stack events draws site_draw rsample_draw] in H.
  rewrite py_bind_lift in H.
  destruct (model_moments N self pr _) as [mo|e]; [|discriminate].
  rewrite py_bind_lift in H.
  destruct (model_p_f_dist N mo) as [d|e]; [|discriminate].
  exists pr, plate, s. repeat (split; [reflexivity|]).
  unfold model_return in H. destruct rs.
  - destruct (num_samples pr).
    + rewrite py_bind_unfold in H. unfold rsample in H.
      cbn [stack events draws site_draw rsample_draw] in H.
      rewrite py_bind_lift in H.
      destruct (transpose _ _ _); [|discriminate].
      cbn in H. injection H as _ <-. cbn.
      repeat split; try reflexivity. lia.
    + rewrite py_bind_lift in H.
      destruct (u ← tensor_method _ "size"; size u (-3)) as [k|e];
        [|discriminate].
      rewrite py_bind_unfold in H. unfold rsample in H.
      cbn [stack events draws site_draw rsample_draw] in H.
      rewrite py_bind_lift in H.
      destruct (transpose _ _ _); [|discriminate].
      cbn in H. injection H as _ <-. cbn.
      repeat split; try reflexivity. lia.
  - cbn in H. injection H as _ <-. cbn.
    repeat split; try reflexivity. lia.
Qed.

(** X2: a call of [model] that returns has registered exactly one sample
    site.  The site is named [self.name_prefix + ".inducing_values"], is
    unobserved, is over the prior [p(u)] of lines 62-85 and sits inside the
    output plate on top of the caller's handlers.  The plate is entered
    before it and left after it, the handler stack is restored, and the call
    has consumed one draw, or two with [return_samples=True]. *)
Theorem X2_model_effects (N : Numerics) (self inputs v : Value) (rs : bool)
    (rt rt' : Runtime) :
  AbstractPyroHiddenGPLayer_model N self inputs rs rt = (Ok v, rt') ->
  exists pr plate prefix,
    model_prior N self inputs = Ok pr /\
    getattr self "output_dim_plate" ≫= as_plate = Ok plate /\
    getattr self "name_prefix" = Ok (VStr prefix) /\
    stack rt' = stack rt /\
    events rt'
    = [EvExit plate;
       EvSample (prefix +:+ ".inducing_values")
                (VDist (prior_distribution pr)) None (plate :: stack rt);
       EvEnter plate] ++ events rt /\
    sample_sites (events rt')
    = (prefix +:+ ".inducing_values") :: sample_sites (events rt) /\
    draws rt' = draws rt + (if rs then 2 else 1).
Proof. apply model_trace. Qed.

Lemma X2_model_effects_witness :
  let N := example_numerics Fzero in
  let self := with_name_prefix (example_layer 2 5 1) "h1" in
  let x := VTensor (zeros [4; 1]) in
  let rt := example_runtime_busy [1; 2; 5] in
  let r := AbstractPyroHiddenGPLayer_model N self x true rt in
  r = (Ok (VTensor (tensor_of r)), snd r) /\
  exists pr plate prefix,
    model_prior N self x = Ok pr /\
    getattr self "output_dim_plate" ≫= as_plate = Ok plate /\
    getattr self "name_prefix" = Ok (VStr prefix) /\
    stack (snd r) = stack rt /\
    events (snd r)
    = [EvExit plate;
       EvSample (prefix +:+ ".inducing_values")
                (VDist (prior_distribution pr)) None (plate :: stack rt);
       EvEnter plate] ++ events rt /\
    sample_sites (events (snd r))
    = (prefix +:+ ".inducing_values") :: sample_sites (events rt) /\
    draws (snd r) = draws rt + 2.
Proof.
  intros N self x rt r.
  assert (H : r = (Ok (VTensor (tensor_of r)), snd r)) by (vm_compute; reflexivity).
  split; [exact H|].
  exact (X2_model_effects N self x _ true rt _ H).
Defined.

(** [guide] stops at the plate or at the bare name [name_prefix]. *)
Lemma guide_raises self rt :
  exists e rt',
    AbstractPyroHiddenGPLayer_guide self rt = (Raise e, rt') /\
    sample_sites (events rt') = sample_sites (events rt) /\
    stack rt' = stack rt.
Proof.
  unfold AbstractPyroHiddenGPLayer_guide. rewrite py_bind_lift.
  destruct (getattr self "output_dim_plate" ≫= as_plate) as [plate|e].
  - unfold with_handler. rewrite py_bind_lift, load_global_name_prefix.
    eexists _, _. split; [reflexivity|]. split; reflexivity.
  - eexists _, _. split; [reflexivity|]. split; reflexivity.
Qed.

Lemma guide_loop_result layers rt :
  (layers = [] /\ AbstractPyroDeepGP_guide_loop layers rt = (Ok tt, rt)) \/
  exists e rt',
    AbstractPyroDeepGP_guide_loop layers rt = (Raise e, rt') /\
    sample_sites (events rt') = sample_sites (events rt) /\
    stack rt' = stack rt.
Proof.
  destruct layers as [|l ls]; [left; split; reflexivity|].
  right. cbn [AbstractPyroDeepGP_guide_loop]. rewrite py_bind_unfold.
  destruct (guide_raises l rt) as (e & rt' & -> & Hs & Hk). eauto.
Qed.

Lemma deep_guide_raises self inputs outputs rt :
  exists e rt',
    AbstractPyroDeepGP_guide self inputs outputs rt = (Raise e, rt') /\
    sample_sites (events rt') = sample_sites (events rt) /\
    stack rt' = stack rt.
Proof.
  unfold AbstractPyroDeepGP_guide. rewrite py_bind_lift.
  destruct (getattr self "hidden_gp_layers" ≫= as_list) as [layers|e].
  - rewrite py_bind_unfold.
    destruct (guide_loop_result layers rt) as [[_ ->] | (e & rt' & -> & Hs & Hk)].
    + rewrite py_bind_unfold.
      destruct (guide_raises self rt) as (e & rt' & -> & Hs & Hk). eauto.
    + eauto.
  - eexists _, _. split; [reflexivity|]. split; reflexivity.
Qed.

(** X3: neither [guide] ever registers a sample site.
    [AbstractPyroHiddenGPLayer.guide] raises in every call and on every
    object: the output plate is missing, or the bare name [name_prefix] of
    line 31 is unbound.  [AbstractPyroDeepGP.guide] raises in every call as
    well.  In both, the trace gains no sample site and the handler stack is
    restored. *)
Theorem X3_guides_never_sample (self inputs outputs : Value) (rt : Runtime) :
  (exists e rt',
     AbstractPyroHiddenGPLayer_guide self rt = (Raise e, rt') /\
     sample_sites (events rt') = sample_sites (events rt) /\
     stack rt' = stack rt) /\
  (exists e rt',
     AbstractPyroDeepGP_guide self inputs outputs rt = (Raise e, rt') /\
     sample_sites (events rt') = sample_sites (events rt) /\
     stack rt' = stack rt).
Proof. split; [apply guide_raises | apply deep_guide_raises]. Qed.

(** ** Lines 37-58: what [model] accepts as inputs *)

Lemma norm_dim_m2_ok r : 2 <= r -> norm_dim r (-2) = Ok (r - 2).
Proof.
  intros H. unfold norm_dim. cbn [Z.leb Z.compare andb].
  replace (- Z.of_nat r <=? -2)%Z with true by (symmetry; apply Z.leb_le; lia).
  cbn. f_equal. lia.
Qed.

Lemma norm_dim_m2_raise r : r < 2 -> norm_dim r (-2) = Raise IndexError.
Proof.
  intros H. destruct r as [|[|r]]; try lia; reflexivity.
Qed.

(** X4: on a layer whose inducing points are a tensor of rank two or more, an
    input that is [None], a number, a string or a list fails at
    [inputs.size(-2)] (line 39) with AttributeError, and a tensor of rank
    below two fails there with IndexError.  In both cases nothing has been registered: the runtime is as
    it was before the call. *)
Theorem X4_malformed_input (N : Numerics) (self vs : Value) (ip : Tensor)
    (rs : bool) (rt : Runtime) :
  getattr self "variational_strategy" = Ok vs ->
  getattr vs "inducing_points" = Ok (VTensor ip) ->
  2 <= rank ip ->
  (forall v, plain_python_value v = true ->
     AbstractPyroHiddenGPLayer_model N self v rs rt
     = (Raise (AttributeError "size"), rt)) /\
  (forall x, rank x < 2 ->
     AbstractPyroHiddenGPLayer_model N self (VTensor x) rs rt
     = (Raise IndexError, rt)).
Proof.
  intros Hvs Hip Hr.
  assert (Hsz : exists k, size ip (-2) = Ok k).
  { unfold size. rewrite (norm_dim_m2_ok _ Hr). eauto. }
  destruct Hsz as [k Hk].
  split.
  - intros v Hv. unfold AbstractPyroHiddenGPLayer_model.
    rewrite py_bind_lift. unfold model_prior, model_inputs.
    rewrite Hvs. cbn [mbind result_bind rbind]. rewrite Hip.
    cbn [mbind result_bind rbind tensor_method]. rewrite Hk.
    cbn [mbind result_bind rbind].
    destruct v; try discriminate Hv; reflexivity.
  - intros x Hx. unfold AbstractPyroHiddenGPLayer_model.
    rewrite py_bind_lift. unfold model_prior, model_inputs.
    rewrite Hvs. cbn [mbind result_bind rbind]. rewrite Hip.
    cbn [mbind result_bind rbind tensor_method]. rewrite Hk.
    cbn [mbind result_bind rbind].
    unfold size. rewrite (norm_dim_m2_raise _ Hx). reflexivity.
Qed.

Lemma X4_malformed_input_witness :
  let N := example_numerics Fzero in
  let self := with_name_prefix (example_layer 2 5 1) "h1" in
  let rt := example_runtime [2; 5] in
  getattr self "variational_strategy" = Ok (example_strategy 2 5 1) /\
  getattr (example_strategy 2 5 1) "inducing_points"
  = Ok (VTensor (zeros [2; 5; 1])) /\
  AbstractPyroHiddenGPLayer_model N self VNone true rt
  = (Raise (AttributeError "size"), rt) /\
  AbstractPyroHiddenGPLayer_model N self (VTensor (zeros [4])) true rt
  = (Raise IndexError, rt).
Proof.
  intros N self rt.
  assert (H1 : getattr self "variational_strategy" = Ok (example_strategy 2 5 1))
    by (vm_compute; reflexivity).
  assert (H2 : getattr (example_strategy 2 5 1) "inducing_points"
               = Ok (VTensor (zeros [2; 5; 1]))) by (vm_compute; reflexivity).
  assert (H3 : 2 <= rank (zeros [2; 5; 1])) by (cbn; lia).
  destruct (X4_malformed_input N self _ _ true rt H1 H2 H3) as [A B].
  split; [exact H1|]. split; [exact H2|]. split.
  - apply A. reflexivity.
  - apply B. cbn. lia.
Defined.

(** X5: a 2-D input whose trailing size is neither [input_dims] nor 1 is
    rejected by the [expand] of line 46, before anything is registered. *)
Theorem X5_trailing_dim_mismatch (N : Numerics) (self : Value) (x : Tensor)
    (rs : bool) (rt : Runtime) (O m D n d : nat) :
  layer_ok self O m D -> shape x = [n; d] -> d <> D -> d <> 1 ->
  AbstractPyroHiddenGPLayer_model N self (VTensor x) rs rt
  = (Raise (RuntimeError "expand: sizes do not match"), rt).
Proof.
  intros [(vs & ip & Hvs & Hip & Sip) Hod Hid _ _ _] Hx HdD Hd1.
  unfold AbstractPyroHiddenGPLayer_model. rewrite py_bind_lift.
  unfold model_prior, model_inputs.
  rewrite Hvs. bind_simpl. rewrite Hip. bind_simpl.
  cbn [tensor_method]. bind_simpl.
  sz Sip. sz Hx.
  unfold dim, contiguous, rank. rewrite Hx. cbn [length Nat.eqb].
  op (unsqueeze_shape x 0).
  rewrite Hod. bind_simpl. sz Sh. rewrite Hid. bind_simpl.
  unfold expand, rank. rewrite Sh. cbn [length Nat.sub Nat.leb drop expand_ok].
  rewrite !Nat.eqb_refl.
  apply Nat.eqb_neq in HdD, Hd1. rewrite HdD, Hd1.
  cbn. rewrite ?orb_true_r. reflexivity.
Qed.

Lemma X5_trailing_dim_mismatch_witness :
  let N := example_numerics Fzero in
  let self := with_name_prefix (example_layer 2 5 3) "h1" in
  let x := zeros [4; 2] in
  let rt := example_runtime [2; 5] in
  layer_ok self 2 5 3 /\ shape x = [4; 2] /\
  AbstractPyroHiddenGPLayer_model N self (VTensor x) true rt
  = (Raise (RuntimeError "expand: sizes do not match"), rt).
Proof.
  intros N self x rt.
  assert (Hl : layer_ok self 2 5 3) by apply example_layer_ok.
  split; [exact Hl|]. split; [reflexivity|].
  apply (X5_trailing_dim_mismatch N self x true rt 2 5 3 4 2 Hl eq_refl); lia.
Defined.

Lemma unsqueeze_eq t d s i :
  shape t = s -> norm_dim (S (length s)) d = Ok i ->
  unsqueeze t d
  = Ok (tabulate (insert_at i 1 s) (fun idx => get t (remove_at i idx))).
Proof. intros <- H. unfold unsqueeze, rank. now rewrite H. Qed.

Lemma expand_eq t s sizes :
  shape t = s ->
  (length s <=? length sizes) && expand_ok s (drop (length sizes - length s) sizes)
  = true ->
  expand t sizes = Ok (tabulate sizes (fun idx => get t (bidx s idx))).
Proof. intros <- H. unfold expand, rank. now rewrite H. Qed.

Lemma view_eq t s sizes :
  shape t = s -> numel s = numel sizes ->
  view t sizes = Ok (mkTensor sizes (data t)).
Proof. intros <- H. unfold view. now rewrite H, Nat.eqb_refl. Qed.

Lemma bcast_index d i : i < d -> (if d =? 1 then 0 else i) = i.
Proof.
  intros H. destruct (Nat.eqb_spec d 1); [lia | reflexivity].
Qed.

Lemma in_range_intro shp idx :
  Forall2 lt idx shp -> in_range shp idx = true.
Proof.
  intros H. induction H as [|i d idx shp Hi _ IH]; [reflexivity|].
  cbn [in_range]. rewrite IH. apply Nat.ltb_lt in Hi. now rewrite Hi.
Qed.

Ltac in_range_tac :=
  apply in_range_intro; repeat (constructor; try lia).

(** X6: lines 43-46 replicate a 2-D input across the output channels: every
    channel of the normalised input holds the input itself.  A trailing axis
    of size 1 is accepted as well and is broadcast over the [input_dims]
    columns.  No sample axis is recorded, and [minibatch_size] is the number
    of rows. *)
Theorem X6_inputs_replicated (self : Value) (x : Tensor) (O m D n d : nat) :
  layer_ok self O m D -> shape x = [n; d] -> d = D \/ d = 1 ->
  exists ip t,
    model_inputs self (VTensor x) = Ok (mkNormalized ip m n t None) /\
    shape t = [O; n; D] /\
    forall o i j, o < O -> i < n -> j < D ->
      get t [o; i; j] = get x [i; if d =? 1 then 0 else j].
Proof.
  intros [(vs & ip & Hvs & Hip & Sip) Hod Hid _ _ _] Hx Hd.
  unfold model_inputs. rewrite Hvs. bind_simpl. rewrite Hip. bind_simpl.
  cbn [tensor_method]. bind_simpl.
  sz Sip. sz Hx.
  unfold dim, contiguous, rank. rewrite Hx. cbn [length Nat.eqb].
  rewrite (unsqueeze_eq x 0 _ 0 Hx eq_refl). bind_simpl.
  set (t1 := tabulate (insert_at 0 1 [n; d]) _).
  assert (S1 : shape t1 = [1; n; d]) by reflexivity.
  rewrite Hod. bind_simpl. sz S1. rewrite Hid. bind_simpl.
  rewrite (expand_eq t1 _ [O; n; D] S1).
  2:{ cbn. rewrite !Nat.eqb_refl.
      destruct Hd as [-> | ->]; rewrite ?Nat.eqb_refl, ?orb_true_r; reflexivity. }
  bind_simpl. rewrite shape_tabulate. cbn [length Nat.eqb].
  eexists _, _. split; [reflexivity|]. split; [reflexivity|].
  intros o i j Ho Hi Hj.
  rewrite get_tabulate by in_range_tac.
  cbn [bidx length Nat.sub drop zip_with Nat.eqb].
  rewrite (bcast_index n i Hi).
  assert (Hj' : (if d =? 1 then 0 else j) < d).
  { destruct (Nat.eqb_spec d 1); [lia|]. destruct Hd; lia. }
  subst t1. rewrite get_tabulate by (cbn [insert_at take drop app]; in_range_tac).
  reflexivity.
Qed.

Lemma X6_inputs_replicated_witness :
  let self := with_name_prefix (example_layer 2 5 3) "h1" in
  let x := zeros [4; 1] in
  layer_ok self 2 5 3 /\ shape x = [4; 1] /\
  exists ip t,
    model_inputs self (VTensor x) = Ok (mkNormalized ip 5 4 t None) /\
    shape t = [2; 4; 3] /\
    forall o i j, o < 2 -> i < 4 -> j < 3 ->
      get t [o; i; j] = get x [i; if 1 =? 1 then 0 else j].
Proof.
  intros self x.
  assert (Hl : layer_ok self 2 5 3) by apply example_layer_ok.
  split; [exact Hl|]. split; [reflexivity|].
  exact (X6_inputs_replicated self x 2 5 3 4 1 Hl eq_refl (or_intror eq_refl)).
Defined.

(** X7: lines 47-54 replicate a 3-D input [p x n x D] across the channels and
    merge the sample axis into the data axis, sample-major: row [s n + i] of
    every channel is point [i] of sample [s].  [num_samples] is [p] and
    [minibatch_size] is [n]. *)
Theorem X7_inputs_flattened (self : Value) (x : Tensor) (O m D p n : nat) :
  layer_ok self O m D -> shape x = [p; n; D] ->
  exists ip t,
    model_inputs self (VTensor x) = Ok (mkNormalized ip m n t (Some p)) /\
    shape t = [O; n * p; D] /\
    forall o s i j, o < O -> s < p -> i < n -> j < D ->
      get t [o; s * n + i; j] = get x [s; i; j].
Proof.
  intros [(vs & ip & Hvs & Hip & Sip) Hod Hid _ _ _] Hx.
  unfold model_inputs. rewrite Hvs. bind_simpl. rewrite Hip. bind_simpl.
  cbn [tensor_method]. bind_simpl.
  sz Sip. sz Hx.
  unfold dim, contiguous, rank. rewrite Hx. cbn [length Nat.eqb].
  rewrite (unsqueeze_eq x 0 _ 0 Hx eq_refl). bind_simpl.
  set (t1 := tabulate (insert_at 0 1 [p; n; D]) _).
  assert (S1 : shape t1 = [1; p; n; D]) by reflexivity.
  rewrite Hod. bind_simpl. sz S1. sz S1. rewrite Hid. bind_simpl.
  rewrite (expand_eq t1 _ [O; p; n; D] S1)
    by (cbn; rewrite !Nat.eqb_refl, ?orb_true_r; reflexivity).
  bind_simpl.
  set (t2 := tabulate [O; p; n; D] _).
  assert (S2 : shape t2 = [O; p; n; D]) by reflexivity.
  rewrite S2. cbn [length Nat.eqb].
  sz S2. sz S2.
  rewrite (view_eq t2 _ [O; n * p; D] S2) by (cbn; lia).
  bind_simpl.
  eexists _, _. split; [reflexivity|]. split; [reflexivity|].
  intros o s i j Ho Hs Hi Hj.
  unfold get at 1. cbn [shape data].
  replace (offset [O; n * p; D] [o; s * n + i; j])
    with (offset (shape t2) [o; s; i; j]) by (rewrite S2; cbn; lia).
  change (get t2 [o; s; i; j] = get x [s; i; j]).
  subst t2. rewrite get_tabulate by in_range_tac.
  cbn [bidx length Nat.sub drop zip_with Nat.eqb].
  rewrite (bcast_index p s Hs), (bcast_index n i Hi), (bcast_index D j Hj).
  subst t1. rewrite get_tabulate by (cbn [insert_at take drop app]; in_range_tac).
  reflexivity.
Qed.

Lemma X7_inputs_flattened_witness :
  let self := with_name_prefix (example_layer 2 5 1) "h1" in
  let x := zeros [3; 4; 1] in
  layer_ok self 2 5 1 /\ shape x = [3; 4; 1] /\
  exists ip t,
    model_inputs self (VTensor x) = Ok (mkNormalized ip 5 4 t (Some 3)) /\
    shape t = [2; 4 * 3; 1] /\
    forall o s i j, o < 2 -> s < 3 -> i < 4 -> j < 1 ->
      get t [o; s * 4 + i; j] = get x [s; i; j].
Proof.
  intros self x.
  assert (Hl : layer_ok self 2 5 1) by apply example_layer_ok.
  split; [exact Hl|]. split; [reflexivity|].
  exact (X7_inputs_flattened self x 2 5 1 3 4 Hl eq_refl).
Defined.

(** Lines 37-58 on a 4-D input: only the [view] of line 54 remains. *)
Lemma model_inputs_4d self x O m D a p n b :
  layer_ok self O m D -> shape x = [a; p; n; b] ->
  exists ip,
    model_inputs self (VTensor x)
    = (t ← view x [O; n * p; D]; Ok (mkNormalized ip m n t (Some p))).
Proof.
  intros [(vs & ip & Hvs & Hip & Sip) Hod Hid _ _ _] Hx. exists ip.
  unfold model_inputs. rewrite Hvs. bind_simpl. rewrite Hip. bind_simpl.
  cbn [tensor_method]. bind_simpl.
  sz Sip. sz Hx.
  unfold dim, contiguous, rank. rewrite Hx. cbn [length Nat.eqb].
  bind_simpl. rewrite Hx. cbn [length Nat.eqb].
  sz Hx. rewrite Hod. bind_simpl. sz Hx. rewrite Hid. bind_simpl.
  reflexivity.
Qed.

Lemma view_mismatch t s sizes :
  shape t = s -> numel s <> numel sizes ->
  view t sizes = Raise (RuntimeError "view: shape is invalid for input size").
Proof.
  intros <- H. unfold view. apply Nat.eqb_neq in H. now rewrite H.
Qed.

(** X8: a 4-D input skips the replication of lines 43-50 and goes straight to
    the [view] of line 54, with its second axis read as the sample axis.  The
    view is accepted exactly when the element counts agree, and the data are
    then taken over as they are: an input [O x p x n x D] is read with its
    leading axis as the channel axis.  Otherwise the RuntimeError of the view
    is raised. *)
Theorem X8_inputs_4d (self : Value) (x : Tensor) (O m D a p n b : nat) :
  layer_ok self O m D -> shape x = [a; p; n; b] ->
  (a * (p * (n * b)) = O * (n * p * D) ->
   exists ip t,
     model_inputs self (VTensor x) = Ok (mkNormalized ip m n t (Some p)) /\
     shape t = [O; n * p; D] /\ data t = data x /\
     (a = O -> b = D ->
      forall o s i j, o < O -> s < p -> i < n -> j < D ->
        get t [o; s * n + i; j] = get x [o; s; i; j])) /\
  (a * (p * (n * b)) <> O * (n * p * D) ->
   model_inputs self (VTensor x)
   = Raise (RuntimeError "view: shape is invalid for input size")).
Proof.
  intros Hl Hx.
  destruct (model_inputs_4d self x O m D a p n b Hl Hx) as [ip Hpre].
  rewrite Hpre. split; intros Hnum.
  - rewrite (view_eq x _ [O; n * p; D] Hx) by (cbn; lia). bind_simpl.
    eexists _, _. split; [reflexivity|]. split; [reflexivity|].
    split; [reflexivity|].
    intros -> -> o s i j Ho Hs Hi Hj.
    unfold get. cbn [shape data]. rewrite Hx. f_equal. cbn. lia.
  - rewrite (view_mismatch x _ [O; n * p; D] Hx) by (cbn; lia). reflexivity.
Qed.

Lemma X8_inputs_4d_witness :
  let self := with_name_prefix (example_layer 2 5 1) "h1" in
  let x := zeros [2; 3; 4; 1] in
  layer_ok self 2 5 1 /\ shape x = [2; 3; 4; 1] /\
  exists ip t,
    model_inputs self (VTensor x) = Ok (mkNormalized ip 5 4 t (Some 3)) /\
    shape t = [2; 4 * 3; 1] /\ data t = data x /\
    (2 = 2 -> 1 = 1 ->
     forall o s i j, o < 2 -> s < 3 -> i < 4 -> j < 1 ->
       get t [o; s * 4 + i; j] = get x [o; s; i; j]).
Proof.
  intros self x.
  assert (Hl : layer_ok self 2 5 1) by apply example_layer_ok.
  split; [exact Hl|]. split; [reflexivity|].
  exact (proj1 (X8_inputs_4d self x 2 5 1 2 3 4 1 Hl eq_refl) eq_refl).
Defined.

(** X9: an input of rank five or more passes lines 37-58 unchanged and is
    rejected by the concatenation with the 3-D inducing points (line 62): the
    call raises a RuntimeError and registers nothing. *)
Theorem X9_rank_above_four (N : Numerics) (self : Value) (x : Tensor)
    (rs : bool) (rt : Runtime) (O m D : nat) :
  layer_ok self O m D -> 5 <= rank x ->
  AbstractPyroHiddenGPLayer_model N self (VTensor x) rs rt
  = (Raise (RuntimeError "cat: sizes of tensors must match"), rt).
Proof.
  intros [(vs & ip & Hvs & Hip & Sip) Hod Hid _ _ _] Hr.
  assert (Hsz : exists k, size x (-2) = Ok k).
  { unfold size. rewrite (norm_dim_m2_ok (rank x)) by lia. eauto. }
  destruct Hsz as [k Hk].
  unfold AbstractPyroHiddenGPLayer_model. rewrite py_bind_lift.
  unfold model_prior, model_inputs.
  rewrite Hvs. bind_simpl. rewrite Hip. bind_simpl.
  cbn [tensor_method]. bind_simpl.
  sz Sip. rewrite Hk. bind_simpl.
  unfold dim, contiguous.
  destruct (Nat.eqb_spec (rank x) 2); [lia|].
  destruct (Nat.eqb_spec (rank x) 3); [lia|].
  bind_simpl.
  destruct (Nat.eqb_spec (rank x) 4); [lia|].
  bind_simpl. unfold model_blocks. cbn [nz_inducing_points nz_inputs].
  unfold cat. change (rank ip) with (length (shape ip)). rewrite Sip.
  replace (norm_dim (length [O; m; D]) (-2)) with (Ok 1 : Result nat)
    by (lazy; reflexivity).
  bind_simpl.
  destruct (Nat.eqb_spec (length [O; m; D]) (rank x)) as [E|_];
    [cbn in E; lia|].
  cbn [andb]. bind_simpl. reflexivity.
Qed.

Lemma X9_rank_above_four_witness :
  let N := example_numerics Fzero in
  let self := with_name_prefix (example_layer 2 5 1) "h1" in
  let x := zeros [1; 1; 1; 1; 1] in
  let rt := example_runtime [2; 5] in
  layer_ok self 2 5 1 /\ 5 <= rank x /\
  AbstractPyroHiddenGPLayer_model N self (VTensor x) true rt
  = (Raise (RuntimeError "cat: sizes of tensors must match"), rt).
Proof.
  intros N self x rt.
  assert (Hl : layer_ok self 2 5 1) by apply example_layer_ok.
  assert (Hr : 5 <= rank x) by (cbn; lia).
  split; [exact Hl|]. split; [exact Hr|].
  exact (X9_rank_above_four N self x true rt 2 5 1 Hl Hr).
Defined.

(** ** Lines 62-156 on a plain minibatch *)

(** X10: lines 37-85 on a usable layer fail in the Cholesky factorisation of
    the jittered [K_mm] or not at all.  Otherwise the prior [p(u)] has a mean
    [O x m] and the factor of [K_mm] as covariance, [K_ux] is [O x m x q] and
    [K_xx] is [O x q x q], where [q] is [n] for a 2-D input [n x D] and
    [n p] for a 3-D input [p x n x D]; [minibatch_size] is [n] and
    [num_samples] is unset, or [p]. *)
Theorem X10_prior_blocks (N : Numerics) (self : Value) (O m D : nat) :
  layer_ok self O m D ->
  (forall x n, shape x = [n; D] ->
     model_prior N self (VTensor x) = Raise chol_error \/
     exists pr, model_prior N self (VTensor x) = Ok pr /\
                prior_ok pr O m n /\
                minibatch_size pr = n /\ num_samples pr = None) /\
  (forall x p n, shape x = [p; n; D] ->
     model_prior N self (VTensor x) = Raise chol_error \/
     exists pr, model_prior N self (VTensor x) = Ok pr /\
                prior_ok pr O m (n * p) /\
                minibatch_size pr = n /\ num_samples pr = Some p).
Proof.
  intros Hl. split.
  - intros x n Hx.
    destruct (model_inputs_2d self x O m n D Hl Hx) as (ip & t & Hin & Sip & St).
    apply (model_prior_shape N self _ O m n D _ _ _ _ Hl Hin Sip St).
  - intros x p n Hx.
    destruct (model_inputs_3d self x O m p n D Hl Hx) as (ip & t & Hin & Sip & St).
    apply (model_prior_shape N self _ O m (n * p) D _ _ _ _ Hl Hin Sip St).
Qed.

Lemma X10_prior_blocks_witness :
  let N := example_numerics Fzero in
  let self := with_name_prefix (example_layer 2 5 1) "h1" in
  layer_ok self 2 5 1 /\
  (forall x n, shape x = [n; 1] ->
     model_prior N self (VTensor x) = Raise chol_error \/
     exists pr, model_prior N self (VTensor x) = Ok pr /\
                prior_ok pr 2 5 n /\
                minibatch_size pr = n /\ num_samples pr = None).
Proof.
  intros N self.
  assert (Hl : layer_ok self 2 5 1) by apply example_layer_ok.
  split; [exact Hl|].
  exact (proj1 (X10_prior_blocks N self 2 5 1 Hl)).
Defined.

(** X11: with [return_samples=True] on a 2-D input and a site value [O x m]
    that has no sample axis, a call that gets past the Cholesky
    factorisation raises IndexError: [p_u_samples.size(-3)] on line 150 asks
    for a third axis from the end. *)
Theorem X11_site_without_sample_axis (N : Numerics) (self : Value) (x : Tensor)
    (rt : Runtime) (O m n D : nat) :
  layer_ok self O m D -> shape x = [n; D] -> site_shape rt [O; m] ->
  let r := fst (AbstractPyroHiddenGPLayer_model N self (VTensor x) true rt) in
  r = Raise chol_error \/ r = Raise IndexError.
Proof. apply site_without_sample_axis. Qed.

Lemma X11_site_without_sample_axis_witness :
  let N := example_numerics Fzero in
  let self := with_name_prefix (example_layer 2 5 1) "h1" in
  let x := zeros [4; 1] in
  let rt := example_runtime [2; 5] in
  let r := fst (AbstractPyroHiddenGPLayer_model N self (VTensor x) true rt) in
  layer_ok self 2 5 1 /\ shape x = [4; 1] /\ site_shape rt [2; 5] /\
  (r = Raise chol_error \/ r = Raise IndexError).
Proof.
  intros N self x rt r.
  assert (Hl : layer_ok self 2 5 1) by apply example_layer_ok.
  assert (Hs : site_shape rt [2; 5]) by (intros name d; reflexivity).
  split; [exact Hl|]. split; [reflexivity|]. split; [exact Hs|].
  exact (X11_site_without_sample_axis N self x rt 2 5 4 1 Hl eq_refl Hs).
Defined.

(** X12: with [return_samples=False] on a 2-D input [n x D] and a site value
    [p x O x m] that carries a sample axis, the predictive distribution has
    mean and variance of shape [p x O x n]: the sample axis of the site value
    leads, and no variance entry is negative. *)
Theorem X12_predictive_particles (N : Numerics) (self : Value) (x : Tensor)
    (rt : Runtime) (O m n D p : nat) :
  layer_ok self O m D -> shape x = [n; D] -> site_shape rt [p; O; m] ->
  let r := fst (AbstractPyroHiddenGPLayer_model N self (VTensor x) false rt) in
  r = Raise chol_error \/
  exists d var,
    r = Ok (VDist d) /\ variance N d = Ok var /\
    shape (mean d) = [p; O; n] /\ shape var = [p; O; n] /\
    forall idx, nonneg_entry (get var idx).
Proof. apply predictive_shapes_particles. Qed.

Lemma X12_predictive_particles_witness :
  let N := example_numerics Fzero in
  let self := with_name_prefix (example_layer 2 5 1) "h1" in
  let x := zeros [4; 1] in
  let rt := example_runtime [3; 2; 5] in
  let r := fst (AbstractPyroHiddenGPLayer_model N self (VTensor x) false rt) in
  layer_ok self 2 5 1 /\ shape x = [4; 1] /\ site_shape rt [3; 2; 5] /\
  (r = Raise chol_error \/
   exists d var,
     r = Ok (VDist d) /\ variance N d = Ok var /\
     shape (mean d) = [3; 2; 4] /\ shape var = [3; 2; 4] /\
     forall idx, nonneg_entry (get var idx)).
Proof.
  intros N self x rt r.
  assert (Hl : layer_ok self 2 5 1) by apply example_layer_ok.
  assert (Hs : site_shape rt [3; 2; 5]) by (intros name d; reflexivity).
  split; [exact Hl|]. split; [reflexivity|]. split; [exact Hs|].
  exact (X12_predictive_particles N self x rt 2 5 4 1 3 Hl eq_refl Hs).
Defined.

(** ** Inputs that carry a sample axis *)

Lemma matmul_mismatch N a b sa sb :
  shape a = sa -> shape b = sb ->
  2 <= length sa -> 2 <= length sb ->
  cols_of sa <> rows_of sb ->
  matmul N a b = Raise (RuntimeError "matmul: size mismatch").
Proof.
  intros <- <- Ha Hb Hk. unfold matmul, rank.
  destruct (length (shape a)) as [|[|ra]] eqn:Ea; try lia.
  destruct (length (shape b)) as [|[|rb]] eqn:Eb; try lia.
  cbn [Nat.eqb orb mbind result_bind rbind].
  unfold matmul_core. apply Nat.eqb_neq in Hk. now rewrite Hk.
Qed.

(** X13: on a 3-D input [p x n x D] whose number of points [n] differs from
    the number [m] of inducing points, with an inducing-values sample
    [p x O x m], a call that gets past the Cholesky factorisation raises the
    RuntimeError of a matrix product with mismatched sizes.  The permutation of line 108 leaves [K_ux] as [p x O x n x m];
    line 128 transposes it once more and multiplies [p x O x m x n] by
    [p x O x m x 1]. *)
Theorem X13_later_layer_size_mismatch (N : Numerics) (self : Value) (x : Tensor)
    (rs : bool) (rt : Runtime) (O m D p n : nat) :
  layer_ok self O m D -> site_shape rt [p; O; m] ->
  shape x = [p; n; D] -> n <> m ->
  let r := fst (AbstractPyroHiddenGPLayer_model N self (VTensor x) rs rt) in
  r = Raise chol_error \/ r = Raise (RuntimeError "matmul: size mismatch").
Proof.
  intros Hl Hsite Hx Hnm r. subst r.
  destruct (model_inputs_3d self x O m p n D Hl Hx) as (ip & t & Hin & Sip & St).
  destruct (model_prior_shape N self _ O m (n * p) D _ _ _ _ Hl Hin Sip St)
    as [Herr | (pr & Hpr & Hok & Hmb & Hns)].
  - left. unfold AbstractPyroHiddenGPLayer_model. now rewrite py_bind_lift, Herr.
  - right.
    destruct (AbstractPyroHiddenGPLayer_model_stages N self _ rs rt pr O m D _
                Hl Hsite Hpr) as (u & rt' & Su & ->).
    enough (Hmo : model_moments N self pr (VTensor u)
                  = Raise (RuntimeError "matmul: size mismatch"))
      by now rewrite Hmo.
    destruct Hl as [_ Hod _ _ _ _].
    destruct Hok as [Hm (L & HL & SL) Skmx (kxx & Hkxx & Skxx) _].
    unfold model_moments. cbn [tensor_method]. bind_simpl.
    rewrite HL, Hkxx, Hns, Hm, Hmb.
    op (unsqueeze_shape u (-1)).
    op (inv_matmul_shape N (CholLazyTensor L) t0).
    op (squeeze_shape t1 (-1)).
    rewrite Hod. bind_simpl.
    op (view_shape (induc_data_covar pr) _ [O; m; p; n]).
    op (permute_shape t3 _ [2; 0; 3; 1]).
    op (lt_diag_nonlazy_shape N kxx).
    sz Sh1.
    op (view_shape t5 _ [O; p; n]).
    op (transpose_shape t6 (-3) (-2)).
    op (transpose_shape t4 (-2) (-1)).
    op (unsqueeze_shape t2 (-1)).
    rewrite (matmul_mismatch N t8 t9 _ _ Sh7 Sh8); cbn; try lia.
    reflexivity.
Qed.

Lemma X13_later_layer_size_mismatch_witness :
  let N := example_numerics Fzero in
  let self := with_name_prefix (example_layer 2 5 1) "h1" in
  let x := zeros [3; 4; 1] in
  let rt := example_runtime [3; 2; 5] in
  let r := fst (AbstractPyroHiddenGPLayer_model N self (VTensor x) true rt) in
  layer_ok self 2 5 1 /\ site_shape rt [3; 2; 5] /\ shape x = [3; 4; 1] /\
  (r = Raise chol_error \/ r = Raise (RuntimeError "matmul: size mismatch")).
Proof.
  intros N self x rt r.
  assert (Hl : layer_ok self 2 5 1) by apply example_layer_ok.
  assert (Hs : site_shape rt [3; 2; 5]) by (intros name d; reflexivity).
  split; [exact Hl|]. split; [exact Hs|]. split; [reflexivity|].
  apply (X13_later_layer_size_mismatch N self x true rt 2 5 1 3 4 Hl Hs eq_refl).
  lia.
Defined.

Lemma later_layer_samples N self x rt O n D p :
  layer_ok self O n D -> shape x = [p; n; D] -> site_shape rt [p; O; n] ->
  let r := fst (AbstractPyroHiddenGPLayer_model N self (VTensor x) true rt) in
  r = Raise chol_error \/
  exists t, r = Ok (VTensor t) /\ shape t = [p; n; O].
Proof.
  intros Hl Hx Hsite r. subst r.
  destruct (model_inputs_3d self x O n p n D Hl Hx) as (ip & t & Hin & Sip & St).
  destruct (model_prior_shape N self _ O n (n * p) D _ _ _ _ Hl Hin Sip St)
    as [Herr | (pr & Hpr & Hok & Hmb & Hns)].
  - left. unfold AbstractPyroHiddenGPLayer_model. now rewrite py_bind_lift, Herr.
  - right.
    destruct (AbstractPyroHiddenGPLayer_model_stages N self _ true rt pr O n D _
                Hl Hsite Hpr) as (u & rt' & Su & ->).
    destruct (model_moments_later N self pr u O n p D Hl Hok Hns Hmb Su)
      as (mo & -> & Sm & Sd & Sc).
    destruct (model_p_f_dist_shape N mo _ _ Sd Sc Sm (or_introl eq_refl))
      as (d & var & -> & Smean & _ & _).
    apply (model_return_later_samples pr (VTensor u) d rt' p p O n Hns Smean).
Qed.

(** X14: for a 3-D input [p x n x D] with as many points as inducing points
    and a site value [p x O x n], [model] with [return_samples=False] either
    raises the error of a failed Cholesky factorisation or returns a
    distribution whose mean and variance have shape [p x O x n], with no
    negative variance entry. *)
Theorem X14_later_layer_distribution (N : Numerics) (self : Value) (x : Tensor)
    (rt : Runtime) (O n D p : nat) :
  layer_ok self O n D -> shape x = [p; n; D] -> site_shape rt [p; O; n] ->
  let r := fst (AbstractPyroHiddenGPLayer_model N self (VTensor x) false rt) in
  r = Raise chol_error \/
  exists d var,
    r = Ok (VDist d) /\ variance N d = Ok var /\
    shape (mean d) = [p; O; n] /\ shape var = [p; O; n] /\
    forall idx, nonneg_entry (get var idx).
Proof.
  intros Hl Hx Hsite r. subst r.
  destruct (model_inputs_3d self x O n p n D Hl Hx) as (ip & t & Hin & Sip & St).
  destruct (model_prior_shape N self _ O n (n * p) D _ _ _ _ Hl Hin Sip St)
    as [Herr | (pr & Hpr & Hok & Hmb & Hns)].
  - left. unfold AbstractPyroHiddenGPLayer_model. now rewrite py_bind_lift, Herr.
  - right.
    destruct (AbstractPyroHiddenGPLayer_model_stages N self _ false rt pr O n D _
                Hl Hsite Hpr) as (u & rt' & Su & ->).
    destruct (model_moments_later N self pr u O n p D Hl Hok Hns Hmb Su)
      as (mo & -> & Sm & Sd & Sc).
    destruct (model_p_f_dist_shape N mo _ _ Sd Sc Sm (or_introl eq_refl))
      as (d & var & Hd & Smean & Hvar & Svar).
    rewrite Hd. exists d, var.
    destruct (model_p_f_dist_inv N mo d Hd) as (raw & _ & Hdeq).
    repeat split; try assumption.
    + apply (variance_nonneg N d raw var); [now subst d | exact Hvar].
    + apply (variance_nonneg N d raw var); [now subst d | exact Hvar].
Qed.

Lemma X14_later_layer_distribution_witness :
  let N := example_numerics Fzero in
  let self := with_name_prefix (example_layer 2 5 1) "h1" in
  let x := zeros [3; 5; 1] in
  let rt := example_runtime [3; 2; 5] in
  let r := fst (AbstractPyroHiddenGPLayer_model N self (VTensor x) false rt) in
  layer_ok self 2 5 1 /\ shape x = [3; 5; 1] /\ site_shape rt [3; 2; 5] /\
  (r = Raise chol_error \/
   exists d var,
     r = Ok (VDist d) /\ variance N d = Ok var /\
     shape (mean d) = [3; 2; 5] /\ shape var = [3; 2; 5] /\
     forall idx, nonneg_entry (get var idx)).
Proof.
  intros N self x rt r.
  assert (Hl : layer_ok self 2 5 1) by apply example_layer_ok.
  assert (Hs : site_shape rt [3; 2; 5]) by (intros name d; reflexivity).
  split; [exact Hl|]. split; [reflexivity|]. split; [exact Hs|].
  exact (X14_later_layer_distribution N self x rt 2 5 1 3 Hl eq_refl Hs).
Defined.

(** ** Stacks of hidden layers *)

Lemma last_cons_default {A} (l : list A) : forall a d,
  List.last (a :: l) d = List.last l a.
Proof.
  induction l as [|b l IH]; intros a d; [reflexivity|].
  change (List.last (a :: b :: l) d) with (List.last (b :: l) d).
  now rewrite !IH.
Qed.

Lemma chain_ok_length layers : forall Os n D,
  chain_ok layers Os n D -> length Os = length layers.
Proof.
  induction layers as [|l ls IH]; intros [|o Os] n D Hc; cbn [chain_ok] in Hc.
  - reflexivity.
  - destruct Hc.
  - destruct Hc.
  - destruct Hc as [_ Hc]. cbn [length]. f_equal. eapply IH, Hc.
Qed.

(** The loop of lines 191-192 over layers that fit one another. *)
Lemma model_loop_chain N : forall layers Os x rt p n D,
  chain_ok layers Os n D -> shape x = [p; n; D] ->
  (forall i O, Os !! i = Some O ->
     forall name d, shape (site_draw rt (draws rt + 2 * i) name d) = [p; O; n]) ->
  let r := AbstractPyroDeepGP_model_loop N layers (VTensor x) rt in
  fst r = Raise chol_error \/
  exists t, fst r = Ok (VTensor t) /\ shape t = [p; n; List.last Os D] /\
    draws (snd r) = draws rt + 2 * length layers /\
    length (sample_sites (events (snd r)))
    = length layers + length (sample_sites (events rt)) /\
    stack (snd r) = stack rt.
Proof.
  induction layers as [|l ls IH]; intros Os x rt p n D Hc Hx Hsite r; subst r.
  - destruct Os; [|destruct Hc]. right. exists x. cbn. repeat split; auto.
  - destruct Os as [|O Os']; [destruct Hc|].
    cbn [chain_ok] in Hc. destruct Hc as [Hl Hc].
    assert (Hs0 : site_shape rt [p; O; n]).
    { intros name d. specialize (Hsite 0 O eq_refl name d).
      now rewrite Nat.mul_0_r, Nat.add_0_r in Hsite. }
    cbn [AbstractPyroDeepGP_model_loop]. rewrite py_bind_unfold.
    pose proof (later_layer_samples N l x rt O n D p Hl Hx Hs0) as Hr.
    cbv zeta in Hr.
    destruct (AbstractPyroHiddenGPLayer_model N l (VTensor x) true rt)
      as [[v|e] rt'] eqn:Em; cbn [fst] in Hr.
    + destruct Hr as [Hr | (t & Hr & St)]; [discriminate|].
      injection Hr as ->.
      destruct (model_trace N l _ _ true rt rt' Em)
        as (pr & plate & prefix & _ & _ & _ & Hstack & _ & Hsites & Hdraws).
      destruct (framed_model N l (VTensor x) true rt) as (_ & Hsd & _).
      rewrite Em in Hsd. cbn [snd] in Hsd.
      destruct (IH Os' t rt' p n O Hc St) as [He | (t' & Ht' & St' & Hd' & Hs' & Hk')].
      * intros i O' HO' name d. rewrite Hsd, Hdraws.
        replace (draws rt + 2 + 2 * i) with (draws rt + 2 * S i) by lia.
        now apply Hsite.
      * now left.
      * right. exists t'. split; [exact Ht'|].
        rewrite last_cons_default. split; [exact St'|].
        rewrite Hd', Hs', Hk', Hdraws, Hsites, Hstack. cbn [length].
        repeat split; lia.
    + left. destruct Hr as [Hr | (t & Hr & _)]; [|discriminate].
      cbn [fst]. exact Hr.
Qed.

(** X15: the loop of lines 191-192 on a 3-D input [p x n x D].  Over a stack
    of layers with [n] inducing points each, where the channels of a layer
    are the input dimensions of the next, and with site values
    [p x O_i x n], the loop either raises the error of a failed Cholesky
    factorisation or returns a tensor [p x n x O_last] (the input itself for
    an empty stack).  It has then made two draws and registered one sample
    site for each layer, and the handler stack is restored. *)
Theorem X15_hidden_layers_compose (N : Numerics) (layers : list Value)
    (Os : list nat) (x : Tensor) (rt : Runtime) (p n D : nat) :
  chain_ok layers Os n D -> shape x = [p; n; D] ->
  (forall i o, Os !! i = Some o ->
     forall name d, shape (site_draw rt (draws rt + 2 * i) name d) = [p; o; n]) ->
  let r := AbstractPyroDeepGP_model_loop N layers (VTensor x) rt in
  fst r = Raise chol_error \/
  exists t, fst r = Ok (VTensor t) /\ shape t = [p; n; List.last Os D] /\
    draws (snd r) = draws rt + 2 * length layers /\
    length (sample_sites (events (snd r)))
    = length layers + length (sample_sites (events rt)) /\
    stack (snd r) = stack rt.
Proof. apply model_loop_chain. Qed.

Lemma X15_hidden_layers_compose_witness :
  let N := example_numerics Fzero in
  let layers := [with_name_prefix (example_layer 2 5 3) "h1";
                 with_name_prefix (example_layer 4 5 2) "h2"] in
  let x := zeros [3; 5; 3] in
  let rt := example_runtime_seq [(0, [3; 2; 5])] [3; 4; 5] in
  let r := AbstractPyroDeepGP_model_loop N layers (VTensor x) rt in
  chain_ok layers [2; 4] 5 3 /\ shape x = [3; 5; 3] /\
  (fst r = Raise chol_error \/
   exists t, fst r = Ok (VTensor t) /\ shape t = [3; 5; List.last [2; 4] 3] /\
     draws (snd r) = draws rt + 2 * length layers /\
     length (sample_sites (events (snd r)))
     = length layers + length (sample_sites (events rt)) /\
     stack (snd r) = stack rt).
Proof.
  intros N layers x rt r.
  assert (Hc : chain_ok layers [2; 4] 5 3).
  { split; [apply example_layer_ok|]. split; [apply example_layer_ok | exact I]. }
  split; [exact Hc|]. split; [reflexivity|].
  apply (X15_hidden_layers_compose N layers [2; 4] x rt 3 5 3 Hc eq_refl).
  intros i o Ho name d.
  destruct i as [|[|i]]; cbn in Ho; [| |discriminate Ho];
    injection Ho as <-; reflexivity.
Defined.

Lemma first_layer_samples N self x rt O m n D p :
  layer_ok self O m D -> shape x = [n; D] -> site_shape rt [p; O; m] ->
  let r := fst (AbstractPyroHiddenGPLayer_model N self (VTensor x) true rt) in
  r = Raise chol_error \/
  exists t, r = Ok (VTensor t) /\ shape t = [p; p; n; O].
Proof.
  intros Hl Hx Hsite r. subst r.
  destruct (model_inputs_2d self x O m n D Hl Hx) as (ip & t & Hin & Sip & St).
  destruct (model_prior_shape N self _ O m n D _ _ _ _ Hl Hin Sip St)
    as [Herr | (pr & Hpr & Hok & Hmb & Hns)].
  - left. unfold AbstractPyroHiddenGPLayer_model. now rewrite py_bind_lift, Herr.
  - right.
    destruct (AbstractPyroHiddenGPLayer_model_stages N self _ true rt pr O m D _
                Hl Hsite Hpr) as (u & rt' & Su & ->).
    destruct (model_moments_first N self pr u O m n [p] Hok Hns Su
                (or_intror (ex_intro _ p eq_refl)))
      as (mo & -> & Sm & Sd & Sc).
    destruct (model_p_f_dist_shape N mo _ _ Sd Sc Sm
                (or_intror (ex_intro _ p eq_refl)))
      as (d & var & -> & Smean & _ & _).
    apply (model_return_first_samples pr u d rt' p O m n Hns Su Smean).
Qed.

(** X16: a 2-D input through two layers.  With a site value [p x O_1 x m]
    the first layer returns [p x p x n x O_1], which the second layer takes
    for an input that already carries the channel axis (line 52).  Unless
    [p] equals the second layer's [output_dims], the [view] of line 54 then
    fails: the loop of lines 191-192 raises its RuntimeError, or the error of
    a failed Cholesky factorisation in the first layer. *)
Theorem X16_second_layer_view (N : Numerics) (l1 l2 : Value) (x : Tensor)
    (rt : Runtime) (O1 m1 O2 m2 D n p : nat) :
  layer_ok l1 O1 m1 D -> layer_ok l2 O2 m2 O1 ->
  site_shape rt [p; O1; m1] -> shape x = [n; D] ->
  0 < n -> 0 < p -> 0 < O1 -> p <> O2 ->
  let r := fst (AbstractPyroDeepGP_model_loop N [l1; l2] (VTensor x) rt) in
  r = Raise chol_error \/
  r = Raise (RuntimeError "view: shape is invalid for input size").
Proof.
  intros Hl1 Hl2 Hsite Hx Hn Hp HO Hne r. subst r.
  cbn [AbstractPyroDeepGP_model_loop]. rewrite py_bind_unfold.
  pose proof (first_layer_samples N l1 x rt O1 m1 n D p Hl1 Hx Hsite) as Hr.
  cbv zeta in Hr.
  destruct (AbstractPyroHiddenGPLayer_model N l1 (VTensor x) true rt)
    as [[v|e] rt'] eqn:Em; cbn [fst] in Hr.
  - destruct Hr as [Hr | (t & Hr & St)]; [discriminate|].
    injection Hr as ->. right.
    rewrite py_bind_unfold.
    unfold AbstractPyroHiddenGPLayer_model at 1. rewrite py_bind_lift.
    unfold model_prior.
    destruct (model_inputs_4d l2 t O2 m2 O1 p p n O1 Hl2 St) as [ip ->].
    rewrite (view_mismatch t _ [O2; n * p; O1] St) by (cbn; nia).
    reflexivity.
  - left. destruct Hr as [Hr | (t & Hr & _)]; [exact Hr | discriminate].
Qed.

Lemma X16_second_layer_view_witness :
  let N := example_numerics Fzero in
  let l1 := with_name_prefix (example_layer 2 5 3) "h1" in
  let l2 := with_name_prefix (example_layer 4 5 2) "h2" in
  let x := zeros [4; 3] in
  let rt := example_runtime [3; 2; 5] in
  let r := fst (AbstractPyroDeepGP_model_loop N [l1; l2] (VTensor x) rt) in
  layer_ok l1 2 5 3 /\ layer_ok l2 4 5 2 /\ site_shape rt [3; 2; 5] /\
  shape x = [4; 3] /\
  (r = Raise chol_error \/
   r = Raise (RuntimeError "view: shape is invalid for input size")).
Proof.
  intros N l1 l2 x rt r.
  assert (H1 : layer_ok l1 2 5 3) by apply example_layer_ok.
  assert (H2 : layer_ok l2 4 5 2) by apply example_layer_ok.
  assert (Hs : site_shape rt [3; 2; 5]) by (intros name d; reflexivity).
  split; [exact H1|]. split; [exact H2|]. split; [exact Hs|].
  split; [reflexivity|].
  apply (X16_second_layer_view N l1 l2 x rt 2 5 4 5 3 4 3 H1 H2 Hs eq_refl); lia.
Defined.

(** ** [AbstractPyroDeepGP.model] up to the scoring statement *)

(** The deep GP of the examples is a usable terminal layer with one output
    channel. *)
Lemma example_deep_ok m D total layers s :
  layer_ok (with_name_prefix (example_deep m D total layers) s) 1 m D.
Proof.
  unfold example_deep, AbstractPyroDeepGP_init, AbstractPyroHiddenGPLayer_init,
    AbstractVariationalGP_init, with_name_prefix, setattr, example_base,
    example_strategy.
  constructor; unfold getattr.
  - exists (VObj (<["inducing_points" := VTensor (zeros [1; m; D])]> ∅)),
           (zeros [1; m; D]).
    rewrite !lookup_insert_ne by discriminate. rewrite !lookup_insert_eq.
    repeat split; reflexivity.
  - rewrite !lookup_insert_ne by discriminate. rewrite lookup_insert_eq.
    apply as_nat_of_nat.
  - rewrite !lookup_insert_ne by discriminate. rewrite lookup_insert_eq.
    apply as_nat_of_nat.
  - exists example_forward.
    rewrite !lookup_insert_ne by discriminate. rewrite lookup_insert_eq.
    split; [reflexivity | apply example_forward_contract].
  - exists (HPlate ("deep" +:+ ".n_output_plate") 1 None).
    rewrite !lookup_insert_ne by discriminate. rewrite lookup_insert_eq.
    reflexivity.
  - exists s. rewrite lookup_insert_eq. reflexivity.
Qed.

Lemma first_layer_dist N self x rt O m n D :
  layer_ok self O m D -> shape x = [n; D] -> site_shape rt [O; m] ->
  let r := fst (AbstractPyroHiddenGPLayer_model N self (VTensor x) false rt) in
  r = Raise chol_error \/
  exists d, r = Ok (VDist d) /\ shape (mean d) = [O; n].
Proof.
  intros Hl Hx Hsite r. subst r.
  destruct (model_inputs_2d self x O m n D Hl Hx) as (ip & t & Hin & Sip & St).
  destruct (model_prior_shape N self _ O m n D _ _ _ _ Hl Hin Sip St)
    as [Herr | (pr & Hpr & Hok & Hmb & Hns)].
  - left. unfold AbstractPyroHiddenGPLayer_model. now rewrite py_bind_lift, Herr.
  - right.
    destruct (AbstractPyroHiddenGPLayer_model_stages N self _ false rt pr O m D _
                Hl Hsite Hpr) as (u & rt' & Su & ->).
    destruct (model_moments_first N self pr u O m n [] Hok Hns Su (or_introl eq_refl))
      as (mo & -> & Sm & Sd & Sc).
    destruct (model_p_f_dist_shape N mo _ _ Sd Sc Sm (or_introl eq_refl))
      as (d & var & -> & Smean & _ & _).
    exists d. split; [reflexivity | exact Smean].
Qed.

(** Lines 195-200 once the layers have run: the data plate, the scale and
    the scoring statement. *)
Lemma deep_model_after_feed N self (x : Tensor) outputs rt (n : nat) s total
    rt0 (xv dv : Value) :
  getattr self "name_prefix" = Ok (VStr s) ->
  getattr self "total_num_data" = Ok (VInt total) ->
  AbstractPyroDeepGP_model_feed N self (VTensor x) rt = (Ok (xv, dv), rt0) ->
  (x' ← tensor_method xv "size"; size x' (-2)) = Ok n ->
  let plate := HPlate (s +:+ ".data_plate") n (Some (-1)%Z) in
  AbstractPyroDeepGP_model N self (VTensor x) outputs rt
  = match py_truediv (VInt total) n with
    | Raise e => (Raise e, pop plate (push plate rt0))
    | Ok sc =>
        (Raise (scoring_error self),
         pop plate (pop (HScale sc) (push (HScale sc) (push plate rt0))))
    end.
Proof.
  intros Hs Ht Hfeed Hn plate.
  unfold AbstractPyroDeepGP_model. rewrite py_bind_unfold, Hfeed.
  cbn [fst snd]. rewrite py_bind_lift, Hn, py_bind_lift, Hs.
  cbn [str_add]. rewrite py_bind_lift. cbn [as_plate pyro_plate].
  rewrite py_bind_lift. unfold with_handler at 1.
  rewrite py_bind_lift, Ht, py_bind_lift.
  destruct (py_truediv (VInt total) n) as [sc|e]; [|reflexivity].
  unfold with_handler. rewrite AbstractPyroDeepGP_model_score_error.
  reflexivity.
Qed.

(** The quotient of line 198 on an int [total_num_data]. *)
Lemma py_truediv_int total n :
  py_truediv (VInt total) n
  = if n =? 0 then Raise ZeroDivisionError
    else match int_true_divide total (Z.of_nat n) with
         | S754_infinity _ => Raise OverflowError
         | q => Ok q
         end.
Proof. reflexivity. Qed.

(** What is left in the runtime once the quotient is known. *)
Lemma deep_model_scale_cases N self x outputs rt n s total rt0 xv dv :
  getattr self "name_prefix" = Ok (VStr s) ->
  getattr self "total_num_data" = Ok (VInt total) ->
  AbstractPyroDeepGP_model_feed N self (VTensor x) rt = (Ok (xv, dv), rt0) ->
  (x' ← tensor_method xv "size"; size x' (-2)) = Ok n ->
  let r := AbstractPyroDeepGP_model N self (VTensor x) outputs rt in
  let plate := HPlate (s +:+ ".data_plate") n (Some (-1)%Z) in
  let q := int_true_divide total (Z.of_nat n) in
  sample_sites (events (snd r)) = sample_sites (events rt0) /\
  draws (snd r) = draws rt0 /\
  stack (snd r) = stack rt0 /\
  ((n = 0 /\ fst r = Raise ZeroDivisionError /\
    firstn 2 (events (snd r)) = [EvExit plate; EvEnter plate]) \/
   (0 < n /\
    match q with
    | S754_infinity _ =>
        fst r = Raise OverflowError /\
        firstn 2 (events (snd r)) = [EvExit plate; EvEnter plate]
    | _ =>
        fst r = Raise (scoring_error self) /\
        firstn 4 (events (snd r))
        = [EvExit plate; EvExit (HScale q); EvEnter (HScale q); EvEnter plate]
    end)).
Proof.
  intros Hs Ht Hfeed Hn r plate q. subst r.
  rewrite (deep_model_after_feed N self x outputs rt n s total rt0 xv dv
             Hs Ht Hfeed Hn).
  rewrite py_truediv_int. subst q.
  destruct (Nat.eqb_spec n 0) as [-> | Hn0].
  - do 3 (split; [reflexivity|]). left. repeat split.
  - destruct (int_true_divide total (Z.of_nat n));
      (do 3 (split; [reflexivity|]); right; split; [lia|];
       split; reflexivity).
Qed.

(** X17: [AbstractPyroDeepGP.model] without hidden layers on a 2-D input
    [n x D], on a usable terminal layer with an int [total_num_data] and an
    inducing-values sample [O x m].  Unless the Cholesky factorisation
    fails, the data plate of size [n] at [dim=-1] is entered.  For [n = 0]
    the quotient [total_num_data / minibatch_size] of line 198 raises
    ZeroDivisionError inside the plate, which is left again, and a quotient
    too large for a float raises OverflowError in the same place.
    Otherwise the scale handler is entered with the quotient of the two
    integers rounded once to binary64, the scoring statement raises its
    error (NameError for [f_samples] when [self.likelihood] is bound), and
    both handlers are left in reverse order. *)
Theorem X17_deep_model_scale (N : Numerics) (self outputs : Value)
    (x : Tensor) (rt : Runtime) (O m D n : nat) (s : string) (total : Z) :
  layer_ok self O m D ->
  getattr self "name_prefix" = Ok (VStr s) ->
  getattr self "hidden_gp_layers" = Ok (VList []) ->
  getattr self "total_num_data" = Ok (VInt total) ->
  site_shape rt [O; m] -> shape x = [n; D] ->
  let r := AbstractPyroDeepGP_model N self (VTensor x) outputs rt in
  let plate := HPlate (s +:+ ".data_plate") n (Some (-1)%Z) in
  let q := int_true_divide total (Z.of_nat n) in
  fst r = Raise chol_error \/
  (n = 0 /\ fst r = Raise ZeroDivisionError /\
   firstn 2 (events (snd r)) = [EvExit plate; EvEnter plate]) \/
  (0 < n /\
   match q with
   | S754_infinity _ =>
       fst r = Raise OverflowError /\
       firstn 2 (events (snd r)) = [EvExit plate; EvEnter plate]
   | _ =>
       fst r = Raise (scoring_error self) /\
       firstn 4 (events (snd r))
       = [EvExit plate; EvExit (HScale q); EvEnter (HScale q); EvEnter plate]
   end).
Proof.
  intros Hl Hs Hlayers Ht Hsite Hx r plate q.
  pose proof (first_layer_dist N self x rt O m n D Hl Hx Hsite) as Hd.
  cbv zeta in Hd.
  destruct (AbstractPyroHiddenGPLayer_model N self (VTensor x) false rt)
    as [[v|e] rt0] eqn:Em; cbn [fst] in Hd.
  - destruct Hd as [Hd | (d & Hd & _)]; [discriminate|].
    injection Hd as ->.
    assert (Hfeed : AbstractPyroDeepGP_model_feed N self (VTensor x) rt
                    = (Ok (VTensor x, VDist d), rt0)).
    { unfold AbstractPyroDeepGP_model_feed.
      rewrite py_bind_lift, Hlayers. cbn [mbind result_bind rbind as_list].
      rewrite py_bind_unfold. cbn [AbstractPyroDeepGP_model_loop].
      cbn [mret py_ret]. rewrite py_bind_unfold, Em. reflexivity. }
    assert (Hn : (x' ← tensor_method (VTensor x) "size"; size x' (-2)) = Ok n).
    { cbn [tensor_method mbind result_bind rbind].
      now rewrite (size_shape x (-2) _ 0 Hx eq_refl). }
    right.
    exact (proj2 (proj2 (proj2
      (deep_model_scale_cases N self x outputs rt n s total rt0 _ _
         Hs Ht Hfeed Hn)))).
  - left. destruct Hd as [Hd | (d & Hd & _)]; [|discriminate].
    injection Hd as ->. subst r.
    unfold AbstractPyroDeepGP_model, AbstractPyroDeepGP_model_feed.
    rewrite py_bind_unfold, py_bind_lift, Hlayers.
    cbn [mbind result_bind rbind as_list].
    rewrite py_bind_unfold. cbn [AbstractPyroDeepGP_model_loop mret py_ret].
    rewrite py_bind_unfold, Em. reflexivity.
Qed.

Lemma X17_deep_model_scale_witness :
  let N := example_numerics Fzero in
  let self := with_name_prefix (example_deep 10 3 1000 []) "deep" in
  let x := zeros [10; 3] in
  let rt := example_runtime [1; 10] in
  let r := AbstractPyroDeepGP_model N self (VTensor x) (VTensor (zeros [10])) rt in
  let plate := HPlate ("deep" +:+ ".data_plate") 10 (Some (-1)%Z) in
  let q := int_true_divide 1000 (Z.of_nat 10) in
  layer_ok self 1 10 3 /\ site_shape rt [1; 10] /\ shape x = [10; 3] /\
  q = hundred /\ scoring_error self = NameError "f_samples" /\
  (fst r = Raise chol_error \/
   (10 = 0 /\ fst r = Raise ZeroDivisionError /\
    firstn 2 (events (snd r)) = [EvExit plate; EvEnter plate]) \/
   (0 < 10 /\
    match q with
    | S754_infinity _ =>
        fst r = Raise OverflowError /\
        firstn 2 (events (snd r)) = [EvExit plate; EvEnter plate]
    | _ =>
        fst r = Raise (scoring_error self) /\
        firstn 4 (events (snd r))
        = [EvExit plate; EvExit (HScale q); EvEnter (HScale q); EvEnter plate]
    end)).
Proof.
  intros N self x rt r plate q.
  assert (Hl : layer_ok self 1 10 3) by apply example_deep_ok.
  assert (Hs : site_shape rt [1; 10]) by (intros name d; reflexivity).
  split; [exact Hl|]. split; [exact Hs|]. split; [reflexivity|].
  split; [vm_compute; reflexivity|]. split; [vm_compute; reflexivity|].
  apply (X17_deep_model_scale N self (VTensor (zeros [10])) x rt 1 10 3 10
           "deep" 1000 Hl);
    solve [vm_compute; reflexivity | exact Hs].
Defined.

Lemma later_layer_dist N self x rt O n D p :
  layer_ok self O n D -> shape x = [p; n; D] -> site_shape rt [p; O; n] ->
  let r := fst (AbstractPyroHiddenGPLayer_model N self (VTensor x) false rt) in
  r = Raise chol_error \/ exists d, r = Ok (VDist d).
Proof.
  intros Hl Hx Hsite r. subst r.
  destruct (model_inputs_3d self x O n p n D Hl Hx) as (ip & t & Hin & Sip & St).
  destruct (model_prior_shape N self _ O n (n * p) D _ _ _ _ Hl Hin Sip St)
    as [Herr | (pr & Hpr & Hok & Hmb & Hns)].
  - left. unfold AbstractPyroHiddenGPLayer_model. now rewrite py_bind_lift, Herr.
  - right.
    destruct (AbstractPyroHiddenGPLayer_model_stages N self _ false rt pr O n D _
                Hl Hsite Hpr) as (u & rt' & Su & ->).
    destruct (model_moments_later N self pr u O n p D Hl Hok Hns Hmb Su)
      as (mo & -> & Sm & Sd & Sc).
    destruct (model_p_f_dist_shape N mo _ _ Sd Sc Sm (or_introl eq_refl))
      as (d & var & -> & _).
    exists d. reflexivity.
Qed.

(** X18: [AbstractPyroDeepGP.model] on a 3-D input [p x n x D] with [n > 0]
    and an int [total_num_data], over a stack of hidden layers and a usable
    terminal layer that all have [n] inducing points and fit one another,
    with inducing-values samples [p x O_i x n].  Unless a Cholesky
    factorisation fails, every layer runs: one sample site for each layer,
    the terminal one included, two draws for each hidden layer and one for
    the terminal layer.  The data plate then has the size [n] of the second
    to last axis of what the last hidden layer returned.  The scale is the
    quotient of [total_num_data] by [n] rounded once to binary64, and a
    quotient too large for a float raises OverflowError inside the plate;
    otherwise the scoring statement raises its error (NameError for
    [f_samples] when [self.likelihood] is bound).  The handler stack is
    restored. *)
Theorem X18_deep_model_chain (N : Numerics) (self outputs : Value)
    (layers : list Value) (Os : list nat) (x : Tensor) (rt : Runtime)
    (O D n p : nat) (s : string) (total : Z) :
  getattr self "hidden_gp_layers" = Ok (VList layers) ->
  chain_ok layers Os n D -> layer_ok self O n (List.last Os D) ->
  getattr self "name_prefix" = Ok (VStr s) ->
  getattr self "total_num_data" = Ok (VInt total) ->
  shape x = [p; n; D] -> 0 < n ->
  (forall i o, (Os ++ [O]) !! i = Some o ->
     forall name d, shape (site_draw rt (draws rt + 2 * i) name d) = [p; o; n]) ->
  let r := AbstractPyroDeepGP_model N self (VTensor x) outputs rt in
  let plate := HPlate (s +:+ ".data_plate") n (Some (-1)%Z) in
  let q := int_true_divide total (Z.of_nat n) in
  fst r = Raise chol_error \/
  (length (sample_sites (events (snd r)))
   = S (length layers) + length (sample_sites (events rt)) /\
   draws (snd r) = draws rt + 2 * length layers + 1 /\
   stack (snd r) = stack rt /\
   match q with
   | S754_infinity _ =>
       fst r = Raise OverflowError /\
       firstn 2 (events (snd r)) = [EvExit plate; EvEnter plate]
   | _ =>
       fst r = Raise (scoring_error self) /\
       firstn 4 (events (snd r))
       = [EvExit plate; EvExit (HScale q); EvEnter (HScale q); EvEnter plate]
   end).
Proof.
  intros Hlayers Hc Hl Hs Ht Hx Hn Hsite r plate q.
  pose proof (chain_ok_length layers Os n D Hc) as Hlen.
  assert (Hsite' : forall i o, Os !! i = Some o ->
            forall name d,
              shape (site_draw rt (draws rt + 2 * i) name d) = [p; o; n]).
  { intros i o Ho. apply Hsite. rewrite lookup_app_l; [exact Ho|].
    apply lookup_lt_Some in Ho. exact Ho. }
  destruct (model_loop_chain N layers Os x rt p n D Hc Hx Hsite') as [He | Hok].
  - left. subst r.
    unfold AbstractPyroDeepGP_model, AbstractPyroDeepGP_model_feed.
    rewrite py_bind_unfold, py_bind_lift, Hlayers.
    cbn [mbind result_bind rbind as_list].
    rewrite py_bind_unfold.
    destruct (AbstractPyroDeepGP_model_loop N layers (VTensor x) rt)
      as [[v|e] rt1]; cbn [fst] in He; [discriminate|].
    cbn [fst]. exact He.
  - destruct Hok as (t & Hr1 & St & Hd1 & Hs1 & Hk1).
    destruct (AbstractPyroDeepGP_model_loop N layers (VTensor x) rt)
      as [[v|e] rt1] eqn:Eloop; cbn [fst snd] in *; [|discriminate].
    injection Hr1 as ->.
    assert (Hs1' : site_shape rt1 [p; O; n]).
    { intros name d.
      destruct (framed_model_loop N layers (VTensor x) rt) as (_ & Hsd & _).
      rewrite Eloop in Hsd. cbn [snd] in Hsd. rewrite Hsd, Hd1.
      apply Hsite. rewrite lookup_app_r by lia.
      rewrite Hlen, Nat.sub_diag. reflexivity. }
    pose proof (later_layer_dist N self t rt1 O n _ p Hl St Hs1') as Hr.
    cbv zeta in Hr.
    destruct (AbstractPyroHiddenGPLayer_model N self (VTensor t) false rt1)
      as [[v|e] rt0] eqn:Em; cbn [fst] in Hr.
    + destruct Hr as [Hr | (d & Hr)]; [discriminate|].
      injection Hr as ->.
      destruct (model_trace N self _ _ false rt1 rt0 Em)
        as (pr & pl & prefix & _ & _ & _ & Hstack & _ & Hsites & Hdraws).
      assert (Hfeed : AbstractPyroDeepGP_model_feed N self (VTensor x) rt
                      = (Ok (VTensor t, VDist d), rt0)).
      { unfold AbstractPyroDeepGP_model_feed.
        rewrite py_bind_lift, Hlayers. cbn [mbind result_bind rbind as_list].
        rewrite py_bind_unfold, Eloop, py_bind_unfold, Em. reflexivity. }
      assert (Hsz : (x' ← tensor_method (VTensor t) "size"; size x' (-2)) = Ok n).
      { cbn [tensor_method mbind result_bind rbind].
        now rewrite (size_shape t (-2) _ 1 St eq_refl). }
      destruct (deep_model_scale_cases N self x outputs rt n s total rt0
                  _ _ Hs Ht Hfeed Hsz) as (Es & Ed & Ek & Hq).
      right. fold r in Es, Ed, Ek, Hq.
      rewrite Es, Ed, Ek, Hsites, Hdraws, Hstack. cbn [length].
      rewrite Hs1, Hd1, Hk1.
      split; [lia|]. split; [lia|]. split; [reflexivity|].
      destruct Hq as [[Hn0 _] | [_ Hq]]; [lia | exact Hq].
    + left. destruct Hr as [Hr | (d & Hr)]; [|discriminate]. subst r.
      unfold AbstractPyroDeepGP_model, AbstractPyroDeepGP_model_feed.
      rewrite py_bind_unfold, py_bind_lift, Hlayers.
      cbn [mbind result_bind rbind as_list].
      rewrite py_bind_unfold, Eloop, py_bind_unfold, Em. cbn [fst]. exact Hr.
Qed.

Lemma X18_deep_model_chain_witness :
  let N := example_numerics Fzero in
  let layers := [with_name_prefix (example_layer 2 5 3) "h1";
                 with_name_prefix (example_layer 4 5 2) "h2"] in
  let self := with_name_prefix (example_deep 5 4 1000 layers) "deep" in
  let x := zeros [3; 5; 3] in
  let rt := example_runtime_seq [(0, [3; 2; 5]); (2, [3; 4; 5])] [3; 1; 5] in
  let r := AbstractPyroDeepGP_model N self (VTensor x) (VTensor (zeros [5])) rt in
  let plate := HPlate ("deep" +:+ ".data_plate") 5 (Some (-1)%Z) in
  let q := int_true_divide 1000 (Z.of_nat 5) in
  chain_ok layers [2; 4] 5 3 /\ layer_ok self 1 5 4 /\ shape x = [3; 5; 3] /\
  q = float_of_Z 200 /\
  (fst r = Raise chol_error \/
   (length (sample_sites (events (snd r)))
    = S (length layers) + length (sample_sites (events rt)) /\
    draws (snd r) = draws rt + 2 * length layers + 1 /\
    stack (snd r) = stack rt /\
    match q with
    | S754_infinity _ =>
        fst r = Raise OverflowError /\
        firstn 2 (events (snd r)) = [EvExit plate; EvEnter plate]
    | _ =>
        fst r = Raise (scoring_error self) /\
        firstn 4 (events (snd r))
        = [EvExit plate; EvExit (HScale q); EvEnter (HScale q); EvEnter plate]
    end)).
Proof.
  intros N layers self x rt r plate q.
  assert (Hc : chain_ok layers [2; 4] 5 3).
  { split; [apply example_layer_ok|]. split; [apply example_layer_ok | exact I]. }
  assert (Hl : layer_ok self 1 5 4) by apply example_deep_ok.
  split; [exact Hc|]. split; [exact Hl|]. split; [reflexivity|].
  split; [vm_compute; reflexivity|].
  apply (X18_deep_model_chain N self (VTensor (zeros [5]))
           layers [2; 4] x rt 1 3 5 3 "deep" 1000);
    try solve [vm_compute; reflexivity | exact Hc | exact Hl | lia].
  intros i o Ho name d.
  destruct i as [|[|[|i]]]; cbn in Ho; [| | |discriminate Ho];
    injection Ho as <-; reflexivity.
Defined.

(** ** [__init__] *)

(** X19: [__init__] gives a layer that [model] can use once the strategy
    carries inducing points [O x m x D] and the parent class or a subclass
    provides [forward] and [name_prefix].  The constructor argument
    [name_prefix] goes into the name of the output plate only:
    [self.name_prefix] stays what the rest of the object binds it to.
    The body of [AbstractPyroDeepGP.__init__] (lines 173-181) keeps all of
    this and binds [hidden_gp_layers] and [total_num_data] in addition. *)
Theorem X19_init_usable_layer (base : gmap string Value) (vs : Value)
    (ip : Tensor) (f : Tensor -> Result MVN) (s pre : string) (O m D : nat) :
  getattr vs "inducing_points" = Ok (VTensor ip) -> shape ip = [O; m; D] ->
  base !! "forward" = Some (VForward f) -> forward_contract f ->
  base !! "name_prefix" = Some (VStr s) ->
  let self := AbstractPyroHiddenGPLayer_init base vs D O pre in
  layer_ok self O m D /\
  getattr self "output_dim_plate" ≫= as_plate
  = Ok (HPlate (pre +:+ ".n_output_plate") O None) /\
  getattr self "name_prefix" = Ok (VStr s) /\
  forall total layers,
    let deep := AbstractPyroDeepGP_init base vs D O total pre layers in
    layer_ok deep O m D /\
    getattr deep "hidden_gp_layers" = Ok layers /\
    getattr deep "total_num_data" = Ok total /\
    getattr deep "output_dim_plate" = getattr self "output_dim_plate" /\
    getattr deep "name_prefix" = Ok (VStr s).
Proof.
  intros Hip Sip Hf Hc Hs self.
  assert (Hl : layer_ok self O m D).
  { subst self.
    unfold AbstractPyroHiddenGPLayer_init, AbstractVariationalGP_init, setattr.
    constructor; unfold getattr at 1.
    - exists vs, ip.
      rewrite !lookup_insert_ne by discriminate. rewrite lookup_insert_eq. auto.
    - rewrite !lookup_insert_ne by discriminate. rewrite lookup_insert_eq.
      apply as_nat_of_nat.
    - rewrite !lookup_insert_ne by discriminate. rewrite lookup_insert_eq.
      apply as_nat_of_nat.
    - exists f. rewrite !lookup_insert_ne by discriminate. rewrite Hf. auto.
    - eexists. rewrite lookup_insert_eq. reflexivity.
    - exists s. rewrite !lookup_insert_ne by discriminate. now rewrite Hs. }
  split; [exact Hl|]. split; [|split].
  - subst self. unfold AbstractPyroHiddenGPLayer_init, setattr, getattr.
    rewrite lookup_insert_eq. reflexivity.
  - subst self.
    unfold AbstractPyroHiddenGPLayer_init, AbstractVariationalGP_init, setattr, getattr.
    rewrite !lookup_insert_ne by discriminate. now rewrite Hs.
  - intros total layers deep.
    assert (Hk : forall k, k <> "hidden_gp_layers" -> k <> "total_num_data" ->
                 getattr deep k = getattr self k).
    { intros k H1 H2. subst deep self.
      unfold AbstractPyroDeepGP_init, AbstractPyroHiddenGPLayer_init, setattr, getattr.
      now rewrite !(lookup_insert_ne _ _ k) by congruence. }
    split; [|split; [|split; [|split]]].
    + destruct Hl as [(vs' & ip' & H1 & H2) H3 H4 (f' & H5 & H6) (pl & H7) (s' & H8)].
      constructor; rewrite ?Hk by discriminate; eauto.
    + subst deep.
      unfold AbstractPyroDeepGP_init, AbstractPyroHiddenGPLayer_init, setattr, getattr.
      rewrite lookup_insert_ne by discriminate. now rewrite lookup_insert_eq.
    + subst deep.
      unfold AbstractPyroDeepGP_init, AbstractPyroHiddenGPLayer_init, setattr, getattr.
      now rewrite lookup_insert_eq.
    + apply Hk; discriminate.
    + rewrite Hk by discriminate. subst self.
      unfold AbstractPyroHiddenGPLayer_init, AbstractVariationalGP_init, setattr, getattr.
      rewrite !lookup_insert_ne by discriminate. now rewrite Hs.
Qed.

Lemma X19_init_usable_layer_witness :
  let base := <["name_prefix" := VStr "h"]> example_base in
  let self := AbstractPyroHiddenGPLayer_init base (example_strategy 2 5 3) 3 2 "layer" in
  layer_ok self 2 5 3 /\
  getattr self "output_dim_plate" ≫= as_plate
  = Ok (HPlate ("layer" +:+ ".n_output_plate") 2 None) /\
  getattr self "name_prefix" = Ok (VStr "h").
Proof.
  intros base self.
  assert (H1 : getattr (example_strategy 2 5 3) "inducing_points"
               = Ok (VTensor (zeros [2; 5; 3]))) by (vm_compute; reflexivity).
  assert (H2 : base !! "forward" = Some (VForward example_forward))
    by (vm_compute; reflexivity).
  assert (H3 : base !! "name_prefix" = Some (VStr "h"))
    by (vm_compute; reflexivity).
  destruct (X19_init_usable_layer base (example_strategy 2 5 3) (zeros [2; 5; 3])
              example_forward "h" "layer" 2 5 3 H1 eq_refl H2
              example_forward_contract H3) as (A & B & C & _).
  split; [exact A|]. split; [exact B | exact C].
Defined.
